(** * DeenVerse backend: the connection ledger, its counters and notifications

    A shallow embedding of the connection workflow of the backend:

    - [backend/src/models/User.js]        (the account schema),
    - [backend/src/models/Connection.js]  (the connection ledger),
    - the notification model ([backend/src/models/Post.js], from line 200),
    - [backend/src/controllers/imaamController.js]
      ([getImaamById], [requestConnection], [getConnectionRequests],
      [acceptConnection], [rejectConnection]),
    - the user controller ([deleteProfile], [getUserById], [followUser],
      [unfollowUser], [getFollowers], [getFollowing]),
    - the likes and the feed of the post model
      ([backend/src/models/Post.js], up to line 199) with the handlers
      [likePost], [unlikePost] and [getFeed] of the post controller.

    The document store is a record of three collections, each a list in
    insertion (natural) order; [findOne] returns the first match in that
    order.  A request handler is a computation in a small state-and-exit
    monad: the store is threaded through every awaited call and is NOT
    restored when a call rejects, as no transaction spans a handler.

    Ids and dates are natural numbers.  A string is held as the bytes of its
    UTF-8 encoding; its length, as [String.prototype.length] and the
    [maxlength] validators count it, is the number of its UTF-16 code units
    ([js_length]), and [trim] strips the white space and line terminators of
    the language, not only the ASCII ones.  Of a user
    document the fields the workflow reads and its Number-typed fields are
    kept; the [updatedAt] stamps are left out.  Schema-level behaviour of the
    modelling layer is written out where a handler depends on it: validation
    before the pre-save hooks, the unique index of the ledger, and the cast
    of an update document against the schema. *)

From Stdlib Require Import ZArith String List Bool Ascii Lia.
From Stdlib Require Import Permutation Sorted.
From stdpp Require Import base option list strings gmap.
Import ListNotations.

Set Warnings "-register-all".

Local Open Scope string_scope.
Local Open Scope list_scope.
Local Open Scope nat_scope.

(** ** Identifiers, dates and the enumerations of the schemas *)

(** An ObjectId; the store hands out fresh ones from a counter. *)
Definition ObjectId := nat.
(** A point in time (the value of [new Date()] / [Date.now]). *)
Definition Date := nat.

(** [role] of User.js:25-30. *)
Inductive Role := student | imaam | admin.
(** [status] of Connection.js:17-21. *)
Inductive Status := pending | accepted | rejected | blocked.
(** [type] of Connection.js:23-27. *)
Inductive ConnType := student_teacher | peer | mentor_mentee.
(** [priority] of the notification schema. *)
Inductive Priority := low | medium | high | urgent.
(** [relatedEntityType] of the notification schema. *)
Inductive EntityType := ent_post | ent_comment | ent_user | ent_connection | ent_lesson.

#[global] Instance Role_eq_dec : EqDecision Role.
Proof. solve_decision. Defined.
#[global] Instance Status_eq_dec : EqDecision Status.
Proof. solve_decision. Defined.
#[global] Instance ConnType_eq_dec : EqDecision ConnType.
Proof. solve_decision. Defined.
#[global] Instance Priority_eq_dec : EqDecision Priority.
Proof. solve_decision. Defined.

Definition Role_str (r : Role) : string :=
  match r with student => "student" | imaam => "imaam" | admin => "admin" end.
Definition Status_str (s : Status) : string :=
  match s with
  | pending => "pending" | accepted => "accepted"
  | rejected => "rejected" | blocked => "blocked"
  end.
Definition ConnType_str (t : ConnType) : string :=
  match t with
  | student_teacher => "student-teacher" | peer => "peer"
  | mentor_mentee => "mentor-mentee"
  end.

Definition Status_eqb (a b : Status) : bool := bool_decide (a = b).
Definition Role_eqb (a b : Role) : bool := bool_decide (a = b).

(** ** JSON values, for response bodies and free-form payloads *)

Inductive json :=
| JNull
| JBool (b : bool)
| JNum (z : Z)
| JStr (s : string)
| JArr (l : list json)
| JObj (fields : list (string * json)).

(** The own keys of an object, in order; any other value has none. *)
Definition keys (j : json) : list string :=
  match j with JObj fs => map fst fs | _ => [] end.

Definition has_key (k : string) (j : json) : bool :=
  existsb (String.eqb k) (keys j).

(** [j[k]]: the first field of that name. *)
Definition field (k : string) (j : json) : option json :=
  match j with
  | JObj fs => snd <$> find (fun kv => String.eqb k (fst kv)) fs
  | _ => None
  end.

Definition JOpt {A} (f : A -> json) (o : option A) : json :=
  match o with Some a => f a | None => JNull end.
Definition JId (i : ObjectId) : json := JNum (Z.of_nat i).
Definition JDate (t : Date) : json := JNum (Z.of_nat t).

(** ** Strings *)

(** The UTF-16 code units one byte of the encoding accounts for: none for
    a continuation byte (10xxxxxx), two for the lead byte of a four-byte
    sequence (a code point above U+FFFF is a surrogate pair), one for any
    other byte. *)
Definition units (a : ascii) : nat :=
  let n := nat_of_ascii a in
  if (128 <=? n) && (n <? 192) then 0 else if 240 <=? n then 2 else 1.

(** [s.length]. *)
Fixpoint js_length (s : string) : nat :=
  match s with
  | EmptyString => 0
  | String a r => units a + js_length r
  end.

(** The white space and line terminators [String.prototype.trim] strips,
    by the bytes of their encoding: U+0009 to U+000D and U+0020; U+00A0;
    U+1680, U+2000 to U+200A, U+2028, U+2029, U+202F, U+205F, U+3000 and
    U+FEFF. *)
Definition is_space1 (a : ascii) : bool :=
  let n := nat_of_ascii a in (n =? 32) || ((9 <=? n) && (n <=? 13)).

Definition is_space2 (a b : ascii) : bool :=
  (nat_of_ascii a =? 194) && (nat_of_ascii b =? 160).

Definition is_space3 (a b c : ascii) : bool :=
  let x := nat_of_ascii a in
  let y := nat_of_ascii b in
  let z := nat_of_ascii c in
  ((x =? 225) && (y =? 154) && (z =? 128))
  || ((x =? 226) && (y =? 128)
      && (((128 <=? z) && (z <=? 138)) || (z =? 168) || (z =? 169)
          || (z =? 175)))
  || ((x =? 226) && (y =? 129) && (z =? 159))
  || ((x =? 227) && (y =? 128) && (z =? 128))
  || ((x =? 239) && (y =? 187) && (z =? 191)).

(** Strips the white space at the head of [s]; with [back] set, [s] is a
    text read from its end, so that each encoding comes last byte first. *)
Fixpoint strip (back : bool) (s : string) : string :=
  match s with
  | EmptyString => s
  | String x r =>
      if is_space1 x then strip back r
      else
        match r with
        | EmptyString => s
        | String y r2 =>
            if (if back then is_space2 y x else is_space2 x y)
            then strip back r2
            else
              match r2 with
              | EmptyString => s
              | String z r3 =>
                  if (if back then is_space3 z y x else is_space3 x y z)
                  then strip back r3
                  else s
              end
        end
  end.

(** [s.trim()]. *)
Definition js_trim (s : string) : string :=
  String.rev (strip true (String.rev (strip false s))).

(** ** Documents *)

(** A user document.  [nums] holds the Number-typed fields the stored
    document has, by path ([experience], [studentsCount], [rating.count],
    ...); the remaining fields are those the connection workflow reads. *)
Record UserDoc := mkUser {
  u_id : ObjectId;
  fullName : string;
  role : Role;
  islamicProfile : string;
  bio : option string;
  profilePicture : option string;
  isVerified : bool;
  isActive : bool;
  nums : gmap string Z
}.

(** A connection document (Connection.js:3-48, with [timestamps]). *)
Record ConnectionDoc := mkConnection {
  c_id : ObjectId;
  requester : ObjectId;
  recipient : ObjectId;
  status : Status;
  ctype : ConnType;
  message : option string;
  acceptedAt : option Date;
  lastInteraction : Date;
  createdAt : Date
}.

(** A notification document. *)
Record NotificationDoc := mkNotification {
  n_id : ObjectId;
  n_recipient : ObjectId;
  n_sender : option ObjectId;
  n_type : string;
  n_title : string;
  n_message : string;
  n_relatedEntity : option ObjectId;
  n_relatedEntityType : option EntityType;
  n_isRead : bool;
  n_readAt : option Date;
  n_priority : Priority;
  n_actionData : json;
  n_createdAt : Date
}.

(** The document store. *)
Record DB := mkDB {
  users : list UserDoc;
  connections : list ConnectionDoc;
  notifications : list NotificationDoc;
  nextId : ObjectId
}.

(** ** Handler computations *)

(** What an awaited model call can reject with. *)
Inductive Error :=
| AppError (msg : string) (statusCode : nat)
| ValidationError (path : string)
| CastError (path : string)
| DuplicateKey                       (* E11000, a unique index refused the write *)
| StoreWriteFailed.                  (* the write did not reach the store *)

(** How a handler leaves: it sends a response, it hands an [AppError] to
    [next], or one of its awaited calls rejects (the rejection leaves the
    async function, nothing after the [await] runs). *)
Inductive Exit :=
| Respond (code : nat) (body : json)
| Next (msg : string) (statusCode : nat)
| Rejected (e : Error).

Definition M (A : Type) : Type := DB -> (Exit + A) * DB.

Definition ret {A} (a : A) : M A := fun d => (inr a, d).
Definition bind {A B} (m : M A) (k : A -> M B) : M B :=
  fun d => match m d with
           | (inr a, d') => k a d'
           | (inl e, d') => (inl e, d')
           end.
Definition leave {A} (e : Exit) : M A := fun d => (inl e, d).
Definition throw {A} (e : Error) : M A := leave (Rejected e).
Definition get : M DB := fun d => (inr d, d).
Definition put (d' : DB) : M unit := fun _ => (inr tt, d').

Notation "'let*' x := m 'in' k" := (bind m (fun x => k))
  (at level 10, x name, m at level 100, k at level 200).
Notation "m ;; k" := (bind m (fun _ => k))
  (at level 100, k at level 200, right associativity).

(** A handler always ends by leaving. *)
Definition handler := DB -> Exit * DB.
Definition handle (m : M Exit) : handler :=
  fun d => match m d with
           | (inl e, d') => (e, d')
           | (inr e, d') => (e, d')
           end.

(** The store's fresh ObjectId. *)
Definition freshId : M ObjectId :=
  fun d => (inr (nextId d),
            mkDB (users d) (connections d) (notifications d) (S (nextId d))).

(** ** The account directory: backend/src/models/User.js *)

Module User.

(** Every path [userSchema] declares (User.js:4-124). *)
Definition schema_paths : list string :=
  [ "fullName"; "email"; "password"; "role"; "islamicProfile"; "bio";
    "profilePicture"; "isVerified"; "isActive"; "lastLogin";
    "specializations"; "experience"; "rating.average"; "rating.count";
    "studentsCount";
    "socialLinks.website"; "socialLinks.facebook"; "socialLinks.twitter";
    "socialLinks.instagram"; "socialLinks.youtube";
    "location.country"; "location.city"; "location.timezone";
    "preferences.language"; "preferences.notifications.email";
    "preferences.notifications.push" ].

(** The declared paths of type Number. *)
Definition number_paths : list string :=
  [ "experience"; "rating.average"; "rating.count"; "studentsCount" ].

Definition in_paths (p : string) (l : list string) : bool :=
  existsb (String.eqb p) l.

(** [doc[path]] for a numeric path; [None] is [undefined]. *)
Definition get_num (path : string) (u : UserDoc) : option Z := nums u !! path.

(** The denormalised counter the connection service maintains. *)
Definition connectionsCount (u : UserDoc) : option Z :=
  get_num "connectionsCount" u.

Definition set_nums (u : UserDoc) (m : gmap string Z) : UserDoc :=
  mkUser (u_id u) (fullName u) (role u) (islamicProfile u) (bio u)
         (profilePicture u) (isVerified u) (isActive u) m.

(** The store's [$inc]: an atomic relative update of one field of one
    document; a field that is absent counts as 0. *)
Definition apply_inc (path : string) (delta : Z) (u : UserDoc) : UserDoc :=
  set_nums u (<[path := (default 0%Z (nums u !! path) + delta)%Z]> (nums u)).

(** The update document [{ $inc: { path: delta } }] after the model has
    cast it against [userSchema].  The schema options (User.js:124-128) set
    [timestamps], [toJSON] and [toObject] and leave [strict] at its default,
    so an operator on a path the schema does not declare is removed from the
    update; on a declared path that is not a Number the cast fails. *)
Inductive CastInc := IncKept | IncDropped | IncCastError.

Definition cast_inc (path : string) : CastInc :=
  if in_paths path number_paths then IncKept
  else if in_paths path schema_paths then IncCastError
  else IncDropped.

Fixpoint update_first (id : ObjectId) (f : UserDoc -> UserDoc)
         (l : list UserDoc) : list UserDoc :=
  match l with
  | [] => []
  | u :: r => if u_id u =? id then f u :: r else u :: update_first id f r
  end.

Definition set_users (d : DB) (us : list UserDoc) : DB :=
  mkDB us (connections d) (notifications d) (nextId d).

(** [User.findOne(filter)]. *)
Definition findOne (flt : UserDoc -> bool) : M (option UserDoc) :=
  fun d => (inr (find flt (users d)), d).

(** [User.findById(id)]. *)
Definition findById (id : ObjectId) : M (option UserDoc) :=
  findOne (fun u => u_id u =? id).

(** [User.findByIdAndUpdate(id, { $inc: { path: delta } })]; resolves to
    the document as it was before the update. *)
Definition findByIdAndUpdate_inc (id : ObjectId) (path : string) (delta : Z)
  : M (option UserDoc) :=
  match cast_inc path with
  | IncCastError => throw (CastError path)
  | IncDropped => findById id
  | IncKept =>
      fun d => (inr (find (fun u => u_id u =? id) (users d)),
                set_users d (update_first id (apply_inc path delta) (users d)))
  end.

(** A populated reference: the fields of [select], with [_id]. *)
Definition user_field (u : UserDoc) (name : string) : list (string * json) :=
  if String.eqb name "fullName" then [(name, JStr (fullName u))]
  else if String.eqb name "role" then [(name, JStr (Role_str (role u)))]
  else if String.eqb name "islamicProfile" then [(name, JStr (islamicProfile u))]
  else if String.eqb name "profilePicture" then [(name, JOpt JStr (profilePicture u))]
  else if String.eqb name "bio" then
    match bio u with Some b => [(name, JStr b)] | None => [] end
  else [].

Definition project (select : list string) (u : UserDoc) : json :=
  JObj (("_id", JId (u_id u)) :: concat (map (user_field u) select)).

(** [populate(path, select)] of one reference: the referenced user's
    projection, or [null] when no such user is stored. *)
Definition populate (select : list string) (id : ObjectId) (d : DB) : json :=
  JOpt (project select) (find (fun u => u_id u =? id) (users d)).

(** The document as [toObject()] shows it in a response, over the fields
    kept here ([select('-password')] removes a field that is not kept). *)
Definition to_object (u : UserDoc) : list (string * json) :=
  [ ("_id", JId (u_id u));
    ("fullName", JStr (fullName u));
    ("role", JStr (Role_str (role u)));
    ("islamicProfile", JStr (islamicProfile u)) ]
  ++ match bio u with Some b => [("bio", JStr b)] | None => [] end
  ++ [ ("profilePicture", JOpt JStr (profilePicture u));
       ("isVerified", JBool (isVerified u));
       ("isActive", JBool (isActive u)) ].

Definition set_active (u : UserDoc) (b : bool) : UserDoc :=
  mkUser (u_id u) (fullName u) (role u) (islamicProfile u) (bio u)
         (profilePicture u) (isVerified u) b (nums u).

(** [User.findByIdAndUpdate(id, update)] for an update [f] of declared
    paths; resolves to the document as it was before the update. *)
Definition findByIdAndUpdate_set (id : ObjectId) (f : UserDoc -> UserDoc)
  : M (option UserDoc) :=
  fun d => (inr (find (fun u => u_id u =? id) (users d)),
            set_users d (update_first id f (users d))).

End User.

(** ** The connection ledger: backend/src/models/Connection.js *)

Module Connection.

Definition set_connections (d : DB) (cs : list ConnectionDoc) : DB :=
  mkDB (users d) cs (notifications d) (nextId d).

Definition set_status (c : ConnectionDoc) (s : Status) (acc : option Date)
           (now : Date) : ConnectionDoc :=
  mkConnection (c_id c) (requester c) (recipient c) s (ctype c) (message c)
               acc now (createdAt c).

(** The [trim] setter of the [message] path. *)
Definition trim (s : string) : string := js_trim s.

(** Built-in validation of a new document: [message] has [maxlength] 200,
    which compares [message.length]; the other paths are set from constants
    of the enumerations. *)
Definition validate (c : ConnectionDoc) : M unit :=
  match message c with
  | Some m => if 200 <? js_length m
              then throw (ValidationError "message") else ret tt
  | None => ret tt
  end.

(** Connection.js:57-64, the pre-save hook. *)
Definition pre_save (c : ConnectionDoc) : M unit :=
  if requester c =? recipient c
  then throw (AppError "Cannot connect to yourself" 400)
  else ret tt.

(** Connection.js:67-80, the post-save hook; [isNew] is what the hook reads
    from [this.isNew]. *)
Definition post_save (isNew : bool) (c : ConnectionDoc) : M unit :=
  if isNew && Status_eqb (status c) accepted then
    User.findByIdAndUpdate_inc (requester c) "connectionsCount" 1 ;;
    User.findByIdAndUpdate_inc (recipient c) "connectionsCount" 1 ;;
    ret tt
  else ret tt.

(** Line 51: the unique index over the ordered pair (requester, recipient). *)
Definition same_ordered (a b : ConnectionDoc) : bool :=
  (requester a =? requester b) && (recipient a =? recipient b).

Definition insert (c : ConnectionDoc) : M unit :=
  fun d => if existsb (same_ordered c) (connections d)
           then (inl (Rejected DuplicateKey), d)
           else (inr tt, set_connections d (connections d ++ [c])).

Fixpoint replace_by_id (c : ConnectionDoc) (l : list ConnectionDoc)
  : list ConnectionDoc :=
  match l with
  | [] => []
  | x :: r => if c_id x =? c_id c then c :: r else x :: replace_by_id c r
  end.

(** The write of [save()] on a stored document: update by [_id]. *)
Definition update (c : ConnectionDoc) : M unit :=
  fun d => (inr tt, set_connections d (replace_by_id c (connections d))).

(** [Connection.create(fields)]: a new document with the schema defaults
    ([acceptedAt] null, [lastInteraction] and [createdAt] now), validated,
    run through the hooks and inserted.  The post-save hook is given
    [isNew = true], the reading most favourable to it. *)
Definition create (now : Date) (req rcp : ObjectId) (t : ConnType)
           (msg : option string) (st : Status) : M ConnectionDoc :=
  let* id := freshId in
  let c := mkConnection id req rcp st t (trim <$> msg) None now now in
  validate c ;; pre_save c ;; insert c ;; post_save true c ;; ret c.

(** [doc.save()] on a document that came from a query; only [status],
    [acceptedAt] and [lastInteraction] are modified, all valid. *)
Definition save (c : ConnectionDoc) : M ConnectionDoc :=
  pre_save c ;; update c ;; post_save false c ;; ret c.

(** Lines 134-153: the instance methods. *)
Definition accept (now : Date) (c : ConnectionDoc) : M ConnectionDoc :=
  save (set_status c accepted (Some now) now).
Definition reject (now : Date) (c : ConnectionDoc) : M ConnectionDoc :=
  save (set_status c rejected (acceptedAt c) now).
Definition block (now : Date) (c : ConnectionDoc) : M ConnectionDoc :=
  save (set_status c blocked (acceptedAt c) now).

(** [Connection.findOne(filter)]: the first match in natural order. *)
Definition findOne (flt : ConnectionDoc -> bool) : M (option ConnectionDoc) :=
  fun d => (inr (find flt (connections d)), d).

(** The filter [{ $or: [ {requester: a, recipient: b},
                         {requester: b, recipient: a} ] }]. *)
Definition between (a b : ObjectId) (c : ConnectionDoc) : bool :=
  ((requester c =? a) && (recipient c =? b))
  || ((requester c =? b) && (recipient c =? a)).

(** Lines 124-131. *)
Definition getConnection (userId1 userId2 : ObjectId) : M (option ConnectionDoc) :=
  findOne (between userId1 userId2).

(** Both clauses carry [status: 'accepted'] (lines 114-121). *)
Definition accepted_between (a b : ObjectId) (c : ConnectionDoc) : bool :=
  between a b c && Status_eqb (status c) accepted.

Definition areConnected (userId1 userId2 : ObjectId) : M (option ConnectionDoc) :=
  findOne (accepted_between userId1 userId2).

Fixpoint remove_first (flt : ConnectionDoc -> bool) (l : list ConnectionDoc)
  : list ConnectionDoc :=
  match l with
  | [] => []
  | x :: r => if flt x then r else x :: remove_first flt r
  end.

(** [Connection.findOneAndDelete(filter)]. *)
Definition findOneAndDelete (flt : ConnectionDoc -> bool)
  : M (option ConnectionDoc) :=
  fun d => (inr (find flt (connections d)),
            set_connections d (remove_first flt (connections d))).

(** [sort({ createdAt: -1 })], stable. *)
Fixpoint insert_desc (c : ConnectionDoc) (l : list ConnectionDoc)
  : list ConnectionDoc :=
  match l with
  | [] => [c]
  | x :: r => if createdAt x <=? createdAt c then c :: x :: r
              else x :: insert_desc c r
  end.

Definition sort_newest_first (l : list ConnectionDoc) : list ConnectionDoc :=
  fold_right insert_desc [] l.

(** Lines 100-111; [populate] is applied where the result is rendered. *)
Definition getPendingConnections (userId : ObjectId) (page limit : nat)
  : M (list ConnectionDoc) :=
  fun d =>
    let skip := (page - 1) * limit in
    let found := List.filter (fun c => (recipient c =? userId)
                                  && Status_eqb (status c) pending)
                        (connections d) in
    (inr (firstn limit (skipn skip (sort_newest_first found))), d).

(** The document as a response shows it; a reference is populated with the
    given selection, or left as an id. *)
Definition ref_json (sel : option (list string)) (id : ObjectId) (d : DB) : json :=
  match sel with
  | Some fields => User.populate fields id d
  | None => JId id
  end.

Definition to_json (sel_req sel_rcp : option (list string)) (d : DB)
           (c : ConnectionDoc) : json :=
  JObj ([ ("_id", JId (c_id c));
          ("requester", ref_json sel_req (requester c) d);
          ("recipient", ref_json sel_rcp (recipient c) d);
          ("status", JStr (Status_str (status c)));
          ("type", JStr (ConnType_str (ctype c))) ]
        ++ match message c with Some m => [("message", JStr m)] | None => [] end
        ++ [ ("acceptedAt", JOpt JDate (acceptedAt c));
             ("lastInteraction", JDate (lastInteraction c));
             ("createdAt", JDate (createdAt c)) ]).

(** [limit(n)] of a query: the store treats 0 as no limit. *)
Definition take_limit {A} (limit : nat) (l : list A) : list A :=
  if limit =? 0 then l else firstn limit l.

(** [sort({ lastInteraction: -1 })], stable. *)
Fixpoint insert_desc_by (key : ConnectionDoc -> nat) (c : ConnectionDoc)
         (l : list ConnectionDoc) : list ConnectionDoc :=
  match l with
  | [] => [c]
  | x :: r => if key x <=? key c then c :: x :: r
              else x :: insert_desc_by key c r
  end.

Definition sort_desc_by (key : ConnectionDoc -> nat) (l : list ConnectionDoc)
  : list ConnectionDoc :=
  fold_right (insert_desc_by key) [] l.

(** The filter [{ $or: [ {requester: u, status}, {recipient: u, status} ] }]. *)
Definition involves (userId : ObjectId) (st : Status) (c : ConnectionDoc) : bool :=
  ((requester c =? userId) && Status_eqb (status c) st)
  || ((recipient c =? userId) && Status_eqb (status c) st).

(** Lines 83-97; the callers' defaults are [status = 'accepted'], [page = 1],
    [limit = 20]. *)
Definition getUserConnections (userId : ObjectId) (st : Status)
           (page limit : nat) : M (list ConnectionDoc) :=
  fun d =>
    let skip := (page - 1) * limit in
    let found := List.filter (involves userId st) (connections d) in
    (inr (take_limit limit (skipn skip (sort_desc_by lastInteraction found))), d).

End Connection.

(** ** The notification sink (the notification model) *)

Module Notification.

(** The argument of [createNotification]. *)
Record Data := mkData {
  recipient : ObjectId;
  sender : option ObjectId;
  type : string;
  title : string;
  message : string;
  relatedEntity : option ObjectId;
  relatedEntityType : option EntityType;
  priority : option Priority;
  actionData : option json
}.

(** The [enum] of the [type] path. *)
Definition type_enum : list string :=
  [ "connection_request"; "connection_accepted"; "post_like";
    "post_comment"; "comment_like"; "new_follower"; "lesson_reminder";
    "system_announcement"; "message_received" ].

(** The table of the pre-save hook. *)
Definition priorityMap : list (string * Priority) :=
  [ ("connection_request", medium);
    ("connection_accepted", medium);
    ("post_like", low);
    ("post_comment", medium);
    ("comment_like", low);
    ("new_follower", low);
    ("lesson_reminder", high);
    ("system_announcement", high);
    ("message_received", high) ].

(** The table's own entry for [t]. *)
Definition lookup_priority (t : string) : option Priority :=
  snd <$> find (fun kv => String.eqb t (fst kv)) priorityMap.

(** The members an object literal inherits from [Object.prototype]: its
    functions and the accessor [__proto__], all truthy. *)
Definition object_prototype : list string :=
  [ "constructor"; "__defineGetter__"; "__defineSetter__"; "hasOwnProperty";
    "__lookupGetter__"; "__lookupSetter__"; "isPrototypeOf";
    "propertyIsEnumerable"; "toString"; "valueOf"; "__proto__";
    "toLocaleString" ].

(** [priorityMap[t]]: an entry of the table, a member inherited from
    [Object.prototype], or [undefined]. *)
Inductive TableValue := Entry (p : Priority) | Inherited | Undefined.

Definition table_get (t : string) : TableValue :=
  match lookup_priority t with
  | Some p => Entry p
  | None => if existsb (String.eqb t) object_prototype then Inherited
            else Undefined
  end.

Definition set_priority (n : NotificationDoc) (p : Priority) : NotificationDoc :=
  mkNotification (n_id n) (n_recipient n) (n_sender n) (n_type n) (n_title n)
                 (n_message n) (n_relatedEntity n) (n_relatedEntityType n)
                 (n_isRead n) (n_readAt n) p (n_actionData n) (n_createdAt n).

(** The pre-save hook: [if (this.isNew) { if (!this.priority ||
    this.priority === 'medium') this.priority = priorityMap[this.type] ||
    'medium' }]. A [Priority] is never falsy.  For a type that names an
    inherited member the hook assigns that member, which is no value of the
    priority enumeration: the result is no [NotificationDoc], [None]. *)
Definition pre_save (isNew : bool) (n : NotificationDoc)
  : option NotificationDoc :=
  if isNew then
    if bool_decide (n_priority n = medium)
    then match table_get (n_type n) with
         | Entry p => Some (set_priority n p)
         | Undefined => Some (set_priority n medium)
         | Inherited => None
         end
    else Some n
  else Some n.

(** Built-in validation: the [type] enumeration; [title] and [message]
    required (not the empty string) and of a [length] of at most 100 and
    300. *)
Definition validate (n : NotificationDoc) : M unit :=
  if negb (existsb (String.eqb (n_type n)) type_enum)
  then throw (ValidationError "type")
  else if (String.length (n_title n) =? 0) || (100 <? js_length (n_title n))
  then throw (ValidationError "title")
  else if (String.length (n_message n) =? 0) || (300 <? js_length (n_message n))
  then throw (ValidationError "message")
  else ret tt.

Definition set_notifications (d : DB) (ns : list NotificationDoc) : DB :=
  mkDB (users d) (connections d) ns (nextId d).

(** The write itself; [up] tells whether it reaches the store. *)
Definition insert (up : bool) (n : NotificationDoc) : M unit :=
  fun d => if up then (inr tt, set_notifications d (notifications d ++ [n]))
           else (inl (Rejected StoreWriteFailed), d).

(** [Notification.create(fields)]. *)
Definition create (up : bool) (now : Date) (rcp : ObjectId)
           (snd_ : option ObjectId) (t ttl msg : string)
           (ent : option ObjectId) (entT : option EntityType)
           (p : Priority) (act : json) : M NotificationDoc :=
  let* id := freshId in
  let n := mkNotification id rcp snd_ t ttl msg ent entT false None p act now in
  validate n ;;
  match pre_save true n with
  | Some n' => insert up n' ;; ret n'
  | None =>
      (* not reached: [validate] admits the types of the enumeration only,
         and each of them is an entry of the table *)
      throw (CastError "priority")
  end.

(** The static [createNotification(data)]. *)
Definition createNotification (up : bool) (now : Date) (data : Data)
  : M NotificationDoc :=
  create up now (recipient data) (sender data) (type data) (title data)
         (message data) (relatedEntity data) (relatedEntityType data)
         (default medium (priority data))
         (default (JObj []) (actionData data)).


(** *** The other statics of the model (lines 299-361 of the model file) *)

Definition set_read (n : NotificationDoc) (now : Date) : NotificationDoc :=
  mkNotification (n_id n) (n_recipient n) (n_sender n) (n_type n) (n_title n)
                 (n_message n) (n_relatedEntity n) (n_relatedEntityType n)
                 true (Some now) (n_priority n) (n_actionData n)
                 (n_createdAt n).

(** The filter [{ recipient: userId, isRead: false }]. *)
Definition unread_of (userId : ObjectId) (n : NotificationDoc) : bool :=
  (n_recipient n =? userId) && negb (n_isRead n).

(** [getUnreadCount(userId)]: [countDocuments] of the filter. *)
Definition getUnreadCount (userId : ObjectId) : M nat :=
  fun d => (inr (length (List.filter (unread_of userId) (notifications d))), d).

(** What [updateMany] resolves to. *)
Record UpdateResult := mkUpdateResult {
  acknowledged : bool;
  modifiedCount : nat;
  upsertedId : option ObjectId;
  upsertedCount : nat;
  matchedCount : nat
}.

(** [markAllAsRead(userId)]: [updateMany] of the filter; every document
    matched is modified, as it was unread. *)
Definition markAllAsRead (now : Date) (userId : ObjectId) : M UpdateResult :=
  fun d =>
    let k := length (List.filter (unread_of userId) (notifications d)) in
    (inr (mkUpdateResult true k None 0 k),
     set_notifications d
       (map (fun n => if unread_of userId n then set_read n now else n)
            (notifications d))).

(** [sort({ createdAt: -1 })], stable. *)
Fixpoint insert_desc (n : NotificationDoc) (l : list NotificationDoc)
  : list NotificationDoc :=
  match l with
  | [] => [n]
  | x :: r => if n_createdAt x <=? n_createdAt n then n :: x :: r
              else x :: insert_desc n r
  end.

Definition sort_newest_first (l : list NotificationDoc) : list NotificationDoc :=
  fold_right insert_desc [] l.

(** The query of [getUserNotifications]. *)
Definition listed (userId : ObjectId) (unreadOnly : bool) (n : NotificationDoc)
  : bool :=
  (n_recipient n =? userId) && (if unreadOnly then negb (n_isRead n) else true).

(** [getUserNotifications(userId, page, limit, unreadOnly)], for [page >= 1]
    (at page 0 the skip is negative, which the store refuses; that call is
    not modelled); the defaults are [page = 1], [limit = 20],
    [unreadOnly = false]. *)
Definition getUserNotifications (userId : ObjectId) (page limit : nat)
           (unreadOnly : bool) : M (list NotificationDoc) :=
  fun d =>
    let skip := (page - 1) * limit in
    let found := List.filter (listed userId unreadOnly) (notifications d) in
    (inr (Connection.take_limit limit (skipn skip (sort_newest_first found))), d).

(** The documents [createSystemNotification] maps its recipients to, each
    with a fresh id and the schema defaults. *)
Fixpoint system_docs (now : Date) (recipients : list ObjectId) (data : Data)
  : M (list NotificationDoc) :=
  match recipients with
  | [] => ret []
  | r :: rs =>
      let* id := freshId in
      let* rest := system_docs now rs data in
      ret (mkNotification id r None (type data) (title data) (message data)
             None None false None (default medium (priority data))
             (default (JObj []) (actionData data)) now :: rest)
  end.

Fixpoint validate_all (ns : list NotificationDoc) : M unit :=
  match ns with
  | [] => ret tt
  | n :: r => validate n ;; validate_all r
  end.

(** [insertMany(docs)]: every document is validated, the first failure
    rejects the call before anything is written; no save hook runs; an empty
    list is answered without a write. *)
Definition insertMany (up : bool) (ns : list NotificationDoc)
  : M (list NotificationDoc) :=
  validate_all ns ;;
  match ns with
  | [] => ret []
  | _ :: _ =>
      fun d => if up then (inr ns, set_notifications d (notifications d ++ ns))
               else (inl (Rejected StoreWriteFailed), d)
  end.

(** The static [createSystemNotification(recipients, data)]. *)
Definition createSystemNotification (up : bool) (now : Date)
           (recipients : list ObjectId) (data : Data)
  : M (list NotificationDoc) :=
  let* docs := system_docs now recipients data in
  insertMany up docs.

End Notification.

(** ** The controllers *)

(** [parseInt(q) || dflt]: a missing or non-numeric parameter and 0 give the
    default.  The routes validate [page >= 1] and [1 <= limit <= 100] before
    the controller runs. *)
Definition parse_or (q : option nat) (dflt : nat) : nat :=
  match q with
  | Some (S n) => S n
  | _ => dflt
  end.

Definition success_body (msg : option string) (data : option json) : json :=
  JObj ([("success", JBool true)]
        ++ match msg with Some m => [("message", JStr m)] | None => [] end
        ++ match data with Some v => [("data", v)] | None => [] end).

Definition card : option (list string) :=
  Some ["fullName"; "profilePicture"; "role"].

(** imaamController.js:277-345.  [user] is [req.user], [id] is
    [req.params.id], [msg] is [req.body.message]; [notifUp] tells whether the
    notification write reaches the store. *)
Definition requestConnection (notifUp : bool) (now : Date) (user : UserDoc)
           (id : ObjectId) (msg : option string) : handler :=
  handle (
    let imaamId := id in
    let studentId := u_id user in
    if imaamId =? studentId then leave (Next "Cannot connect to yourself" 400)
    else
    let* found := User.findOne (fun u => (u_id u =? imaamId)
                                         && Role_eqb (role u) imaam
                                         && isVerified u && isActive u) in
    match found with
    | None => leave (Next "Imaam not found or not verified" 404)
    | Some _ =>
      let* existingConnection := Connection.getConnection studentId imaamId in
      let proceed : M Exit :=
        let* connection :=
          Connection.create now studentId imaamId student_teacher
                            (Some (default "" msg)) pending in
        Notification.createNotification notifUp now
          (Notification.mkData imaamId (Some studentId) "connection_request"
             "New Connection Request"
             (String.append (fullName user) " wants to connect with you")
             (Some (c_id connection)) (Some ent_connection) None
             (Some (JObj [("connectionId", JId (c_id connection));
                          ("requesterName", JStr (fullName user))]))) ;;
        let* d := get in
        ret (Respond 201
               (success_body (Some "Connection request sent successfully")
                  (Some (Connection.to_json card card d connection)))) in
      match existingConnection with
      | Some e =>
          match status e with
          | accepted => leave (Next "Already connected to this Imaam" 400)
          | pending => leave (Next "Connection request already pending" 400)
          | _ => proceed
          end
      | None => proceed
      end
    end).

(** imaamController.js:348-358. *)
Definition getConnectionRequests (user : UserDoc) (q_page q_limit : option nat)
  : handler :=
  handle (
    let page := parse_or q_page 1 in
    let limit := parse_or q_limit 10 in
    let* requests := Connection.getPendingConnections (u_id user) page limit in
    let* d := get in
    ret (Respond 200
           (JObj [("success", JBool true);
                  ("data",
                   JArr (map (Connection.to_json
                                (Some ["fullName"; "profilePicture"; "role";
                                       "islamicProfile"; "bio"]) None d)
                             requests))]))).

(** imaamController.js:361-412. *)
Definition acceptConnection (notifUp : bool) (now : Date) (user : UserDoc)
           (connectionId : ObjectId) : handler :=
  handle (
    let* found := Connection.findOne
                    (fun c => (c_id c =? connectionId)
                              && (recipient c =? u_id user)
                              && Status_eqb (status c) pending) in
    match found with
    | None => leave (Next "Connection request not found" 404)
    | Some c =>
      let* connection := Connection.accept now c in
      User.findByIdAndUpdate_inc (requester connection) "connectionsCount" 1 ;;
      User.findByIdAndUpdate_inc (recipient connection) "connectionsCount" 1 ;;
      Notification.createNotification notifUp now
        (Notification.mkData (requester connection) (Some (recipient connection))
           "connection_accepted" "Connection Accepted"
           (String.append (fullName user) " accepted your connection request")
           (Some (c_id connection)) (Some ent_connection) None
           (Some (JObj [("connectionId", JId (c_id connection));
                        ("imaamName", JStr (fullName user))]))) ;;
      let* d := get in
      ret (Respond 200
             (success_body (Some "Connection request accepted successfully")
                (Some (Connection.to_json card card d connection))))
    end).

(** imaamController.js:415-435. *)
Definition rejectConnection (now : Date) (user : UserDoc)
           (connectionId : ObjectId) : handler :=
  handle (
    let* found := Connection.findOne
                    (fun c => (c_id c =? connectionId)
                              && (recipient c =? u_id user)
                              && Status_eqb (status c) pending) in
    match found with
    | None => leave (Next "Connection request not found" 404)
    | Some c =>
      Connection.reject now c ;;
      ret (Respond 200
             (success_body (Some "Connection request rejected successfully") None))
    end).

(** The user controller, [followUser]. *)
Definition followUser (now : Date) (user : UserDoc) (id : ObjectId) : handler :=
  handle (
    let targetUserId := id in
    let currentUserId := u_id user in
    if targetUserId =? currentUserId then leave (Next "Cannot follow yourself" 400)
    else
    let* targetUser := User.findById targetUserId in
    match targetUser with
    | None => leave (Next "User not found" 404)
    | Some t =>
      if negb (isActive t) then leave (Next "User not found" 404)
      else
      let* existingConnection :=
        Connection.findOne (Connection.between currentUserId targetUserId) in
      let proceed : M Exit :=
        let* connection :=
          Connection.create now currentUserId targetUserId peer None pending in
        let* d := get in
        ret (Respond 200
               (success_body (Some "Follow request sent successfully")
                  (Some (Connection.to_json card card d connection)))) in
      match existingConnection with
      | Some e =>
          match status e with
          | accepted => leave (Next "Already following this user" 400)
          | pending => leave (Next "Connection request already pending" 400)
          | _ => proceed
          end
      | None => proceed
      end
    end).

(** The user controller, [unfollowUser]. *)
Definition unfollowUser (user : UserDoc) (id : ObjectId) : handler :=
  handle (
    let targetUserId := id in
    let currentUserId := u_id user in
    let* connection :=
      Connection.findOneAndDelete
        (Connection.accepted_between currentUserId targetUserId) in
    match connection with
    | None => leave (Next "Not following this user" 404)
    | Some _ =>
      User.findByIdAndUpdate_inc currentUserId "connectionsCount" (-1) ;;
      User.findByIdAndUpdate_inc targetUserId "connectionsCount" (-1) ;;
      ret (Respond 200 (success_body (Some "Unfollowed successfully") None))
    end).

(** [Math.ceil(total / limit)] for [limit >= 1]. *)
Definition ceil_div (total limit : nat) : nat := (total + limit - 1) / limit.

(** The user controller, [getFollowers]: a list endpoint of the same
    subsystem that does attach a pagination object. *)
Definition getFollowers (id : ObjectId) (q_page q_limit : option nat) : handler :=
  handle (
    let userId := id in
    let page := parse_or q_page 1 in
    let limit := parse_or q_limit 10 in
    let skip := (page - 1) * limit in
    let* found := User.findById userId in
    match found with
    | None => leave (Next "User not found" 404)
    | Some u =>
      if negb (isActive u) then leave (Next "User not found" 404)
      else
      let* d := get in
      let matching := List.filter (fun c => (recipient c =? userId)
                                            && Status_eqb (status c) accepted)
                                  (connections d) in
      let conns := firstn limit (skipn skip (Connection.sort_newest_first matching)) in
      let total := length matching in
      let followers :=
        map (fun conn => User.populate
                           ["fullName"; "profilePicture"; "role"; "islamicProfile"]
                           (requester conn) d) conns in
      ret (Respond 200
             (JObj [("success", JBool true);
                    ("data",
                     JObj [("followers", JArr followers);
                           ("pagination",
                            JObj [("currentPage", JNum (Z.of_nat page));
                                  ("totalPages", JNum (Z.of_nat (ceil_div total limit)));
                                  ("totalFollowers", JNum (Z.of_nat total));
                                  ("hasNext", JBool (page <? ceil_div total limit));
                                  ("hasPrev", JBool (1 <? page))])])]))
    end).

(** imaamController.js:249-274.  [viewer] is [req.user], which the handler
    allows to be absent. *)
Definition getImaamById (viewer : option UserDoc) (id : ObjectId) : handler :=
  handle (
    let* found := User.findOne (fun u => (u_id u =? id)
                                         && Role_eqb (role u) imaam
                                         && isActive u) in
    match found with
    | None => leave (Next "Imaam not found" 404)
    | Some im =>
      let* isConnected :=
        match viewer with
        | Some user =>
            let* connection := Connection.areConnected (u_id user) (u_id im) in
            ret (match connection with Some _ => true | None => false end)
        | None => ret false
        end in
      ret (Respond 200
             (JObj [("success", JBool true);
                    ("data", JObj (User.to_object im
                                   ++ [("isConnected", JBool isConnected)]))]))
    end).

(** The user controller, [getUserById]. *)
Definition getUserById (id : ObjectId) : handler :=
  handle (
    let* found := User.findById id in
    match found with
    | None => leave (Next "User not found" 404)
    | Some u =>
      if negb (isActive u) then leave (Next "User account is deactivated" 404)
      else ret (Respond 200 (JObj [("success", JBool true);
                                   ("data", JObj (User.to_object u))]))
    end).

(** The user controller, [getFollowing]. *)
Definition getFollowing (id : ObjectId) (q_page q_limit : option nat) : handler :=
  handle (
    let userId := id in
    let page := parse_or q_page 1 in
    let limit := parse_or q_limit 10 in
    let skip := (page - 1) * limit in
    let* found := User.findById userId in
    match found with
    | None => leave (Next "User not found" 404)
    | Some u =>
      if negb (isActive u) then leave (Next "User not found" 404)
      else
      let* d := get in
      let matching := List.filter (fun c => (requester c =? userId)
                                            && Status_eqb (status c) accepted)
                                  (connections d) in
      let conns := firstn limit (skipn skip (Connection.sort_newest_first matching)) in
      let total := length matching in
      let following :=
        map (fun conn => User.populate
                           ["fullName"; "profilePicture"; "role"; "islamicProfile"]
                           (recipient conn) d) conns in
      ret (Respond 200
             (JObj [("success", JBool true);
                    ("data",
                     JObj [("following", JArr following);
                           ("pagination",
                            JObj [("currentPage", JNum (Z.of_nat page));
                                  ("totalPages", JNum (Z.of_nat (ceil_div total limit)));
                                  ("totalFollowing", JNum (Z.of_nat total));
                                  ("hasNext", JBool (page <? ceil_div total limit));
                                  ("hasPrev", JBool (1 <? page))])])]))
    end).

(** The user controller, [deleteProfile]: a soft delete.  The update also
    renames the [email], a field that is not kept here. *)
Definition deleteProfile (user : UserDoc) : handler :=
  handle (
    let* _ := User.findByIdAndUpdate_set (u_id user)
                (fun u => User.set_active u false) in
    ret (Respond 200 (success_body (Some "Account deleted successfully") None))).

(** ** Likes of a post: the post model and its two handlers *)

Module Post.

(** [status] of the post schema. *)
Inductive PostStatus := published | draft | archived.

#[global] Instance PostStatus_eq_dec : EqDecision PostStatus.
Proof. solve_decision. Defined.

Definition PostStatus_str (s : PostStatus) : string :=
  match s with
  | published => "published" | draft => "draft" | archived => "archived"
  end.

(** [visibility] of the post schema. *)
Inductive Visibility := vis_public | vis_followers | vis_private.

#[global] Instance Visibility_eq_dec : EqDecision Visibility.
Proof. solve_decision. Defined.

Definition Visibility_str (v : Visibility) : string :=
  match v with
  | vis_public => "public" | vis_followers => "followers"
  | vis_private => "private"
  end.

(** An entry of [likes]; its generated [_id] is left out. *)
Record Like := mkLike {
  user : ObjectId;
  likedAt : Date
}.

(** A post document, over the fields the like and feed handlers read and
    write. *)
Record PostDoc := mkPost {
  p_id : ObjectId;
  author : ObjectId;
  content : string;
  likes : list Like;
  likesCount : nat;
  visibility : Visibility;
  status : PostStatus;
  isPinned : bool;
  createdAt : Date
}.

(** The document store together with the post collection. *)
Record Site := mkSite {
  db : DB;
  posts : list PostDoc
}.

Definition set_db (s : Site) (d : DB) : Site := mkSite d (posts s).
Definition set_posts (s : Site) (ps : list PostDoc) : Site := mkSite (db s) ps.

Definition set_likes (p : PostDoc) (ls : list Like) (n : nat) : PostDoc :=
  mkPost (p_id p) (author p) (content p) ls n (visibility p) (status p)
         (isPinned p) (createdAt p).

(** The pre-save hook: [this.likesCount = this.likes.length]. *)
Definition pre_save (p : PostDoc) : PostDoc :=
  set_likes p (likes p) (length (likes p)).

(** [like.user.toString() === userId.toString()]. *)
Definition liked_by (userId : ObjectId) (l : Like) : bool := user l =? userId.

(** [post.isLikedBy(userId)]. *)
Definition isLikedBy (userId : ObjectId) (p : PostDoc) : bool :=
  existsb (liked_by userId) (likes p).

(** [post.save()] of a document of the collection: the hook, then the
    write under the document's id. *)
Definition save (p : PostDoc) (s : Site) : PostDoc * Site :=
  let p' := pre_save p in
  (p', set_posts s (map (fun x => if p_id x =? p_id p' then p' else x)
                        (posts s))).

(** [post.addLike(userId)]; [now] is the default of [likedAt]. *)
Definition addLike (now : Date) (userId : ObjectId) (p : PostDoc) (s : Site)
  : PostDoc * Site :=
  let ls :=
    match find (liked_by userId) (likes p) with
    | Some _ => List.filter (fun l => negb (liked_by userId l)) (likes p)
    | None => likes p ++ [mkLike userId now]
    end in
  save (set_likes p ls (length ls)) s.

(** [Post.findById(id)]. *)
Definition findById (id : ObjectId) (s : Site) : option PostDoc :=
  find (fun p => p_id p =? id) (posts s).

Definition like_json (l : Like) : json :=
  JObj [("user", JId (user l)); ("likedAt", JDate (likedAt l))].

(** [post.toObject()] after [populate('author', ...)]. *)
Definition to_object (p : PostDoc) (d : DB) : list (string * json) :=
  [ ("_id", JId (p_id p));
    ("author", User.populate
                 ["fullName"; "profilePicture"; "role"; "islamicProfile"]
                 (author p) d);
    ("content", JStr (content p));
    ("likes", JArr (map like_json (likes p)));
    ("likesCount", JNum (Z.of_nat (likesCount p)));
    ("visibility", JStr (Visibility_str (visibility p)));
    ("status", JStr (PostStatus_str (status p)));
    ("isPinned", JBool (isPinned p));
    ("createdAt", JDate (createdAt p)) ].

(** The filter [{ status: 'published', visibility: 'public' }]. *)
Definition in_feed (p : PostDoc) : bool :=
  bool_decide (status p = published) && bool_decide (visibility p = vis_public).

(** The order of [sort({ isPinned: -1, createdAt: -1 })]: [c] is not after
    [x]. *)
Definition feed_before (c x : PostDoc) : bool :=
  if eqb (isPinned c) (isPinned x) then createdAt x <=? createdAt c
  else isPinned c.

Fixpoint insert_feed (c : PostDoc) (l : list PostDoc) : list PostDoc :=
  match l with
  | [] => [c]
  | x :: r => if feed_before c x then c :: x :: r else x :: insert_feed c r
  end.

Definition sort_feed (l : list PostDoc) : list PostDoc :=
  fold_right insert_feed [] l.

(** The static [getFeedPosts(userId, page, limit)], for [page >= 1]. *)
Definition getFeedPosts (userId : ObjectId) (page limit : nat) (s : Site)
  : list PostDoc :=
  let skip := (page - 1) * limit in
  Connection.take_limit limit
    (skipn skip (sort_feed (List.filter in_feed (posts s)))).

End Post.

(** The notification [likePost] sends to the author. *)
Definition like_data (user : UserDoc) (post : Post.PostDoc) : Notification.Data :=
  Notification.mkData (Post.author post) (Some (u_id user)) "post_like"
    "Post Liked" (fullName user ++ " liked your post")
    (Some (Post.p_id post)) (Some ent_post) None
    (Some (JObj [("postId", JId (Post.p_id post));
                 ("likerName", JStr (fullName user))])).

(** The answer of [likePost] and [unlikePost]. *)
Definition like_response (msg : string) (user : UserDoc) (post : Post.PostDoc)
           (s : Post.Site) : Exit :=
  Respond 200
    (success_body (Some msg)
       (Some (JObj (Post.to_object post (Post.db s)
                    ++ [("isLiked", JBool (Post.isLikedBy (u_id user) post))])))).

(** The post controller, [likePost]; [notifUp] tells whether the
    notification write reaches the store. *)
Definition likePost (notifUp : bool) (now : Date) (user : UserDoc)
           (id : ObjectId) (s : Post.Site) : Exit * Post.Site :=
  match Post.findById id s with
  | None => (Next "Post not found" 404, s)
  | Some post =>
      if negb (bool_decide (Post.status post = Post.published))
      then (Next "Post not found" 404, s)
      else
        let (post', s1) := Post.addLike now (u_id user) post s in
        if negb (Post.author post' =? u_id user) then
          match Notification.createNotification notifUp now
                  (like_data user post') (Post.db s1) with
          | (inl e, d') => (e, Post.set_db s1 d')
          | (inr _, d') =>
              let s2 := Post.set_db s1 d' in
              (like_response "Post liked successfully" user post' s2, s2)
          end
        else (like_response "Post liked successfully" user post' s1, s1)
  end.

(** The post controller, [unlikePost]. *)
Definition unlikePost (now : Date) (user : UserDoc) (id : ObjectId)
           (s : Post.Site) : Exit * Post.Site :=
  match Post.findById id s with
  | None => (Next "Post not found" 404, s)
  | Some post =>
      if negb (bool_decide (Post.status post = Post.published))
      then (Next "Post not found" 404, s)
      else
        let (post', s1) := Post.addLike now (u_id user) post s in
        (like_response "Post unliked successfully" user post' s1, s1)
  end.

(** The post controller, [getFeed]. *)
Definition getFeed (user : UserDoc) (q_page q_limit : option nat)
           (s : Post.Site) : Exit * Post.Site :=
  let page := parse_or q_page 1 in
  let limit := parse_or q_limit 10 in
  let posts := Post.getFeedPosts (u_id user) page limit s in
  let postsWithLikeStatus :=
    map (fun post =>
           JObj (Post.to_object post (Post.db s)
                 ++ [("isLiked", JBool (Post.isLikedBy (u_id user) post))]))
        posts in
  (Respond 200
     (JObj [("success", JBool true);
            ("data",
             JObj [("posts", JArr postsWithLikeStatus);
                   ("pagination",
                    JObj [("currentPage", JNum (Z.of_nat page));
                          ("totalPages",
                           JNum (Z.of_nat (ceil_div (length posts) limit)));
                          ("hasNext", JBool (length posts =? limit));
                          ("hasPrev", JBool (1 <? page))])])]), s).

(** ** The exposed operations as a transition system *)

(** The five operations of the connection subsystem, with the request data
    each handler reads.  [OpOutside] stands for everything the other
    subsystems do between two of them: they rewrite the account directory and
    the notification collection and draw fresh ids, and never write the
    connection collection. *)
Inductive Op :=
| OpRequest (notifUp : bool) (now : Date) (user : UserDoc) (id : ObjectId)
            (msg : option string)
| OpFollow (now : Date) (user : UserDoc) (id : ObjectId)
| OpAccept (notifUp : bool) (now : Date) (user : UserDoc) (connectionId : ObjectId)
| OpReject (now : Date) (user : UserDoc) (connectionId : ObjectId)
| OpUnfollow (user : UserDoc) (id : ObjectId)
| OpOutside (us : list UserDoc) (ns : list NotificationDoc) (ids : nat).

Definition exec (o : Op) : handler :=
  match o with
  | OpRequest up now user id msg => requestConnection up now user id msg
  | OpFollow now user id => followUser now user id
  | OpAccept up now user cid => acceptConnection up now user cid
  | OpReject now user cid => rejectConnection now user cid
  | OpUnfollow user id => unfollowUser user id
  | OpOutside us ns k =>
      fun d => (Respond 200 JNull, mkDB us (connections d) ns (nextId d + k))
  end.

(** The store after a sequence of operations, whatever their exits. *)
Definition run (ops : list Op) (d : DB) : DB :=
  fold_left (fun d o => snd (exec o d)) ops d.

(** A store with an empty ledger. *)
Definition initial (us : list UserDoc) (ns : list NotificationDoc)
           (n0 : ObjectId) : DB := mkDB us [] ns n0.

(** ** Predicates on the ledger *)

Definition is_active (c : ConnectionDoc) : bool :=
  Status_eqb (status c) pending || Status_eqb (status c) accepted.

Definition ordered_pair (a b : ObjectId) (c : ConnectionDoc) : bool :=
  (requester c =? a) && (recipient c =? b).

(** The number of stored documents a filter selects. *)
Definition count (p : ConnectionDoc -> bool) (d : DB) : nat :=
  length (List.filter p (connections d)).

(** The status changes one record may go through under the operations. *)
Definition status_move (s s' : Status) : Prop :=
  s' = s \/ (s = pending /\ (s' = accepted \/ s' = rejected)).

(** What the reachable stores satisfy. *)
Record Inv (d : DB) : Prop := mkInv {
  inv_ids : List.NoDup (map c_id (connections d));
  inv_fresh : forall c, In c (connections d) -> c_id c < nextId d;
  inv_irrefl : forall c, In c (connections d) -> requester c <> recipient c;
  inv_ordered : forall x y, In x (connections d) -> In y (connections d) ->
      requester x = requester y -> recipient x = recipient y -> x = y;
  inv_active : forall x y, In x (connections d) -> In y (connections d) ->
      is_active x = true -> is_active y = true ->
      Connection.between (requester x) (recipient x) y = true -> x = y
}.

(** How one operation may change the ledger. *)
Inductive ledger_step (d d' : DB) : Prop :=
| ls_same :
    connections d' = connections d ->
    ledger_step d d'
| ls_insert (c : ConnectionDoc) :
    connections d' = connections d ++ [c] ->
    nextId d <= c_id c < nextId d' ->
    status c = pending ->
    requester c <> recipient c ->
    existsb (Connection.same_ordered c) (connections d) = false ->
    (forall e, find (Connection.between (requester c) (recipient c))
                    (connections d) = Some e -> is_active e = false) ->
    ledger_step d d'
| ls_settle (c : ConnectionDoc) (s : Status) (acc : option Date) (now : Date) :
    In c (connections d) ->
    status c = pending ->
    s = accepted \/ s = rejected ->
    connections d' =
      Connection.replace_by_id (Connection.set_status c s acc now) (connections d) ->
    ledger_step d d'
| ls_delete (flt : ConnectionDoc -> bool) :
    connections d' = Connection.remove_first flt (connections d) ->
    ledger_step d d'.

(** ** Relations that frame the handlers *)

(** A computation keeps a relation between the store before and after. *)
Definition keeps (R : DB -> DB -> Prop) {A} (m : M A) : Prop :=
  forall d, R d (snd (m d)).

(** The relations the handlers are framed by. *)
Definition same_users (d d' : DB) : Prop := users d' = users d.

Definition same_notifications (d d' : DB) : Prop := notifications d' = notifications d.

Definition ids_grow (d d' : DB) : Prop := nextId d <= nextId d'.

(** ** Names for what the model calls and handlers build *)

(** The store after one id was drawn. *)
Definition drawn (d : DB) : DB :=
  mkDB (users d) (connections d) (notifications d) (S (nextId d)).

(** The [message] of a new document exceeds its [maxlength]. *)
Definition too_long (m : option string) : bool :=
  match m with
  | Some s => 200 <? js_length (Connection.trim s)
  | None => false
  end.

(** The document [Connection.create] builds in store [d]. *)
Definition new_connection (d : DB) (now : Date) (a b : ObjectId) (t : ConnType)
           (m : option string) : ConnectionDoc :=
  mkConnection (nextId d) a b pending t (Connection.trim <$> m) None now now.

(** The verdict of the notification validators. *)
Definition note_error (t ttl msg : string) : option Error :=
  if negb (existsb (String.eqb t) Notification.type_enum)
  then Some (ValidationError "type")
  else if (String.length ttl =? 0) || (100 <? js_length ttl)
  then Some (ValidationError "title")
  else if (String.length msg =? 0) || (300 <? js_length msg)
  then Some (ValidationError "message")
  else None.

(** The document [createNotification] builds in store [d], before the
    pre-save hook. *)
Definition new_notification (d : DB) (now : Date) (data : Notification.Data)
  : NotificationDoc :=
  mkNotification (nextId d) (Notification.recipient data)
    (Notification.sender data) (Notification.type data)
    (Notification.title data) (Notification.message data)
    (Notification.relatedEntity data) (Notification.relatedEntityType data)
    false None (default medium (Notification.priority data))
    (default (JObj []) (Notification.actionData data)) now.

(** What the pre-save hook makes of a new document whose type is an entry
    of the table. *)
Definition hooked (n : NotificationDoc) : NotificationDoc :=
  if bool_decide (n_priority n = medium)
  then Notification.set_priority n
         (default medium (Notification.lookup_priority (n_type n)))
  else n.

(** The guard of [acceptConnection] and [rejectConnection]. *)
Definition pending_for (cid uid : ObjectId) (c : ConnectionDoc) : bool :=
  (c_id c =? cid) && (recipient c =? uid) && Status_eqb (status c) pending.

(** The notice [acceptConnection] sends to the requester. *)
Definition accepted_notice (user : UserDoc) (c : ConnectionDoc) : Notification.Data :=
  Notification.mkData (requester c) (Some (recipient c))
    "connection_accepted" "Connection Accepted"
    (String.append (fullName user) " accepted your connection request")
    (Some (c_id c)) (Some ent_connection) None
    (Some (JObj [("connectionId", JId (c_id c));
                 ("imaamName", JStr (fullName user))])).

(** The notice [requestConnection] sends to the teacher. *)
Definition request_notice (user : UserDoc) (imaamId : ObjectId)
           (c : ConnectionDoc) : Notification.Data :=
  Notification.mkData imaamId (Some (u_id user)) "connection_request"
    "New Connection Request"
    (String.append (fullName user) " wants to connect with you")
    (Some (c_id c)) (Some ent_connection) None
    (Some (JObj [("connectionId", JId (c_id c));
                 ("requesterName", JStr (fullName user))])).

Definition verified_imaam (id : ObjectId) (u : UserDoc) : bool :=
  (u_id u =? id) && Role_eqb (role u) imaam && isVerified u && isActive u.

(** The part of [requestConnection] after its guards. *)
Definition request_proceed (up : bool) (now : Date) (user : UserDoc)
           (id : ObjectId) (msg : option string) (d : DB) : Exit * DB :=
  match Connection.create now (u_id user) id student_teacher
                          (Some (default "" msg)) pending d with
  | (inl e, d1) => (e, d1)
  | (inr c, d1) =>
      match Notification.createNotification up now (request_notice user id c) d1 with
      | (inl e, d2) => (e, d2)
      | (inr _, d2) =>
          (Respond 201
             (success_body (Some "Connection request sent successfully")
                (Some (Connection.to_json card card d2 c))), d2)
      end
  end.

(** The part of [followUser] after its guards. *)
Definition follow_proceed (now : Date) (user : UserDoc) (id : ObjectId)
           (d : DB) : Exit * DB :=
  match Connection.create now (u_id user) id peer None pending d with
  | (inl e, d1) => (e, d1)
  | (inr c, d1) =>
      (Respond 200
         (success_body (Some "Follow request sent successfully")
            (Some (Connection.to_json card card d1 c))), d1)
  end.

Definition upd (c' x : ConnectionDoc) : ConnectionDoc :=
  if c_id x =? c_id c' then c' else x.

Definition responded (e : Exit) : bool :=
  match e with Respond _ _ => true | _ => false end.

(** The two Conflict answers of the pre-check. *)
Definition is_conflict (e : Exit) : Prop :=
  e = Next "Already connected to this Imaam" 400
  \/ e = Next "Connection request already pending" 400.

Definition body_of (e : Exit) : json :=
  match e with Respond _ b => b | _ => JNull end.

(** ** A concrete directory and the scenarios of the specification *)

Definition aisha : UserDoc :=
  mkUser 1 "Aisha" imaam "imam" None None true true ∅.

Definition bilal : UserDoc :=
  mkUser 2 "Bilal" imaam "islamic teacher" None None true true ∅.

(** Two verified teachers, an empty ledger, no notifications. *)
Definition store0 : DB := initial [aisha; bilal] [] 10.

(** Aisha asks Bilal for a connection; the request gets id 10. *)
Definition op_request : Op := OpRequest true 100 aisha 2 (Some "teach me tajweed").

Definition store_pending : DB := run [op_request] store0.

(** The pending request of [store_pending]. *)
Definition request10 : ConnectionDoc :=
  mkConnection 10 1 2 pending student_teacher (Some "teach me tajweed")
               None 100 100.

(** ... Bilal rejects it, then follows Aisha himself (request 12). *)
Definition ops_reject_then_follow : list Op :=
  [op_request; OpReject 101 bilal 10; OpFollow 102 bilal 1].

(** ... and Aisha accepts that. *)
Definition ops_mutual : list Op :=
  ops_reject_then_follow ++ [OpAccept true 103 aisha 12].

(** Bilal follows Aisha and she accepts (request 10). *)
Definition ops_followed : list Op :=
  [OpFollow 100 bilal 1; OpAccept true 101 aisha 10].

Definition follow10 : ConnectionDoc :=
  mkConnection 10 2 1 accepted peer None (Some 101) 101 100.

Definition like_notice (p : option Priority) : Notification.Data :=
  Notification.mkData 2 (Some 1) "post_like" "New like"
    "Aisha liked your post" None None p None.

(** ** The writes of the ledger, one by one *)

(** What one operation writes to the connection collection: nothing, a new
    pending request, the acceptance or the rejection of a pending request,
    or the deletion of the first match of a filter. *)
Inductive ledger_write (d d' : DB) : Prop :=
| lw_same :
    connections d' = connections d ->
    ledger_write d d'
| lw_insert (now : Date) (a b : ObjectId) (t : ConnType) (m : option string) :
    connections d' = connections d ++ [new_connection d now a b t m] ->
    ledger_write d d'
| lw_accept (c : ConnectionDoc) (now : Date) :
    In c (connections d) -> status c = pending ->
    connections d' =
      Connection.replace_by_id (Connection.set_status c accepted (Some now) now)
                               (connections d) ->
    ledger_write d d'
| lw_reject (c : ConnectionDoc) (now : Date) :
    In c (connections d) -> status c = pending ->
    connections d' =
      Connection.replace_by_id
        (Connection.set_status c rejected (acceptedAt c) now) (connections d) ->
    ledger_write d d'
| lw_delete (flt : ConnectionDoc -> bool) :
    connections d' = Connection.remove_first flt (connections d) ->
    ledger_write d d'.

(** What never changes in a record. *)
Definition same_request (c c' : ConnectionDoc) : Prop :=
  c_id c' = c_id c /\ requester c' = requester c /\ recipient c' = recipient c
  /\ ctype c' = ctype c /\ message c' = message c /\ createdAt c' = createdAt c.

(** [acceptedAt] is set on the accepted records and on no other. *)
Definition stamped (c : ConnectionDoc) : Prop :=
  match status c with
  | accepted => exists t, acceptedAt c = Some t
  | _ => acceptedAt c = None
  end.

(** The filter of [getImaamById]. *)
Definition active_imaam (id : ObjectId) (u : UserDoc) : bool :=
  (u_id u =? id) && Role_eqb (role u) imaam && isActive u.

(** The filters of [getFollowers] and [getFollowing]. *)
Definition follower_record (id : ObjectId) (c : ConnectionDoc) : bool :=
  (recipient c =? id) && Status_eqb (status c) accepted.

Definition following_record (id : ObjectId) (c : ConnectionDoc) : bool :=
  (requester c =? id) && Status_eqb (status c) accepted.

(** The slice [skip((page - 1) * limit).limit(limit)] of a result. *)
Definition page_of {A} (page limit : nat) (l : list A) : list A :=
  firstn limit (skipn ((page - 1) * limit) l).

(** A field of the [data.pagination] object of a response. *)
Definition pagination_field (key : string) (e : Exit) : option json :=
  match field "data" (body_of e) with
  | Some data =>
      match field "pagination" data with
      | Some pg => field key pg
      | None => None
      end
  | None => None
  end.

(** The entries of the array [data.<key>] of a response. *)
Definition data_list (key : string) (e : Exit) : list json :=
  match field "data" (body_of e) with
  | Some data => match field key data with
                 | Some (JArr l) => l
                 | _ => []
                 end
  | None => []
  end.

(** The order of a result sorted by [key], largest first. *)
Definition desc_by (key : ConnectionDoc -> nat) (a b : ConnectionDoc) : Prop :=
  key b <= key a.

(** The store after [k] ids were drawn. *)
Definition advance (d : DB) (k : nat) : DB :=
  mkDB (users d) (connections d) (notifications d) (k + nextId d).

(** The documents [createSystemNotification] builds from id [id] on. *)
Fixpoint system_list (now : Date) (data : Notification.Data) (id : ObjectId)
         (recipients : list ObjectId) : list NotificationDoc :=
  match recipients with
  | [] => []
  | r :: rs =>
      mkNotification id r None (Notification.type data)
        (Notification.title data) (Notification.message data) None None
        false None (default medium (Notification.priority data))
        (default (JObj []) (Notification.actionData data)) now
      :: system_list now data (S id) rs
  end.

(** The number of unread notifications of an account. *)
Definition unread (userId : ObjectId) (d : DB) : nat :=
  length (List.filter (Notification.unread_of userId) (notifications d)).

(** An announcement to all, with no priority given. *)
Definition announcement : Notification.Data :=
  Notification.mkData 0 None "system_announcement" "Maintenance"
    "The service is read-only tonight" None None None None.

(** The order of a notification list, newest first. *)
Definition newer_first (a b : NotificationDoc) : Prop :=
  n_createdAt b <= n_createdAt a.

(** [data.isLiked] of a response. *)
Definition liked_flag (e : Exit) : option json :=
  match field "data" (body_of e) with
  | Some data => field "isLiked" data
  | None => None
  end.

(** Aisha's post, not liked yet, in the directory of [store0]. *)
Definition post7 : Post.PostDoc :=
  Post.mkPost 7 1 "Seek knowledge from the cradle to the grave" [] 0
    Post.vis_public Post.published false 40.

Definition site0 : Post.Site := Post.mkSite store0 [post7].

(** The number of posts the feed draws from. *)
Definition feed_total (s : Post.Site) : nat :=
  length (List.filter Post.in_feed (Post.posts s)).

(** A key of the entries of [data.posts] of a response. *)
Definition posts_field (key : string) (e : Exit) : list (option json) :=
  map (field key) (data_list "posts" e).

(** ** Frame reasoning for handler computations *)

Section Frame.
Variable R : DB -> DB -> Prop.
Hypothesis R_refl : forall d, R d d.
Hypothesis R_trans : forall a b c, R a b -> R b c -> R a c.

Lemma keeps_ret {A} (a : A) : keeps R (ret a).
Proof. intros d. apply R_refl. Qed.

Lemma keeps_leave {A} (e : Exit) : keeps R (@leave A e).
Proof. intros d. apply R_refl. Qed.

Lemma keeps_throw {A} (e : Error) : keeps R (@throw A e).
Proof. intros d. apply R_refl. Qed.

Lemma keeps_get : keeps R get.
Proof. intros d. apply R_refl. Qed.

Lemma keeps_bind {A B} (m : M A) (k : A -> M B) :
  keeps R m -> (forall a, keeps R (k a)) -> keeps R (bind m k).
Proof.
  intros Hm Hk d. unfold bind. specialize (Hm d).
  destruct (m d) as [[e|a] d1]; simpl in *; [exact Hm|].
  eapply R_trans; [exact Hm|]. apply Hk.
Qed.

Lemma keeps_handle (m : M Exit) :
  keeps R m -> forall d, R d (snd (handle m d)).
Proof.
  intros Hm d. unfold handle. specialize (Hm d).
  destruct (m d) as [[e|e] d1]; exact Hm.
Qed.
End Frame.

Lemma same_users_refl d : same_users d d.
Proof. reflexivity. Qed.
Lemma same_users_trans a b c : same_users a b -> same_users b c -> same_users a c.
Proof. unfold same_users. congruence. Qed.
Lemma same_notifications_refl d : same_notifications d d.
Proof. reflexivity. Qed.
Lemma same_notifications_trans a b c :
  same_notifications a b -> same_notifications b c -> same_notifications a c.
Proof. unfold same_notifications. congruence. Qed.
Lemma ids_grow_refl d : ids_grow d d.
Proof. unfold ids_grow. lia. Qed.
Lemma ids_grow_trans a b c : ids_grow a b -> ids_grow b c -> ids_grow a c.
Proof. unfold ids_grow. lia. Qed.

(** [connectionsCount] is not a path of [userSchema]: the cast removes the
    [$inc] and the call only reads. *)
Lemma inc_connectionsCount_is_read id delta :
  User.findByIdAndUpdate_inc id "connectionsCount" delta = User.findById id.
Proof. reflexivity. Qed.

(** *** What every handler leaves alone

    A relation between the store before and after that is closed under the
    draw of a fresh id and under writes of the connection collection is kept
    by every model call on accounts and on the ledger; when it is also closed
    under writes of the notification collection, by [createNotification]. *)

Section HandlerFrame.
Variable R : DB -> DB -> Prop.
Hypothesis R_refl : forall d, R d d.
Hypothesis R_trans : forall a b c, R a b -> R b c -> R a c.
Hypothesis R_fresh : forall d,
    R d (mkDB (users d) (connections d) (notifications d) (S (nextId d))).
Hypothesis R_ledger : forall d cs, R d (Connection.set_connections d cs).
Hypothesis R_sink : forall d ns, R d (Notification.set_notifications d ns).

Ltac prim :=
  intros d;
  unfold freshId, User.findOne, User.findById, Connection.findOne,
    Connection.getConnection, Connection.findOneAndDelete,
    Connection.getPendingConnections, Connection.insert, Connection.update,
    Connection.validate, Connection.pre_save, Notification.insert,
    Notification.validate, throw, leave, ret;
  simpl; repeat case_match; simpl;
  first [ apply R_refl | apply R_fresh | apply R_ledger | apply R_sink ].

Lemma keeps_freshId : keeps R freshId.
Proof using R_fresh. prim. Qed.
Lemma keeps_User_findOne f : keeps R (User.findOne f).
Proof using R_refl. prim. Qed.
Lemma keeps_User_findById id : keeps R (User.findById id).
Proof using R_refl. prim. Qed.
Lemma keeps_inc_connectionsCount id delta :
  keeps R (User.findByIdAndUpdate_inc id "connectionsCount" delta).
Proof using R_refl.
  rewrite inc_connectionsCount_is_read. apply keeps_User_findById.
Qed.
Lemma keeps_Connection_findOne f : keeps R (Connection.findOne f).
Proof using R_refl. prim. Qed.
Lemma keeps_findOneAndDelete f : keeps R (Connection.findOneAndDelete f).
Proof using R_ledger. prim. Qed.
Lemma keeps_Connection_validate c : keeps R (Connection.validate c).
Proof using R_refl. prim. Qed.
Lemma keeps_Connection_pre_save c : keeps R (Connection.pre_save c).
Proof using R_refl. prim. Qed.
Lemma keeps_Connection_insert c : keeps R (Connection.insert c).
Proof using R_refl R_ledger. prim. Qed.
Lemma keeps_Connection_update c : keeps R (Connection.update c).
Proof using R_ledger. prim. Qed.
Lemma keeps_Notification_validate n : keeps R (Notification.validate n).
Proof using R_refl. prim. Qed.
Lemma keeps_Notification_insert up n : keeps R (Notification.insert up n).
Proof using R_refl R_sink. prim. Qed.

(** Break a handler body down to its model calls. *)
Ltac frame_step :=
  first
    [ apply keeps_ret; exact R_refl
    | apply keeps_leave; exact R_refl
    | apply keeps_throw; exact R_refl
    | apply keeps_get; exact R_refl
    | apply keeps_freshId
    | apply keeps_User_findOne
    | apply keeps_User_findById
    | apply keeps_inc_connectionsCount
    | apply keeps_Connection_findOne
    | apply keeps_findOneAndDelete
    | apply keeps_Connection_validate
    | apply keeps_Connection_pre_save
    | apply keeps_Connection_insert
    | apply keeps_Connection_update
    | apply keeps_Notification_validate
    | apply keeps_Notification_insert
    | apply keeps_bind; [exact R_trans | | intros ?]
    | match goal with
      | |- keeps _ (match ?x with _ => _ end) => destruct x
      | |- keeps _ (if ?b then _ else _) => destruct b
      end ].

Ltac frame := cbv zeta; repeat (frame_step; cbv zeta).

Lemma keeps_Connection_create now a b t m st :
  keeps R (Connection.create now a b t m st).
Proof using R_refl R_trans R_fresh R_ledger.
  unfold Connection.create, Connection.post_save. frame.
Qed.

Lemma keeps_Connection_save c : keeps R (Connection.save c).
Proof using R_refl R_trans R_ledger.
  unfold Connection.save, Connection.post_save. frame.
Qed.

Lemma keeps_createNotification up now data :
  keeps R (Notification.createNotification up now data).
Proof using R_refl R_trans R_fresh R_sink.
  unfold Notification.createNotification, Notification.create. frame.
Qed.

Lemma requestConnection_keeps up now user id msg d :
  R d (snd (requestConnection up now user id msg d)).
Proof using R_refl R_trans R_fresh R_ledger R_sink.
  unfold requestConnection. apply keeps_handle. cbv zeta.
  repeat first [ apply keeps_Connection_create
               | apply keeps_createNotification | frame_step ].
Qed.

Lemma acceptConnection_keeps up now user cid d :
  R d (snd (acceptConnection up now user cid d)).
Proof using R_refl R_trans R_fresh R_ledger R_sink.
  unfold acceptConnection, Connection.accept. apply keeps_handle.
  repeat first [ apply keeps_Connection_save
               | apply keeps_createNotification | frame_step ].
Qed.

Lemma rejectConnection_keeps now user cid d :
  R d (snd (rejectConnection now user cid d)).
Proof using R_refl R_trans R_ledger.
  unfold rejectConnection, Connection.reject. apply keeps_handle.
  repeat first [ apply keeps_Connection_save | frame_step ].
Qed.

Lemma followUser_keeps now user id d :
  R d (snd (followUser now user id d)).
Proof using R_refl R_trans R_fresh R_ledger.
  unfold followUser. apply keeps_handle. cbv zeta.
  repeat first [ apply keeps_Connection_create | frame_step ].
Qed.

Lemma unfollowUser_keeps user id d :
  R d (snd (unfollowUser user id d)).
Proof using R_refl R_trans R_ledger.
  unfold unfollowUser. apply keeps_handle. cbv zeta. frame.
Qed.
End HandlerFrame.

(** No exposed operation writes the account directory. *)
Lemma requestConnection_users up now user id msg d :
  users (snd (requestConnection up now user id msg d)) = users d.
Proof.
  apply (requestConnection_keeps same_users);
    first [ exact same_users_refl | exact same_users_trans | intros; reflexivity ].
Qed.

Lemma acceptConnection_users up now user cid d :
  users (snd (acceptConnection up now user cid d)) = users d.
Proof.
  apply (acceptConnection_keeps same_users);
    first [ exact same_users_refl | exact same_users_trans | intros; reflexivity ].
Qed.

Lemma rejectConnection_users now user cid d :
  users (snd (rejectConnection now user cid d)) = users d.
Proof.
  apply (rejectConnection_keeps same_users);
    first [ exact same_users_refl | exact same_users_trans | intros; reflexivity ].
Qed.

Lemma followUser_users now user id d :
  users (snd (followUser now user id d)) = users d.
Proof.
  apply (followUser_keeps same_users);
    first [ exact same_users_refl | exact same_users_trans | intros; reflexivity ].
Qed.

Lemma unfollowUser_users user id d :
  users (snd (unfollowUser user id d)) = users d.
Proof.
  apply (unfollowUser_keeps same_users);
    first [ exact same_users_refl | exact same_users_trans | intros; reflexivity ].
Qed.

(** The operations that never write the notification collection. *)
Lemma rejectConnection_notifications now user cid d :
  notifications (snd (rejectConnection now user cid d)) = notifications d.
Proof.
  apply (rejectConnection_keeps same_notifications);
    first [ exact same_notifications_refl | exact same_notifications_trans
          | intros; reflexivity ].
Qed.

Lemma followUser_notifications now user id d :
  notifications (snd (followUser now user id d)) = notifications d.
Proof.
  apply (followUser_keeps same_notifications);
    first [ exact same_notifications_refl | exact same_notifications_trans
          | intros; reflexivity ].
Qed.

Lemma unfollowUser_notifications user id d :
  notifications (snd (unfollowUser user id d)) = notifications d.
Proof.
  apply (unfollowUser_keeps same_notifications);
    first [ exact same_notifications_refl | exact same_notifications_trans
          | intros; reflexivity ].
Qed.

(** Ids are only ever drawn. *)
Lemma exec_ids_grow o d : nextId d <= nextId (snd (exec o d)).
Proof.
  destruct o; simpl;
    [ apply (requestConnection_keeps ids_grow)
    | apply (followUser_keeps ids_grow)
    | apply (acceptConnection_keeps ids_grow)
    | apply (rejectConnection_keeps ids_grow)
    | apply (unfollowUser_keeps ids_grow)
    | lia ];
    first [ exact ids_grow_refl | exact ids_grow_trans
          | intros; unfold ids_grow; simpl; lia ].
Qed.

(** ** What the model calls evaluate to *)

Lemma bind_run {A B} (m : M A) (k : A -> M B) d :
  bind m k d = match m d with
               | (inr a, d') => k a d'
               | (inl e, d') => (inl e, d')
               end.
Proof. reflexivity. Qed.

(** [save()] of a queried document: refused by the pre-save hook on a
    self-connection, else written by [_id]. *)
Lemma save_run c d :
  Connection.save c d =
  if requester c =? recipient c
  then (inl (Rejected (AppError "Cannot connect to yourself" 400)), d)
  else (inr c,
        Connection.set_connections d (Connection.replace_by_id c (connections d))).
Proof.
  unfold Connection.save, Connection.pre_save, Connection.update,
    Connection.post_save, bind, throw, leave, ret.
  destruct (requester c =? recipient c); reflexivity.
Qed.

(** [Connection.create] of a pending request. *)
Lemma create_run now a b t m d :
  Connection.create now a b t m pending d =
  let c := new_connection d now a b t m in
  if too_long m then (inl (Rejected (ValidationError "message")), drawn d)
  else if a =? b
  then (inl (Rejected (AppError "Cannot connect to yourself" 400)), drawn d)
  else if existsb (Connection.same_ordered c) (connections d)
  then (inl (Rejected DuplicateKey), drawn d)
  else (inr c, Connection.set_connections (drawn d) (connections d ++ [c])).
Proof.
  unfold Connection.create, Connection.validate, Connection.pre_save,
    Connection.insert, Connection.post_save, bind, freshId, throw, leave, ret,
    new_connection, too_long.
  cbn [message requester recipient status fst snd].
  destruct m as [s|]; cbn [fmap option_fmap option_map].
  - destruct (200 <? js_length (Connection.trim s)); [reflexivity|].
    destruct (a =? b); [reflexivity|].
    cbn [connections drawn].
    destruct (existsb _ (connections d)); reflexivity.
  - destruct (a =? b); [reflexivity|].
    cbn [connections drawn].
    destruct (existsb _ (connections d)); reflexivity.
Qed.

(** The types of the enumeration are the entries of the table. *)
Lemma type_enum_is_table t :
  existsb (String.eqb t) Notification.type_enum = true <->
  exists p, Notification.lookup_priority t = Some p.
Proof.
  unfold Notification.lookup_priority, Notification.type_enum,
    Notification.priorityMap.
  cbn [existsb find fst snd].
  repeat (destruct (String.eqb t _);
          [cbn; split; [eauto | reflexivity] |]).
  cbn. split; [discriminate | intros [p Hp]; discriminate].
Qed.

(** On a validated document the hook always yields a document. *)
Lemma pre_save_validated n :
  existsb (String.eqb (n_type n)) Notification.type_enum = true ->
  Notification.pre_save true n = Some (hooked n).
Proof.
  intros Hen. apply type_enum_is_table in Hen as [p Hp].
  unfold Notification.pre_save, hooked, Notification.table_get.
  rewrite Hp. now destruct (bool_decide (n_priority n = medium)).
Qed.

Lemma createNotification_run up now data d :
  Notification.createNotification up now data d =
  let n := hooked (new_notification d now data) in
  match note_error (Notification.type data) (Notification.title data)
                   (Notification.message data) with
  | Some e => (inl (Rejected e), drawn d)
  | None =>
      if up
      then (inr n, Notification.set_notifications (drawn d) (notifications d ++ [n]))
      else (inl (Rejected StoreWriteFailed), drawn d)
  end.
Proof.
  unfold Notification.createNotification, Notification.create,
    Notification.validate, bind, freshId, throw, leave, ret, note_error.
  cbn [fst snd].
  fold (drawn d). fold (new_notification d now data).
  change (n_type (new_notification d now data)) with (Notification.type data).
  change (n_title (new_notification d now data)) with (Notification.title data).
  change (n_message (new_notification d now data))
    with (Notification.message data).
  destruct (existsb (String.eqb (Notification.type data))
                    Notification.type_enum) eqn:Hen;
    cbn [negb]; [|reflexivity].
  destruct ((String.length (Notification.title data) =? 0) || _); [reflexivity|].
  destruct ((String.length (Notification.message data) =? 0) || _); [reflexivity|].
  rewrite (pre_save_validated (new_notification d now data)) by exact Hen.
  unfold Notification.insert. destruct up; reflexivity.
Qed.

(** ** What the handlers evaluate to *)

Lemma acceptConnection_run up now user cid d :
  acceptConnection up now user cid d =
  match find (pending_for cid (u_id user)) (connections d) with
  | None => (Next "Connection request not found" 404, d)
  | Some c =>
      let c' := Connection.set_status c accepted (Some now) now in
      if requester c =? recipient c
      then (Rejected (AppError "Cannot connect to yourself" 400), d)
      else
        let d1 := Connection.set_connections d
                    (Connection.replace_by_id c' (connections d)) in
        match Notification.createNotification up now (accepted_notice user c') d1 with
        | (inl e, d2) => (e, d2)
        | (inr _, d2) =>
            (Respond 200
               (success_body (Some "Connection request accepted successfully")
                  (Some (Connection.to_json card card d2 c'))), d2)
        end
  end.
Proof.
  unfold acceptConnection, handle. rewrite bind_run.
  unfold Connection.findOne at 1. cbv beta iota.
  change (fun c => (c_id c =? cid) && (recipient c =? u_id user)
                   && Status_eqb (status c) pending)
    with (pending_for cid (u_id user)).
  destruct (find _ (connections d)) as [c|]; [|reflexivity].
  rewrite bind_run. unfold Connection.accept. rewrite save_run.
  cbn [requester recipient Connection.set_status]. cbv zeta.
  destruct (requester c =? recipient c); [reflexivity|].
  cbv beta iota.
  rewrite bind_run, inc_connectionsCount_is_read.
  unfold User.findById, User.findOne at 1. cbv beta iota.
  rewrite bind_run, inc_connectionsCount_is_read.
  unfold User.findById, User.findOne at 1. cbv beta iota.
  rewrite bind_run. unfold accepted_notice. cbn [requester recipient c_id].
  destruct (Notification.createNotification _ _ _ _) as [[e|n] d2]; reflexivity.
Qed.

Lemma rejectConnection_run now user cid d :
  rejectConnection now user cid d =
  match find (pending_for cid (u_id user)) (connections d) with
  | None => (Next "Connection request not found" 404, d)
  | Some c =>
      let c' := Connection.set_status c rejected (acceptedAt c) now in
      if requester c =? recipient c
      then (Rejected (AppError "Cannot connect to yourself" 400), d)
      else
        (Respond 200
           (success_body (Some "Connection request rejected successfully") None),
         Connection.set_connections d
           (Connection.replace_by_id c' (connections d)))
  end.
Proof.
  unfold rejectConnection, handle. rewrite bind_run.
  unfold Connection.findOne at 1. cbv beta iota.
  change (fun c => (c_id c =? cid) && (recipient c =? u_id user)
                   && Status_eqb (status c) pending)
    with (pending_for cid (u_id user)).
  destruct (find _ (connections d)) as [c|]; [|reflexivity].
  rewrite bind_run. unfold Connection.reject. rewrite save_run.
  cbn [requester recipient Connection.set_status]. cbv zeta.
  destruct (requester c =? recipient c); reflexivity.
Qed.

Lemma requestConnection_run up now user id msg d :
  requestConnection up now user id msg d =
  if id =? u_id user then (Next "Cannot connect to yourself" 400, d)
  else match find (verified_imaam id) (users d) with
       | None => (Next "Imaam not found or not verified" 404, d)
       | Some _ =>
           match find (Connection.between (u_id user) id) (connections d) with
           | Some e =>
               match status e with
               | accepted => (Next "Already connected to this Imaam" 400, d)
               | pending => (Next "Connection request already pending" 400, d)
               | _ => request_proceed up now user id msg d
               end
           | None => request_proceed up now user id msg d
           end
       end.
Proof.
  unfold requestConnection, handle. cbv zeta.
  destruct (id =? u_id user); [reflexivity|].
  rewrite bind_run. unfold User.findOne at 1. cbv beta iota.
  change (fun u => (u_id u =? id) && Role_eqb (role u) imaam
                   && isVerified u && isActive u)
    with (verified_imaam id).
  destruct (find _ (users d)) as [im|]; [|reflexivity].
  rewrite bind_run. unfold Connection.getConnection, Connection.findOne at 1.
  cbv beta iota.
  assert (Hp : forall dd,
    match (let* connection :=
             Connection.create now (u_id user) id student_teacher
                               (Some (default "" msg)) pending in
           Notification.createNotification up now
             (Notification.mkData id (Some (u_id user)) "connection_request"
                "New Connection Request"
                (String.append (fullName user) " wants to connect with you")
                (Some (c_id connection)) (Some ent_connection) None
                (Some (JObj [("connectionId", JId (c_id connection));
                             ("requesterName", JStr (fullName user))]))) ;;
           let* d0 := get in
           ret (Respond 201
                  (success_body (Some "Connection request sent successfully")
                     (Some (Connection.to_json card card d0 connection))))) dd
    with
    | (inl e, d') => (e, d')
    | (inr e, d') => (e, d')
    end = request_proceed up now user id msg dd).
  { intros dd. unfold request_proceed. rewrite bind_run.
    destruct (Connection.create _ _ _ _ _ _ dd) as [[e|c] d1]; [reflexivity|].
    rewrite bind_run. unfold request_notice.
    destruct (Notification.createNotification _ _ _ d1) as [[e|n] d2];
      reflexivity. }
  destruct (find _ (connections d)) as [e|]; [|apply Hp].
  destruct (status e); first [reflexivity | apply Hp].
Qed.

Lemma followUser_run now user id d :
  followUser now user id d =
  if id =? u_id user then (Next "Cannot follow yourself" 400, d)
  else match find (fun u => u_id u =? id) (users d) with
       | None => (Next "User not found" 404, d)
       | Some t =>
           if negb (isActive t) then (Next "User not found" 404, d)
           else
           match find (Connection.between (u_id user) id) (connections d) with
           | Some e =>
               match status e with
               | accepted => (Next "Already following this user" 400, d)
               | pending => (Next "Connection request already pending" 400, d)
               | _ => follow_proceed now user id d
               end
           | None => follow_proceed now user id d
           end
       end.
Proof.
  unfold followUser, handle. cbv zeta.
  destruct (id =? u_id user); [reflexivity|].
  rewrite bind_run. unfold User.findById, User.findOne at 1. cbv beta iota.
  destruct (find _ (users d)) as [t|]; [|reflexivity].
  destruct (negb (isActive t)); [reflexivity|].
  rewrite bind_run. unfold Connection.findOne at 1. cbv beta iota.
  assert (Hp : forall dd,
    match (let* connection :=
             Connection.create now (u_id user) id peer None pending in
           let* d0 := get in
           ret (Respond 200
                  (success_body (Some "Follow request sent successfully")
                     (Some (Connection.to_json card card d0 connection))))) dd
    with
    | (inl e, d') => (e, d')
    | (inr e, d') => (e, d')
    end = follow_proceed now user id dd).
  { intros dd. unfold follow_proceed. rewrite bind_run.
    destruct (Connection.create _ _ _ _ _ _ dd) as [[e|c] d1]; reflexivity. }
  destruct (find _ (connections d)) as [e|]; [|apply Hp].
  destruct (status e); first [reflexivity | apply Hp].
Qed.

Lemma unfollowUser_run user id d :
  unfollowUser user id d =
  let flt := Connection.accepted_between (u_id user) id in
  let d' := Connection.set_connections d
              (Connection.remove_first flt (connections d)) in
  match find flt (connections d) with
  | None => (Next "Not following this user" 404, d')
  | Some _ => (Respond 200 (success_body (Some "Unfollowed successfully") None), d')
  end.
Proof.
  unfold unfollowUser, handle. cbv zeta. rewrite bind_run.
  unfold Connection.findOneAndDelete at 1. cbv beta iota.
  destruct (find _ (connections d)) as [c|]; [|reflexivity].
  rewrite bind_run, inc_connectionsCount_is_read.
  unfold User.findById, User.findOne at 1. cbv beta iota.
  rewrite bind_run, inc_connectionsCount_is_read.
  unfold User.findById, User.findOne at 1. cbv beta iota.
  reflexivity.
Qed.

(** ** Lists of documents *)

Section Lists.
Context {A K : Type}.

Lemma NoDup_map_eq (f : A -> K) (l : list A) x y :
  List.NoDup (map f l) -> In x l -> In y l -> f x = f y -> x = y.
Proof.
  induction l as [|a l IH]; simpl; [contradiction|].
  intros Hnd Hx Hy Hf. apply List.NoDup_cons_iff in Hnd as [Hna Hnd].
  destruct Hx as [->|Hx], Hy as [->|Hy]; auto.
  - exfalso. apply Hna. rewrite Hf. now apply in_map.
  - exfalso. apply Hna. rewrite <- Hf. now apply in_map.
Qed.

(** At most one element of a duplicate-free list has a property that
    determines the element. *)
Lemma filter_at_most_one (p : A -> bool) (l : list A) :
  List.NoDup l ->
  (forall x y, In x l -> In y l -> p x = true -> p y = true -> x = y) ->
  length (List.filter p l) <= 1.
Proof.
  induction l as [|a l IH]; simpl; [lia|].
  intros Hnd Huniq. apply List.NoDup_cons_iff in Hnd as [Hna Hnd].
  destruct (p a) eqn:Hpa.
  - assert (Hnil : List.filter p l = []).
    { destruct (List.filter p l) as [|b r] eqn:Hf; [reflexivity|].
      assert (Hb : In b (List.filter p l)) by (rewrite Hf; now left).
      apply filter_In in Hb as [Hb Hpb].
      exfalso. apply Hna.
      rewrite (Huniq a b); auto. }
    rewrite Hnil. simpl. lia.
  - apply IH; auto.
Qed.

Lemma filter_orb_length (p q : A -> bool) (l : list A) :
  length (List.filter (fun x => p x || q x) l)
  <= length (List.filter p l) + length (List.filter q l).
Proof.
  induction l as [|a l IH]; simpl; [lia|].
  destruct (p a), (q a); simpl; lia.
Qed.
End Lists.

Lemma NoDup_of_ids (l : list ConnectionDoc) :
  List.NoDup (map c_id l) -> List.NoDup l.
Proof. apply NoDup_map_inv. Qed.

(** *** Deleting the first match *)

Lemma remove_first_none flt l :
  find flt l = None -> Connection.remove_first flt l = l.
Proof.
  induction l as [|x r IH]; simpl; [reflexivity|].
  destruct (flt x); [discriminate|]. intros H. now rewrite IH.
Qed.

Lemma In_remove_first flt l x :
  In x (Connection.remove_first flt l) -> In x l.
Proof.
  induction l as [|a r IH]; simpl; [auto|].
  destruct (flt a); simpl; intuition.
Qed.

Lemma NoDup_ids_remove_first flt l :
  List.NoDup (map c_id l) -> List.NoDup (map c_id (Connection.remove_first flt l)).
Proof.
  induction l as [|a r IH]; simpl; [auto|].
  intros H. apply List.NoDup_cons_iff in H as [Hna Hnd].
  destruct (flt a); [exact Hnd|]. simpl.
  apply List.NoDup_cons_iff. split; [|auto].
  intros Hin. apply Hna. apply in_map_iff in Hin as (x & Hx & Hin).
  apply in_map_iff. exists x. split; [exact Hx|].
  eapply In_remove_first; eauto.
Qed.

(** The first match is the one that goes: every other document stays. *)
Lemma remove_first_keeps flt l c x :
  find flt l = Some c -> In x l -> x <> c ->
  In x (Connection.remove_first flt l).
Proof.
  induction l as [|a r IH]; simpl; [contradiction|].
  destruct (flt a).
  - intros [= ->] [->|Hx] Hne; [contradiction|exact Hx].
  - intros Hf [->|Hx] Hne; [now left|right; auto].
Qed.

Lemma remove_first_gone flt l c :
  List.NoDup l -> find flt l = Some c ->
  ~ In c (Connection.remove_first flt l).
Proof.
  induction l as [|a r IH]; simpl; [discriminate|].
  intros Hnd. apply List.NoDup_cons_iff in Hnd as [Hna Hnd].
  destruct (flt a).
  - intros [= ->]. exact Hna.
  - intros Hf [->|Hin].
    + apply Hna. apply find_some in Hf. tauto.
    + now apply IH.
Qed.

(** *** Writing one document by its id *)

Lemma replace_by_id_map c' l :
  List.NoDup (map c_id l) ->
  Connection.replace_by_id c' l = map (upd c') l.
Proof.
  induction l as [|x r IH]; simpl; [reflexivity|].
  intros H. apply List.NoDup_cons_iff in H as [Hna Hnd]. unfold upd at 1.
  destruct (Nat.eqb_spec (c_id x) (c_id c')) as [He|Hne].
  - f_equal. clear IH. induction r as [|y r IH]; simpl; [reflexivity|].
    simpl in Hna, Hnd. apply List.NoDup_cons_iff in Hnd as [Hnb Hnd].
    unfold upd at 1.
    destruct (Nat.eqb_spec (c_id y) (c_id c')) as [Hy|Hy].
    + exfalso. apply Hna. left. congruence.
    + f_equal. apply IH; auto.
  - f_equal. auto.
Qed.

(** A document rewritten by [accept()] or [reject()] keeps its id and its
    parties; only the found document changes its status. *)
Lemma upd_settle l c s acc now x :
  List.NoDup (map c_id l) -> In c l -> In x l ->
  let y := upd (Connection.set_status c s acc now) x in
  c_id y = c_id x /\ requester y = requester x /\ recipient y = recipient x
  /\ ((x <> c /\ y = x) \/ (x = c /\ status y = s)).
Proof.
  intros Hnd Hc Hx. unfold upd. cbn [c_id Connection.set_status].
  destruct (Nat.eqb_spec (c_id x) (c_id c)) as [He|Hne].
  - assert (x = c) by (eapply NoDup_map_eq; eauto). subst x.
    cbn. auto 6.
  - repeat split; auto. left. split; [congruence|reflexivity].
Qed.

(** ** Every operation is one ledger step *)

Lemma between_iff a b c :
  Connection.between a b c = true <->
  (requester c = a /\ recipient c = b) \/ (requester c = b /\ recipient c = a).
Proof.
  unfold Connection.between.
  rewrite orb_true_iff, !andb_true_iff, !Nat.eqb_eq. tauto.
Qed.

Lemma between_sym a b c : Connection.between a b c = Connection.between b a c.
Proof. unfold Connection.between. apply orb_comm. Qed.

Lemma is_active_iff c :
  is_active c = true <-> status c = pending \/ status c = accepted.
Proof.
  unfold is_active, Status_eqb.
  rewrite orb_true_iff, !bool_decide_eq_true. tauto.
Qed.

Lemma createNotification_frame up now data d :
  let d' := snd (Notification.createNotification up now data d) in
  connections d' = connections d /\ users d' = users d
  /\ nextId d' = S (nextId d).
Proof.
  rewrite createNotification_run. cbv zeta.
  destruct (note_error _ _ _); [|destruct up]; simpl; auto.
Qed.

Lemma insert_step (d d' : DB) now a b t m :
  (forall e, find (Connection.between a b) (connections d) = Some e ->
             is_active e = false) ->
  (a =? b) = false ->
  existsb (Connection.same_ordered (new_connection d now a b t m))
          (connections d) = false ->
  connections d' = connections d ++ [new_connection d now a b t m] ->
  nextId d < nextId d' ->
  ledger_step d d'.
Proof.
  intros Hg Hab Hdup Hc Hid.
  apply (ls_insert d d' (new_connection d now a b t m)); auto;
    simpl; first [ lia | now apply Nat.eqb_neq ].
Qed.

Lemma request_proceed_step up now user id msg d :
  (forall e, find (Connection.between (u_id user) id) (connections d) = Some e ->
             is_active e = false) ->
  ledger_step d (snd (request_proceed up now user id msg d)).
Proof.
  intros Hg. unfold request_proceed. rewrite create_run. cbv zeta.
  destruct (too_long _); [now apply ls_same|].
  destruct (u_id user =? id) eqn:Hab; [now apply ls_same|].
  destruct (existsb _ (connections d)) eqn:Hdup; [now apply ls_same|].
  match goal with
  | |- context [Notification.createNotification ?u ?n ?x ?dd] =>
      pose proof (createNotification_frame u n x dd) as (Hc & _ & Hn);
      destruct (Notification.createNotification u n x dd) as [[e|nn] d2]
  end; simpl in Hc, Hn |- *;
    (eapply insert_step; eauto; simpl; lia).
Qed.

Lemma follow_proceed_step now user id d :
  (forall e, find (Connection.between (u_id user) id) (connections d) = Some e ->
             is_active e = false) ->
  ledger_step d (snd (follow_proceed now user id d)).
Proof.
  intros Hg. unfold follow_proceed. rewrite create_run. cbv zeta.
  cbn [too_long].
  destruct (u_id user =? id) eqn:Hab; [now apply ls_same|].
  destruct (existsb _ (connections d)) eqn:Hdup; [now apply ls_same|].
  simpl. eapply insert_step; eauto; simpl; lia.
Qed.

(** The guard shared by [requestConnection] and [followUser]: the looked-up
    record is neither accepted nor pending. *)
Lemma guard_passes (l : list ConnectionDoc) flt (e0 : ConnectionDoc) :
  find flt l = Some e0 ->
  status e0 = rejected \/ status e0 = blocked ->
  forall e, find flt l = Some e -> is_active e = false.
Proof.
  intros H0 Hs e He. rewrite H0 in He. injection He as <-.
  unfold is_active, Status_eqb.
  destruct Hs as [-> | ->]; reflexivity.
Qed.

Lemma requestConnection_step up now user id msg d :
  ledger_step d (snd (requestConnection up now user id msg d)).
Proof.
  rewrite requestConnection_run.
  destruct (id =? u_id user); [now apply ls_same|].
  destruct (find _ (users d)); [|now apply ls_same].
  destruct (find _ (connections d)) as [e|] eqn:Hf.
  - destruct (status e) eqn:Hs; try (now apply ls_same);
      apply request_proceed_step; eapply guard_passes; eauto.
  - apply request_proceed_step. intros e He. congruence.
Qed.

Lemma followUser_step now user id d :
  ledger_step d (snd (followUser now user id d)).
Proof.
  rewrite followUser_run.
  destruct (id =? u_id user); [now apply ls_same|].
  destruct (find _ (users d)) as [t|]; [|now apply ls_same].
  destruct (negb (isActive t)); [now apply ls_same|].
  destruct (find _ (connections d)) as [e|] eqn:Hf.
  - destruct (status e) eqn:Hs; try (now apply ls_same);
      apply follow_proceed_step; eapply guard_passes; eauto.
  - apply follow_proceed_step. intros e He. congruence.
Qed.

Lemma pending_for_iff cid uid c :
  pending_for cid uid c = true <->
  c_id c = cid /\ recipient c = uid /\ status c = pending.
Proof.
  unfold pending_for, Status_eqb.
  rewrite !andb_true_iff, !Nat.eqb_eq, bool_decide_eq_true. tauto.
Qed.

Lemma acceptConnection_step up now user cid d :
  ledger_step d (snd (acceptConnection up now user cid d)).
Proof.
  rewrite acceptConnection_run.
  destruct (find _ (connections d)) as [c|] eqn:Hf; [|now apply ls_same].
  cbv zeta. destruct (requester c =? recipient c); [now apply ls_same|].
  apply find_some in Hf as [Hin Hp]. apply pending_for_iff in Hp as (_ & _ & Hs).
  match goal with
  | |- context [Notification.createNotification ?u ?n ?x ?dd] =>
      pose proof (createNotification_frame u n x dd) as (Hc & _ & _);
      destruct (Notification.createNotification u n x dd) as [[e|nn] d2]
  end; simpl in Hc |- *;
    apply (ls_settle _ _ c accepted (Some now) now); auto.
Qed.

Lemma rejectConnection_step now user cid d :
  ledger_step d (snd (rejectConnection now user cid d)).
Proof.
  rewrite rejectConnection_run.
  destruct (find _ (connections d)) as [c|] eqn:Hf; [|now apply ls_same].
  cbv zeta. destruct (requester c =? recipient c); [now apply ls_same|].
  apply find_some in Hf as [Hin Hp]. apply pending_for_iff in Hp as (_ & _ & Hs).
  apply (ls_settle _ _ c rejected (acceptedAt c) now); auto.
Qed.

Lemma unfollowUser_step user id d :
  ledger_step d (snd (unfollowUser user id d)).
Proof.
  rewrite unfollowUser_run. cbv zeta.
  destruct (find _ (connections d));
    now apply (ls_delete _ _ (Connection.accepted_between (u_id user) id)).
Qed.

Lemma exec_step o d : ledger_step d (snd (exec o d)).
Proof.
  destruct o; simpl;
    auto using requestConnection_step, followUser_step, acceptConnection_step,
      rejectConnection_step, unfollowUser_step.
  now apply ls_same.
Qed.

(** ** The invariant of the ledger *)

Lemma Inv_initial us ns n0 : Inv (initial us ns n0).
Proof.
  split; simpl; try contradiction. constructor.
Qed.

Lemma same_ordered_false_not_pair c l x :
  existsb (Connection.same_ordered c) l = false -> In x l ->
  ~ (requester x = requester c /\ recipient x = recipient c).
Proof.
  intros Hex Hx [Hr Hp].
  assert (existsb (Connection.same_ordered c) l = true); [|congruence].
  apply existsb_exists. exists x. split; [exact Hx|].
  unfold Connection.same_ordered. rewrite Hr, Hp, !Nat.eqb_refl. reflexivity.
Qed.

(** With the guard passed and the unique index satisfied, no stored document
    between the two parties is pending or accepted. *)
Lemma no_active_between d c x :
  Inv d ->
  existsb (Connection.same_ordered c) (connections d) = false ->
  (forall e, find (Connection.between (requester c) (recipient c))
                  (connections d) = Some e -> is_active e = false) ->
  In x (connections d) ->
  Connection.between (requester c) (recipient c) x = true ->
  is_active x = false.
Proof.
  intros HI Hdup Hg Hx Hb.
  destruct (find (Connection.between (requester c) (recipient c))
                 (connections d)) as [e|] eqn:Hf.
  - pose proof (Hg e eq_refl) as He.
    apply find_some in Hf as [Hein Heb].
    apply between_iff in Hb. apply between_iff in Heb.
    pose proof (same_ordered_false_not_pair _ _ _ Hdup Hx) as Hnx.
    pose proof (same_ordered_false_not_pair _ _ _ Hdup Hein) as Hne.
    destruct Hb as [Hb|[Hb1 Hb2]]; [tauto|].
    destruct Heb as [Heb|[He1 He2]]; [tauto|].
    rewrite (inv_ordered d HI x e); auto; congruence.
  - exfalso. eapply find_none in Hf; eauto. congruence.
Qed.

Lemma ledger_step_Inv d d' :
  Inv d -> ledger_step d d' -> nextId d <= nextId d' -> Inv d'.
Proof.
  intros HI Hstep Hid. destruct Hstep as [Hc | c Hc Hcid Hs Hne Hdup Hg
                                         | c s acc now Hin Hs Hsv Hc | flt Hc].
  - destruct HI as [H1 H2 H3 H4 H5].
    split; rewrite Hc; auto. intros c Hin. specialize (H2 c Hin). lia.
  - split; rewrite Hc.
    + rewrite map_app. simpl.
      apply List.NoDup_app.
      * apply (inv_ids d HI).
      * constructor; [simpl; tauto|constructor].
      * intros i Hi1 [Hi2|[]]. subst i.
        apply in_map_iff in Hi1 as (x & Hx & Hxin).
        pose proof (inv_fresh d HI x Hxin). lia.
    + intros x Hx. apply in_app_iff in Hx as [Hx|[<-|[]]]; [|lia].
      pose proof (inv_fresh d HI x Hx). lia.
    + intros x Hx. apply in_app_iff in Hx as [Hx|[<-|[]]]; [|exact Hne].
      apply (inv_irrefl d HI x Hx).
    + intros x y Hx Hy Hr Hp.
      apply in_app_iff in Hx as [Hx|[<-|[]]];
        apply in_app_iff in Hy as [Hy|[<-|[]]]; auto.
      * apply (inv_ordered d HI); auto.
      * exfalso. eapply same_ordered_false_not_pair; eauto.
      * exfalso. eapply same_ordered_false_not_pair; eauto.
    + intros x y Hx Hy Hax Hay Hb.
      apply in_app_iff in Hx as [Hx|[<-|[]]];
        apply in_app_iff in Hy as [Hy|[<-|[]]]; auto.
      * apply (inv_active d HI); auto.
      * exfalso.
        assert (is_active x = false); [|congruence].
        eapply no_active_between; eauto.
        apply between_iff in Hb. apply between_iff. intuition.
      * exfalso.
        assert (is_active y = false); [|congruence].
        eapply no_active_between; eauto.
  - pose proof (inv_ids d HI) as Hnd.
    rewrite (replace_by_id_map _ _ Hnd) in Hc.
    assert (Hprops : forall x', In x' (connections d') ->
              exists x, In x (connections d)
                /\ x' = upd (Connection.set_status c s acc now) x
                /\ c_id x' = c_id x /\ requester x' = requester x
                /\ recipient x' = recipient x
                /\ (is_active x' = true -> is_active x = true)).
    { intros x' Hx'. rewrite Hc in Hx'.
      apply in_map_iff in Hx' as (x & <- & Hx).
      exists x. split; [exact Hx|]. split; [reflexivity|].
      pose proof (upd_settle _ c s acc now x Hnd Hin Hx) as (E1 & E2 & E3 & E4).
      repeat split; auto.
      destruct E4 as [[_ ->]|[-> _]]; auto.
      intros _. apply is_active_iff. now left. }
    split.
    + rewrite Hc, map_map.
      erewrite map_ext_in; [exact Hnd|].
      intros x Hx. simpl.
      now pose proof (upd_settle _ c s acc now x Hnd Hin Hx) as (E1 & _).
    + intros x' Hx'. destruct (Hprops x' Hx') as (x & Hx & _ & E1 & _).
      pose proof (inv_fresh d HI x Hx). lia.
    + intros x' Hx'. destruct (Hprops x' Hx') as (x & Hx & _ & _ & E2 & E3 & _).
      rewrite E2, E3. apply (inv_irrefl d HI x Hx).
    + intros x' y' Hx' Hy' Hr Hp.
      destruct (Hprops x' Hx') as (x & Hx & -> & _ & E2 & E3 & _).
      destruct (Hprops y' Hy') as (y & Hy & -> & _ & F2 & F3 & _).
      f_equal. apply (inv_ordered d HI); auto; congruence.
    + intros x' y' Hx' Hy' Hax Hay Hb.
      destruct (Hprops x' Hx') as (x & Hx & -> & _ & E2 & E3 & E4).
      destruct (Hprops y' Hy') as (y & Hy & -> & _ & F2 & F3 & F4).
      f_equal. apply (inv_active d HI); auto.
      apply between_iff in Hb. apply between_iff.
      rewrite E2, E3, F2, F3 in Hb. exact Hb.
  - destruct HI as [H1 H2 H3 H4 H5].
    assert (Hsub : forall x, In x (connections d') -> In x (connections d)).
    { intros x. rewrite Hc. apply In_remove_first. }
    split; auto.
    + rewrite Hc. now apply NoDup_ids_remove_first.
    + intros x Hx. specialize (H2 x (Hsub x Hx)). lia.
Qed.

Lemma Inv_exec o d : Inv d -> Inv (snd (exec o d)).
Proof.
  intros HI. eapply ledger_step_Inv; eauto using exec_step, exec_ids_grow.
Qed.

Lemma Inv_run ops : forall d, Inv d -> Inv (run ops d).
Proof.
  induction ops as [|o ops IH]; simpl; intros d HI; [exact HI|].
  apply IH. now apply Inv_exec.
Qed.

(** ** The claims *)

(** C1 (the code departs from it).  Claimed: after a successful accept both
    accounts' [connectionsCount] is one more than before.  In the code every
    accept, successful or not, leaves the whole account directory as it was:
    [connectionsCount] is not a path of [userSchema], so the two [$inc]
    updates are cast away and neither counter moves. *)
Theorem accept_leaves_connectionsCount notifUp now user connectionId d :
  users (snd (acceptConnection notifUp now user connectionId d)) = users d
  /\ User.cast_inc "connectionsCount" = User.IncDropped.
Proof.
  split; [apply acceptConnection_users | reflexivity].
Qed.

(** The same at a concrete request: Bilal accepts Aisha's pending request 10,
    the response is 200, and both counters read what they read before. *)
Example accept_counters_at_pending_request :
  let r := acceptConnection true 101 bilal 10 store_pending in
  responded (fst r) = true
  /\ map status (connections (snd r)) = [accepted]
  /\ map User.connectionsCount (users (snd r))
     = map User.connectionsCount (users store_pending).
Proof. vm_compute. auto. Qed.

(** Had the schema declared the path, the same update would add the delta. *)
Example inc_on_a_declared_path :
  User.get_num "studentsCount"
    <$> (find (fun u => u_id u =? 2)
           (users (snd (User.findByIdAndUpdate_inc 2 "studentsCount" 1 store0))))
  = Some (Some 1%Z).
Proof. vm_compute. reflexivity. Qed.

(** C2, counterexample.  With the notification write failing, the request that
    otherwise answers 201 leaves with the store error instead. *)
Lemma notification_failure_fails_request :
  responded (fst (requestConnection true 100 aisha 2 (Some "teach me tajweed") store0))
  = true
  /\ fst (requestConnection false 100 aisha 2 (Some "teach me tajweed") store0)
     = Rejected StoreWriteFailed.
Proof. vm_compute. auto. Qed.

(** C2 (as amended).  For request-connection and accept, a failing
    notification write does not undo the connection-state change (the ledger
    is the one of the run in which the write succeeds, and no notification is
    stored), but it does fail the operation: where the handler would have
    responded, it leaves with the store error. *)
Theorem notification_failure_no_rollback_but_surfaces now user id msg cid d :
  let req_ok := requestConnection true now user id msg d in
  let req_ko := requestConnection false now user id msg d in
  let acc_ok := acceptConnection true now user cid d in
  let acc_ko := acceptConnection false now user cid d in
  connections (snd req_ko) = connections (snd req_ok)
  /\ connections (snd acc_ko) = connections (snd acc_ok)
  /\ notifications (snd req_ko) = notifications d
  /\ notifications (snd acc_ko) = notifications d
  /\ fst req_ko = (if responded (fst req_ok) then Rejected StoreWriteFailed
                   else fst req_ok)
  /\ fst acc_ko = (if responded (fst acc_ok) then Rejected StoreWriteFailed
                   else fst acc_ok).
Proof.
  cbv zeta. rewrite !requestConnection_run, !acceptConnection_run.
  assert (Hreq : forall dd,
    connections (snd (request_proceed false now user id msg dd))
    = connections (snd (request_proceed true now user id msg dd))
    /\ notifications (snd (request_proceed false now user id msg dd))
       = notifications dd
    /\ fst (request_proceed false now user id msg dd)
       = (if responded (fst (request_proceed true now user id msg dd))
          then Rejected StoreWriteFailed
          else fst (request_proceed true now user id msg dd))).
  { intros dd. unfold request_proceed. rewrite create_run. cbv zeta.
    destruct (too_long _); [auto|].
    destruct (u_id user =? id); [auto|].
    destruct (existsb _ (connections dd)); [auto|].
    rewrite !createNotification_run. cbv zeta.
    destruct (note_error _ _ _); simpl; auto. }
  repeat split;
    first
      [ (* the request handler: same guards, then [request_proceed] *)
        destruct (id =? u_id user); [reflexivity|];
        destruct (find (verified_imaam id) (users d)); [|reflexivity];
        destruct (find _ (connections d)) as [e|]; [destruct (status e)|];
        first [reflexivity | apply Hreq]
      | (* the accept handler: the notification is its last model call *)
        destruct (find _ (connections d)) as [c|]; [|reflexivity]; cbv zeta;
        destruct (requester c =? recipient c); [reflexivity|];
        rewrite !createNotification_run; cbv zeta;
        destruct (note_error _ _ _); reflexivity ].
Qed.

(** C3, counterexample.  Aisha requests Bilal, Bilal rejects, Bilal follows
    Aisha: the ledger then holds two documents for the pair. *)
Lemma two_documents_for_one_pair :
  count (Connection.between 1 2) (run ops_reject_then_follow store0) = 2.
Proof. vm_compute. reflexivity. Qed.

(** C3 (as amended).  In every store reachable from an empty ledger, at most
    one document exists per ordered pair (requester, recipient), hence at most
    two per unordered pair, and at most one document of an unordered pair is
    pending or accepted. *)
Theorem ledger_pair_uniqueness us ns n0 ops a b :
  let d := run ops (initial us ns n0) in
  count (ordered_pair a b) d <= 1
  /\ count (Connection.between a b) d <= 2
  /\ count (fun c => Connection.between a b c && is_active c) d <= 1.
Proof.
  cbv zeta. set (d := run ops (initial us ns n0)).
  assert (HI : Inv d) by (apply Inv_run, Inv_initial).
  assert (Hnd : List.NoDup (connections d))
    by (apply NoDup_of_ids, (inv_ids d HI)).
  assert (Hord : forall a b, count (ordered_pair a b) d <= 1).
  { intros a' b'. apply filter_at_most_one; [exact Hnd|].
    intros x y Hx Hy Hpx Hpy. unfold ordered_pair in *.
    apply andb_true_iff in Hpx as [?%Nat.eqb_eq ?%Nat.eqb_eq].
    apply andb_true_iff in Hpy as [?%Nat.eqb_eq ?%Nat.eqb_eq].
    apply (inv_ordered d HI); congruence. }
  split; [apply Hord|]. split.
  - pose proof (Hord a b). pose proof (Hord b a).
    pose proof (filter_orb_length (ordered_pair a b) (ordered_pair b a)
                  (connections d)).
    unfold count in *.
    change (fun x => ordered_pair a b x || ordered_pair b a x)
      with (Connection.between a b) in *. lia.
  - apply filter_at_most_one; [exact Hnd|].
    intros x y Hx Hy Hpx Hpy.
    apply andb_true_iff in Hpx as [Hbx Hax].
    apply andb_true_iff in Hpy as [Hby Hay].
    apply (inv_active d HI); auto.
    apply between_iff in Hbx, Hby. apply between_iff.
    destruct Hbx as [[-> ->]|[-> ->]]; tauto.
Qed.

(** *** Notices that pass validation *)

Lemma length_append (a b : string) :
  String.length (String.append a b) = String.length a + String.length b.
Proof. induction a as [|x a IH]; simpl; [reflexivity | now rewrite IH]. Qed.

Lemma js_length_append (a b : string) :
  js_length (String.append a b) = js_length a + js_length b.
Proof. induction a as [|x a IH]; simpl; [reflexivity | rewrite IH; lia]. Qed.

Lemma note_error_none t ttl msg :
  existsb (String.eqb t) Notification.type_enum = true ->
  0 < String.length ttl -> js_length ttl <= 100 ->
  0 < String.length msg -> js_length msg <= 300 ->
  note_error t ttl msg = None.
Proof.
  intros Ht Httl Httl' Hmsg Hmsg'. unfold note_error. rewrite Ht. cbn [negb].
  destruct (Nat.eqb_spec (String.length ttl) 0); [lia|].
  destruct (Nat.ltb_spec 100 (js_length ttl)); [lia|].
  destruct (Nat.eqb_spec (String.length msg) 0); [lia|].
  destruct (Nat.ltb_spec 300 (js_length msg)); [lia|].
  reflexivity.
Qed.

(** A user whose name respects the schema ([maxlength] 100) always produces
    valid notices. *)
Lemma accepted_notice_valid user c :
  js_length (fullName user) <= 100 ->
  note_error (Notification.type (accepted_notice user c))
             (Notification.title (accepted_notice user c))
             (Notification.message (accepted_notice user c)) = None.
Proof.
  intros Hn.
  apply note_error_none;
    [reflexivity | simpl; lia | vm_compute; lia | |];
    cbn [accepted_notice Notification.message].
  - rewrite length_append. simpl. lia.
  - rewrite js_length_append.
    match goal with
    | |- _ + js_length ?s <= _ =>
        let k := eval vm_compute in (js_length s) in
        change (js_length s) with k
    end. lia.
Qed.

Lemma request_notice_valid user id c :
  js_length (fullName user) <= 100 ->
  note_error (Notification.type (request_notice user id c))
             (Notification.title (request_notice user id c))
             (Notification.message (request_notice user id c)) = None.
Proof.
  intros Hn.
  apply note_error_none;
    [reflexivity | simpl; lia | vm_compute; lia | |];
    cbn [request_notice Notification.message].
  - rewrite length_append. simpl. lia.
  - rewrite js_length_append.
    match goal with
    | |- _ + js_length ?s <= _ =>
        let k := eval vm_compute in (js_length s) in
        change (js_length s) with k
    end. lia.
Qed.

(** *** Accept *)

Lemma find_pending_for_none l cid uid :
  (forall c, In c l ->
     ~ (c_id c = cid /\ recipient c = uid /\ status c = pending)) ->
  find (pending_for cid uid) l = None.
Proof.
  intros H. destruct (find (pending_for cid uid) l) as [c|] eqn:Hf; [|reflexivity].
  apply find_some in Hf as [Hin Hp]. apply pending_for_iff in Hp.
  exfalso. eapply H; eauto.
Qed.

Lemma find_pending_for_some l cid uid c :
  In c l -> c_id c = cid -> recipient c = uid -> status c = pending ->
  exists c0, find (pending_for cid uid) l = Some c0.
Proof.
  intros Hin H1 H2 H3.
  destruct (find (pending_for cid uid) l) as [c0|] eqn:Hf; [eauto|].
  eapply find_none in Hf; eauto.
  assert (pending_for cid uid c = true) by (apply pending_for_iff; auto).
  congruence.
Qed.

(** After the found request was written back as accepted, no document with
    its id is pending. *)
Lemma settled_not_pending d c s acc now x :
  Inv d -> In c (connections d) -> s <> pending ->
  In x (Connection.replace_by_id (Connection.set_status c s acc now)
          (connections d)) ->
  c_id x = c_id c -> status x = s /\ acceptedAt x = acc.
Proof.
  intros HI Hin Hs Hx Hid.
  pose proof (inv_ids d HI) as Hnd.
  rewrite (replace_by_id_map _ _ Hnd) in Hx.
  apply in_map_iff in Hx as (x0 & <- & Hx0).
  pose proof (upd_settle _ c s acc now x0 Hnd Hin Hx0) as (E1 & _ & _ & E4).
  cbv zeta in E1, E4. rewrite E1 in Hid.
  assert (x0 = c) by (eapply NoDup_map_eq; eauto). subst x0.
  unfold upd. cbn [c_id Connection.set_status]. rewrite Nat.eqb_refl.
  simpl. auto.
Qed.

(** C4.  [acceptConnection] answers NotFound (404) unless a stored record has
    the given id, the acting user as recipient and status pending, and it
    does not answer NotFound when there is one; after an accept that
    responded, the record is accepted with [acceptedAt] set and a second
    accept of the same id, by anyone, answers NotFound; the requester of a
    request who calls accept on it gets NotFound.  The ledger is any store
    reachable from an empty one. *)
Theorem accept_guard us ns n0 ops up now user cid :
  let d := run ops (initial us ns n0) in
  let r := acceptConnection up now user cid d in
  ((forall c, In c (connections d) ->
      ~ (c_id c = cid /\ recipient c = u_id user /\ status c = pending)) ->
   r = (Next "Connection request not found" 404, d))
  /\ (forall c, In c (connections d) ->
        c_id c = cid -> recipient c = u_id user -> status c = pending ->
        fst r <> Next "Connection request not found" 404
        /\ (up = true -> js_length (fullName user) <= 100 ->
            responded (fst r) = true))
  /\ (responded (fst r) = true ->
        (exists c', In c' (connections (snd r)) /\ c_id c' = cid
                    /\ status c' = accepted /\ acceptedAt c' = Some now)
        /\ forall up' now' user',
             acceptConnection up' now' user' cid (snd r)
             = (Next "Connection request not found" 404, snd r))
  /\ (forall c, In c (connections d) -> c_id c = cid ->
        requester c = u_id user ->
        r = (Next "Connection request not found" 404, d)).
Proof.
  cbv zeta. set (d := run ops (initial us ns n0)).
  assert (HI : Inv d) by (apply Inv_run, Inv_initial).
  pose proof (inv_ids d HI) as Hnd.
  split; [|split; [|split]].
  - intros Hno. rewrite acceptConnection_run.
    now rewrite (find_pending_for_none _ _ _ Hno).
  - intros c Hin H1 H2 H3. rewrite acceptConnection_run.
    destruct (find_pending_for_some _ _ _ c Hin H1 H2 H3) as (c0 & Hf).
    rewrite Hf. cbv zeta. apply find_some in Hf as [Hin0 _].
    pose proof (inv_irrefl d HI c0 Hin0) as Hirr.
    destruct (Nat.eqb_spec (requester c0) (recipient c0)); [contradiction|].
    rewrite createNotification_run. cbv zeta. split.
    + destruct (note_error _ _ _); [|destruct up]; simpl; discriminate.
    + intros -> Hname. rewrite accepted_notice_valid by assumption.
      reflexivity.
  - rewrite (acceptConnection_run up now).
    destruct (find _ (connections d)) as [c|] eqn:Hf; [|discriminate].
    cbv zeta. destruct (requester c =? recipient c); [discriminate|].
    apply find_some in Hf as [Hin Hp].
    apply pending_for_iff in Hp as (Hid & _ & _).
    match goal with
    | |- context [Notification.createNotification ?u ?n ?x ?dd] =>
        pose proof (createNotification_frame u n x dd) as (Hc & _ & _);
        destruct (Notification.createNotification u n x dd) as [[e|nn] d2]
    end; simpl in Hc |- *; intros _; rewrite Hc; (split;
      [ exists (upd (Connection.set_status c accepted (Some now) now) c);
        rewrite (replace_by_id_map _ _ Hnd);
        split; [now apply in_map|];
        unfold upd; cbn [c_id Connection.set_status]; rewrite Nat.eqb_refl;
        simpl; auto
      | intros up' now' user'; rewrite acceptConnection_run;
        (rewrite find_pending_for_none; [reflexivity|]);
        intros x Hx (Hxid & _ & Hxs); rewrite Hc in Hx;
        assert (accepted <> pending) as Hap by discriminate;
        destruct (settled_not_pending d c accepted (Some now) now x HI Hin Hap Hx)
          as [Hst _]; congruence ]).
  - intros c Hin Hid Hreq. rewrite acceptConnection_run.
    rewrite find_pending_for_none; [reflexivity|].
    intros x Hx (Hxid & Hxr & _).
    assert (x = c)
      by (apply (NoDup_map_eq c_id (connections d)); auto; congruence).
    subst x. apply (inv_irrefl d HI c Hin). congruence.
Qed.

(** *** Request connection *)

(** Past its guards, [requestConnection] never answers through [next]. *)
Lemma request_proceed_not_next up now user id msg d m k :
  fst (request_proceed up now user id msg d) <> Next m k.
Proof.
  unfold request_proceed. rewrite create_run. cbv zeta.
  destruct (too_long _); [discriminate|].
  destruct (u_id user =? id); [discriminate|].
  destruct (existsb _ (connections d)); [discriminate|].
  rewrite createNotification_run. cbv zeta.
  destruct (note_error _ _ _); [|destruct up]; discriminate.
Qed.

(** C5, counterexample.  Aisha requests Bilal and Bilal rejects.  When Aisha
    requests again, no record of the pair is accepted or pending, so the
    guard passes; yet no record is inserted: the unique index refuses the
    write and the ledger stays as it was. *)
Lemma rerequest_after_reject_inserts_nothing :
  let d := run [op_request; OpReject 101 bilal 10] store0 in
  let r := requestConnection true 102 aisha 2 (Some "please") d in
  count (fun c => Connection.between 1 2 c && is_active c) d = 0
  /\ fst r = Rejected DuplicateKey
  /\ connections (snd r) = connections d.
Proof. vm_compute. auto. Qed.

(** C5 (as amended).  Past the self and teacher checks, [requestConnection]
    answers Conflict if and only if the record the unordered-pair lookup
    [getConnection] returns is accepted or pending, and then writes nothing;
    so it does when the pair has stored records and all of them are accepted
    or pending, and does not when none of them is.  A looked-up record that
    is rejected or blocked, or none, passes the guard; a new record with
    status pending and [lastInteraction] the creation time is then inserted
    provided the [length] of the trimmed message is at most 200 and no record
    with the same (requester, recipient) is stored; otherwise the insert is
    refused with a validation or duplicate-key error and the ledger is
    unchanged. *)
Theorem request_guard up now user id msg d im :
  id <> u_id user ->
  find (verified_imaam id) (users d) = Some im ->
  let lookup := fst (Connection.getConnection (u_id user) id d) in
  let of_pair e := In e (connections d)
                   /\ Connection.between (u_id user) id e = true in
  let r := requestConnection up now user id msg d in
  let c := new_connection d now (u_id user) id student_teacher
                          (Some (default "" msg)) in
  (is_conflict (fst r) <->
   exists e, lookup = inr (Some e)
             /\ (status e = accepted \/ status e = pending))
  /\ ((exists e, of_pair e) ->
      (forall e, of_pair e -> status e = accepted \/ status e = pending) ->
      is_conflict (fst r))
  /\ ((forall e, of_pair e -> status e = rejected \/ status e = blocked) ->
      ~ is_conflict (fst r))
  /\ (is_conflict (fst r) -> snd r = d)
  /\ (~ is_conflict (fst r) ->
      (too_long (Some (default "" msg)) = true ->
         fst r = Rejected (ValidationError "message")
         /\ connections (snd r) = connections d)
      /\ (too_long (Some (default "" msg)) = false ->
          existsb (Connection.same_ordered c) (connections d) = true ->
          fst r = Rejected DuplicateKey
          /\ connections (snd r) = connections d)
      /\ (too_long (Some (default "" msg)) = false ->
          existsb (Connection.same_ordered c) (connections d) = false ->
          connections (snd r) = connections d ++ [c]
          /\ status c = pending /\ lastInteraction c = now
          /\ (up = true -> js_length (fullName user) <= 100 ->
              responded (fst r) = true))).
Proof.
  intros Hne Him. cbv zeta.
  assert (Hp : ~ is_conflict (fst (request_proceed up now user id msg d))).
  { intros [H|H]; eapply request_proceed_not_next; eauto. }
  assert (Hproceed :
    (too_long (Some (default "" msg)) = true ->
       fst (request_proceed up now user id msg d) = Rejected (ValidationError "message")
       /\ connections (snd (request_proceed up now user id msg d)) = connections d)
    /\ (too_long (Some (default "" msg)) = false ->
        existsb (Connection.same_ordered
                   (new_connection d now (u_id user) id student_teacher
                                   (Some (default "" msg)))) (connections d) = true ->
        fst (request_proceed up now user id msg d) = Rejected DuplicateKey
        /\ connections (snd (request_proceed up now user id msg d)) = connections d)
    /\ (too_long (Some (default "" msg)) = false ->
        existsb (Connection.same_ordered
                   (new_connection d now (u_id user) id student_teacher
                                   (Some (default "" msg)))) (connections d) = false ->
        connections (snd (request_proceed up now user id msg d))
        = connections d ++ [new_connection d now (u_id user) id student_teacher
                                           (Some (default "" msg))]
        /\ pending = pending /\ now = now
        /\ (up = true -> js_length (fullName user) <= 100 ->
            responded (fst (request_proceed up now user id msg d)) = true))).
  { unfold request_proceed. rewrite create_run. cbv zeta.
    assert (Hab : (u_id user =? id) = false)
      by (apply Nat.eqb_neq; congruence).
    rewrite Hab.
    destruct (too_long _).
    - repeat split; intros; try discriminate; reflexivity.
    - destruct (existsb _ (connections d)) eqn:Hdup.
      + repeat split; intros; try discriminate; reflexivity.
      + split; [discriminate|]. split; [discriminate|]. intros _ _.
        split; [|split; [reflexivity|split; [reflexivity|]]].
        * match goal with
          | |- context [Notification.createNotification ?u ?n ?x ?dd] =>
              pose proof (createNotification_frame u n x dd) as (Hc & _ & _);
              destruct (Notification.createNotification u n x dd) as [[e|nn] d2]
          end; simpl in Hc |- *; exact Hc.
        * intros -> Hname. rewrite createNotification_run. cbv zeta.
          rewrite request_notice_valid by assumption. reflexivity. }
  assert (Hmain :
    (is_conflict (fst (requestConnection up now user id msg d)) <->
     exists e, find (Connection.between (u_id user) id) (connections d) = Some e
               /\ (status e = accepted \/ status e = pending))
    /\ (is_conflict (fst (requestConnection up now user id msg d)) ->
        snd (requestConnection up now user id msg d) = d)
    /\ (~ is_conflict (fst (requestConnection up now user id msg d)) ->
        fst (requestConnection up now user id msg d)
        = fst (request_proceed up now user id msg d)
        /\ snd (requestConnection up now user id msg d)
           = snd (request_proceed up now user id msg d))).
  { rewrite requestConnection_run.
    assert (Hid : (id =? u_id user) = false) by (now apply Nat.eqb_neq).
    rewrite Hid, Him.
    destruct (find _ (connections d)) as [e|] eqn:Hf.
    - destruct (status e) eqn:Hs; simpl fst; simpl snd.
      + (* pending *)
        split; [split; [eauto|intros _; right; reflexivity]|].
        split; [reflexivity|]. intros Hn. exfalso. apply Hn. now right.
      + (* accepted *)
        split; [split; [eauto|intros _; left; reflexivity]|].
        split; [reflexivity|]. intros Hn. exfalso. apply Hn. now left.
      + split; [split; [intros H; contradiction|]|].
        * intros (e' & [= <-] & [H|H]); congruence.
        * split; [intros H; contradiction|]. intros _. split; reflexivity.
      + split; [split; [intros H; contradiction|]|].
        * intros (e' & [= <-] & [H|H]); congruence.
        * split; [intros H; contradiction|]. intros _. split; reflexivity.
    - split; [split; [intros H; contradiction|]|].
      + intros (e' & [=] & _).
      + split; [intros H; contradiction|]. intros _. split; reflexivity. }
  destruct Hmain as (Hiff & Hsame & Hpass).
  unfold Connection.getConnection, Connection.findOne. cbn [fst].
  split.
  { rewrite Hiff. split.
    - intros (e & He & Hs). exists e. split; [now rewrite He | exact Hs].
    - intros (e & He & Hs). exists e. split; [congruence | exact Hs]. }
  split.
  { intros (e0 & Hin0 & Hb0) Hall. apply Hiff.
    destruct (find (Connection.between (u_id user) id) (connections d))
      as [e|] eqn:Hf.
    - exists e. split; [reflexivity|].
      apply find_some in Hf as [Hin Hb]. apply Hall. split; assumption.
    - apply (find_none _ _ Hf) in Hin0. congruence. }
  split.
  { intros Hall Hc. apply Hiff in Hc as (e & Hf & Hs).
    apply find_some in Hf as [Hin Hb].
    destruct (Hall e (conj Hin Hb)) as [H|H], Hs as [H'|H']; congruence. }
  split; [exact Hsame|].
  intros Hn. destruct (Hpass Hn) as [-> ->]. exact Hproceed.
Qed.

(** *** Status transitions *)

Lemma status_move_trans a b c :
  status_move a b -> status_move b c -> status_move a c.
Proof.
  unfold status_move. intros [->|[-> Hb]] [->|[Hc Hd]]; auto.
Qed.

(** A document of the later store either is new, with an id drawn in this
    step, or continues a document of the earlier store by a legal move. *)
Lemma step_predecessor d d' c' :
  Inv d -> ledger_step d d' -> In c' (connections d') ->
  nextId d <= c_id c'
  \/ exists c, In c (connections d) /\ c_id c = c_id c'
               /\ status_move (status c) (status c').
Proof.
  intros HI Hstep Hin.
  destruct Hstep as [Hc | x Hc Hcid Hs Hne Hdup Hg
                     | c0 s acc now Hin0 Hs Hsv Hc | flt Hc].
  - right. exists c'. rewrite Hc in Hin. repeat split; auto. now left.
  - rewrite Hc in Hin. apply in_app_iff in Hin as [Hin|[<-|[]]].
    + right. exists c'. repeat split; auto. now left.
    + left. lia.
  - right. pose proof (inv_ids d HI) as Hnd.
    rewrite Hc, (replace_by_id_map _ _ Hnd) in Hin.
    apply in_map_iff in Hin as (x & <- & Hx).
    pose proof (upd_settle _ c0 s acc now x Hnd Hin0 Hx) as (E1 & _ & _ & E4).
    cbv zeta in E1, E4. exists x. repeat split; auto.
    destruct E4 as [[_ ->]|[-> E]]; [now left|].
    right. rewrite E. auto.
  - right. exists c'. rewrite Hc in Hin. apply In_remove_first in Hin.
    repeat split; auto. now left.
Qed.

Lemma run_snoc ops o d : run (ops ++ [o]) d = snd (exec o (run ops d)).
Proof. unfold run. now rewrite fold_left_app. Qed.

Lemma run_ids_grow ops : forall d, nextId d <= nextId (run ops d).
Proof.
  induction ops as [|o ops IH]; simpl; intros d; [lia|].
  pose proof (exec_ids_grow o d). specialize (IH (snd (exec o d))). lia.
Qed.

Lemma run_status_move ops d c c' :
  Inv d -> In c (connections d) -> In c' (connections (run ops d)) ->
  c_id c' = c_id c -> status_move (status c) (status c').
Proof.
  intros HI Hin. revert c'.
  induction ops as [|o ops IH] using rev_ind; intros c' Hin' Hid.
  - simpl in Hin'.
    assert (c' = c)
      by (apply (NoDup_map_eq c_id (connections d)); auto; apply (inv_ids d HI)).
    subst. now left.
  - rewrite run_snoc in Hin'.
    destruct (step_predecessor (run ops d) _ c' (Inv_run ops d HI)
                (exec_step o (run ops d)) Hin') as [Hnew|(c1 & Hin1 & Hid1 & Hmv)].
    + pose proof (inv_fresh d HI c Hin). pose proof (run_ids_grow ops d). lia.
    + eapply status_move_trans; [|exact Hmv]. apply IH; auto. congruence.
Qed.

(** C6.  Between any two stores of a run of the exposed operations, a record
    (followed by its id) keeps its status or moves from pending to accepted
    or from pending to rejected, which are among the moves the claim allows;
    in particular a record that is accepted or rejected is never pending
    afterwards. *)
Theorem status_transitions us ns n0 ops0 ops c c' :
  let d := run ops0 (initial us ns n0) in
  let d' := run ops d in
  In c (connections d) -> In c' (connections d') -> c_id c' = c_id c ->
  status_move (status c) (status c')
  /\ (status c = accepted \/ status c = rejected -> status c' = status c).
Proof.
  cbv zeta. intros Hin Hin' Hid.
  assert (Hmv : status_move (status c) (status c')).
  { eapply run_status_move; eauto. apply Inv_run, Inv_initial. }
  split; [exact Hmv|].
  intros Hs. destruct Hmv as [H|[H _]]; [exact H|].
  destruct Hs; congruence.
Qed.

(** *** Unfollow *)

Lemma accepted_between_iff a b c :
  Connection.accepted_between a b c = true <->
  Connection.between a b c = true /\ status c = accepted.
Proof.
  unfold Connection.accepted_between, Status_eqb.
  now rewrite andb_true_iff, bool_decide_eq_true.
Qed.

Lemma find_first_is d a b c :
  Inv d -> In c (connections d) -> Connection.accepted_between a b c = true ->
  find (Connection.accepted_between a b) (connections d) = Some c.
Proof.
  intros HI Hin Hc.
  destruct (find _ (connections d)) as [c0|] eqn:Hf.
  - f_equal. apply find_some in Hf as [Hin0 Hc0].
    apply accepted_between_iff in Hc as [Hb Hs].
    apply accepted_between_iff in Hc0 as [Hb0 Hs0].
    apply (inv_active d HI); auto.
    + apply is_active_iff. now right.
    + apply is_active_iff. now right.
    + apply between_iff in Hb, Hb0. apply between_iff.
      destruct Hb0 as [[-> ->]|[-> ->]]; tauto.
  - eapply find_none in Hf; eauto. congruence.
Qed.

(** C7, counterexample.  Bilal's follow of Aisha was accepted while Aisha's
    own rejected request to Bilal is still in the ledger.  Aisha unfollows:
    the answer is 200.  Her follow call right after is refused by the unique
    index, it does not succeed as a fresh request. *)
Lemma follow_after_unfollow_refused :
  let d := run ops_mutual store0 in
  let r := unfollowUser aisha 2 d in
  responded (fst r) = true
  /\ fst (followUser 105 aisha 2 (snd r)) = Rejected DuplicateKey.
Proof. vm_compute. auto. Qed.

(** C7 (as amended).  In a reachable store, [unfollowUser] answers NotFound
    (404) and changes nothing when no accepted record exists between the two
    users; when one exists, in either direction, it answers 200 and deletes
    exactly that record, after which no accepted record between them is left.
    A follow call by the same user on the same target right after succeeds
    as a fresh pending request provided the target is a stored, active
    account and no record with this requester and this recipient is left in
    the ledger. *)
Theorem unfollow_effect us ns n0 ops user id :
  let d := run ops (initial us ns n0) in
  let flt := Connection.accepted_between (u_id user) id in
  let r := unfollowUser user id d in
  ((forall c, In c (connections d) -> flt c = false) ->
   r = (Next "Not following this user" 404, d))
  /\ (forall c, In c (connections d) -> flt c = true ->
      fst r = Respond 200 (success_body (Some "Unfollowed successfully") None)
      /\ (forall x, In x (connections (snd r)) <-> In x (connections d) /\ x <> c)
      /\ (forall x, In x (connections (snd r)) -> flt x = false)
      /\ forall now t,
           find (fun u => u_id u =? id) (users d) = Some t ->
           isActive t = true ->
           (forall x, In x (connections (snd r)) ->
                      ~ (requester x = u_id user /\ recipient x = id)) ->
           let r2 := followUser now user id (snd r) in
           let c2 := new_connection (snd r) now (u_id user) id peer None in
           responded (fst r2) = true
           /\ connections (snd r2) = connections (snd r) ++ [c2]
           /\ status c2 = pending /\ ctype c2 = peer).
Proof.
  cbv zeta. set (d := run ops (initial us ns n0)).
  assert (HI : Inv d) by (apply Inv_run, Inv_initial).
  split.
  - intros Hno. rewrite unfollowUser_run. cbv zeta.
    destruct (find _ (connections d)) as [c|] eqn:Hf.
    + apply find_some in Hf as [Hin Hc]. rewrite (Hno c Hin) in Hc. discriminate.
    + rewrite (remove_first_none _ _ Hf). destruct d; reflexivity.
  - intros c Hin Hc.
    pose proof (find_first_is d _ _ c HI Hin Hc) as Hf.
    pose proof (NoDup_of_ids _ (inv_ids d HI)) as Hnd.
    rewrite unfollowUser_run. cbv zeta. rewrite Hf. simpl fst. simpl snd.
    assert (Hmem : forall x, In x (Connection.remove_first
                      (Connection.accepted_between (u_id user) id) (connections d))
                    <-> In x (connections d) /\ x <> c).
    { intros x. split.
      - intros Hx. split; [eapply In_remove_first; eauto|].
        intros ->. eapply remove_first_gone; eauto.
      - intros [Hx Hne]. eapply remove_first_keeps; eauto. }
    assert (Hgone : forall x, In x (Connection.remove_first
                      (Connection.accepted_between (u_id user) id) (connections d))
                    -> Connection.accepted_between (u_id user) id x = false).
    { intros x Hx. apply Hmem in Hx as [Hx Hne].
      destruct (Connection.accepted_between (u_id user) id x) eqn:Hax; [|reflexivity].
      exfalso. apply Hne.
      pose proof (find_first_is d _ _ x HI Hx Hax) as Hfx. congruence. }
    split; [reflexivity|]. split; [exact Hmem|]. split; [exact Hgone|].
    intros now t Ht Hact Hfree.
    apply accepted_between_iff in Hc as [Hb Hs].
    assert (Hne : id <> u_id user).
    { pose proof (inv_irrefl d HI c Hin) as Hirr.
      apply between_iff in Hb. intros ->. destruct Hb as [[? ?]|[? ?]]; congruence. }
    rewrite followUser_run.
    assert (Hid : (id =? u_id user) = false) by (now apply Nat.eqb_neq).
    rewrite Hid. cbn [users Connection.set_connections connections].
    rewrite Ht, Hact. cbn [negb].
    assert (Hproceed :
      let d1 := Connection.set_connections d
                  (Connection.remove_first
                     (Connection.accepted_between (u_id user) id) (connections d)) in
      responded (fst (follow_proceed now user id d1)) = true
      /\ connections (snd (follow_proceed now user id d1))
         = connections d1 ++ [new_connection d1 now (u_id user) id peer None]
      /\ pending = pending /\ peer = peer).
    { cbv zeta. unfold follow_proceed. rewrite create_run. cbv zeta.
      cbn [too_long].
      assert (Hab : (u_id user =? id) = false)
        by (apply Nat.eqb_neq; congruence).
      rewrite Hab.
      destruct (existsb _ _) eqn:Hdup.
      - exfalso. apply existsb_exists in Hdup as (x & Hx & Hso).
        cbn [connections Connection.set_connections] in Hx.
        apply (Hfree x Hx).
        unfold Connection.same_ordered in Hso. cbn in Hso.
        apply andb_true_iff in Hso as [?%Nat.eqb_eq ?%Nat.eqb_eq]. auto.
      - simpl. auto. }
    cbv zeta in Hproceed.
    destruct (find _ (Connection.remove_first _ _)) as [e|] eqn:Hfe;
      [|exact Hproceed].
    apply find_some in Hfe as [Hein Heb]. apply Hmem in Hein as [Hein Hec].
    destruct (status e) eqn:Hse; try exact Hproceed; exfalso; apply Hec;
      symmetry; apply (inv_active d HI); auto;
      try (apply is_active_iff; auto);
      apply between_iff in Hb, Heb; apply between_iff;
      destruct Hb as [[-> ->]|[-> ->]]; tauto.
Qed.

(** *** Notification priority *)

Lemma system_docs_run now rs data d :
  Notification.system_docs now rs data d
  = (inr (system_list now data (nextId d) rs), advance d (length rs)).
Proof.
  revert d. induction rs as [|r rs IH]; intros d.
  - destruct d; reflexivity.
  - cbn [Notification.system_docs]. rewrite bind_run. unfold freshId at 1.
    cbv beta iota. rewrite bind_run, IH. cbv beta iota.
    unfold ret, advance. cbn [users connections notifications nextId
                               system_list length].
    do 2 f_equal. lia.
Qed.

Lemma validate_run n d :
  Notification.validate n d
  = match note_error (n_type n) (n_title n) (n_message n) with
    | Some e => (inl (Rejected e), d)
    | None => (inr tt, d)
    end.
Proof.
  unfold Notification.validate, note_error, throw, leave, ret.
  destruct (negb (existsb _ Notification.type_enum)); [reflexivity|].
  destruct ((String.length (n_title n) =? 0) || _); [reflexivity|].
  destruct ((String.length (n_message n) =? 0) || _); reflexivity.
Qed.

Lemma validate_all_system now data id rs d :
  Notification.validate_all (system_list now data id rs) d
  = match rs, note_error (Notification.type data) (Notification.title data)
                         (Notification.message data) with
    | _ :: _, Some e => (inl (Rejected e), d)
    | _, _ => (inr tt, d)
    end.
Proof.
  revert id. induction rs as [|r rs IH]; intros id; [reflexivity|].
  cbn [system_list Notification.validate_all]. rewrite bind_run, validate_run.
  cbn [n_type n_title n_message].
  destruct (note_error _ _ _) as [e|] eqn:E; [reflexivity|].
  rewrite IH. now destruct rs.
Qed.

Lemma createSystemNotification_run up now rs data d :
  Notification.createSystemNotification up now rs data d =
  let docs := system_list now data (nextId d) rs in
  let d1 := advance d (length rs) in
  match rs with
  | [] => (inr [], d1)
  | _ :: _ =>
      match note_error (Notification.type data) (Notification.title data)
                       (Notification.message data) with
      | Some e => (inl (Rejected e), d1)
      | None =>
          if up
          then (inr docs,
                Notification.set_notifications d1 (notifications d ++ docs))
          else (inl (Rejected StoreWriteFailed), d1)
      end
  end.
Proof.
  unfold Notification.createSystemNotification. rewrite bind_run.
  rewrite system_docs_run. cbv beta iota zeta.
  unfold Notification.insertMany. rewrite bind_run, validate_all_system.
  destruct rs as [|r rs]; [reflexivity|].
  destruct (note_error _ _ _); [reflexivity|].
  cbn [system_list]. destruct up; reflexivity.
Qed.

Lemma system_list_recipients now data id rs :
  map n_recipient (system_list now data id rs) = rs.
Proof.
  revert id. induction rs as [|r rs IH]; intros id; simpl; [reflexivity|].
  now rewrite IH.
Qed.

Lemma system_list_priority now data id rs n :
  In n (system_list now data id rs) ->
  n_priority n = default medium (Notification.priority data)
  /\ n_isRead n = false /\ n_sender n = None
  /\ n_type n = Notification.type data.
Proof.
  revert id. induction rs as [|r rs IH]; intros id Hin; [contradiction|].
  destruct Hin as [<-|Hin]; [auto|]. eapply IH; eauto.
Qed.


(** C8, counterexample.  A caller who supplies priority [medium] for a
    [post_like] notification gets a notification of priority [low]. *)
Lemma supplied_medium_is_overwritten :
  map n_priority
    (notifications
       (snd (Notification.createNotification true 100
               (like_notice (Some medium)) store0)))
  = [low].
Proof. vm_compute. reflexivity. Qed.

(** C8 (as amended).  [createNotification], the path every handler takes,
    creates a notification exactly when its type is one of the table (the
    enumeration of the schema), its title and message pass validation and
    the write succeeds.  Its priority is the table's entry for its type when
    the caller supplied no priority or supplied [medium], and the supplied
    priority when that is not [medium].  [createSystemNotification] inserts
    without the save hook: each of its notifications has the supplied
    priority, or [medium] when none is supplied, whatever the table says.
    On either path a type outside the table is refused and nothing is stored
    for it. *)
Theorem notification_priority up now data d :
  let r := Notification.createNotification up now data d in
  let valid := note_error (Notification.type data) (Notification.title data)
                          (Notification.message data) = None in
  (forall n d', r = (inr n, d') ->
     notifications d' = notifications d ++ [n]
     /\ exists p, Notification.lookup_priority (Notification.type data) = Some p
        /\ n_priority n =
           match Notification.priority data with
           | Some q => if bool_decide (q = medium) then p else q
           | None => p
           end)
  /\ (valid -> up = true -> exists n d', r = (inr n, d'))
  /\ (Notification.lookup_priority (Notification.type data) = None ->
      fst r = inl (Rejected (ValidationError "type"))
      /\ notifications (snd r) = notifications d)
  /\ (forall rs,
        let rs_r := Notification.createSystemNotification up now rs data d in
        (forall docs d', rs_r = (inr docs, d') ->
           notifications d' = notifications d ++ docs
           /\ map n_recipient docs = rs
           /\ forall n, In n docs ->
                n_priority n = default medium (Notification.priority data))
        /\ (valid -> up = true -> exists docs d', rs_r = (inr docs, d'))
        /\ (Notification.lookup_priority (Notification.type data) = None ->
            rs <> [] ->
            fst rs_r = inl (Rejected (ValidationError "type"))
            /\ notifications (snd rs_r) = notifications d)).
Proof.
  cbv zeta.
  assert (Hout : Notification.lookup_priority (Notification.type data) = None ->
                 note_error (Notification.type data) (Notification.title data)
                            (Notification.message data)
                 = Some (ValidationError "type")).
  { intros Hnone. unfold note_error.
    destruct (existsb _ Notification.type_enum) eqn:Hen; [|reflexivity].
    apply type_enum_is_table in Hen as [p Hp]. congruence. }
  split; [|split; [|split]].
  - rewrite createNotification_run. cbv zeta.
    intros n d' H. unfold note_error in H.
    destruct (existsb _ Notification.type_enum) eqn:Hen;
      cbn [negb] in H; [|discriminate].
    apply type_enum_is_table in Hen as [p Hp].
    destruct (_ || _); [discriminate|].
    destruct (_ || _); [discriminate|].
    destruct up; [|discriminate]. injection H as <- <-.
    split; [reflexivity|]. exists p. split; [exact Hp|].
    unfold hooked, new_notification.
    cbn [n_priority n_type Notification.set_priority].
    rewrite Hp.
    destruct (Notification.priority data) as [q|];
      cbn [default from_option]; unfold Datatypes.id.
    + destruct (bool_decide (q = medium)) eqn:Hq; reflexivity.
    + reflexivity.
  - rewrite createNotification_run. cbv zeta. intros -> ->. eauto.
  - rewrite createNotification_run. cbv zeta.
    intros Hnone. rewrite (Hout Hnone). split; reflexivity.
  - intros rs. rewrite createSystemNotification_run. cbv zeta.
    split; [|split].
    + intros docs d' H.
      destruct rs as [|r0 rs0] eqn:Ers.
      * injection H as <- <-. cbn [system_list advance notifications].
        rewrite app_nil_r. split; [reflexivity|]. split; [reflexivity|].
        intros n [].
      * rewrite <- Ers in *.
        destruct (note_error _ _ _); [discriminate|].
        destruct up; [|discriminate]. injection H as <- <-.
        split; [reflexivity|]. split; [apply system_list_recipients|].
        intros n Hin. now apply system_list_priority in Hin.
    + intros -> ->. destruct rs; eauto.
    + intros Hnone Hrs. destruct rs as [|r0 rs0]; [congruence|].
      rewrite (Hout Hnone). split; reflexivity.
Qed.

(** *** Response shapes *)

(** C9 (the code departs from it).  Claimed: the pending-requests list
    carries the pagination fields.  In the code that response always is 200
    with exactly the two fields [success] and [data], [data] being the bare
    array of requests: no pagination field is attached, at the top or under
    [data], although the handler reads [page] and [limit]. *)
Theorem pending_list_has_no_pagination user q_page q_limit d :
  let r := getConnectionRequests user q_page q_limit d in
  exists docs,
    fst r = Respond 200 (JObj [("success", JBool true); ("data", JArr docs)])
    /\ snd r = d
    /\ keys (body_of (fst r)) = ["success"; "data"]
    /\ map (fun k => has_key k (body_of (fst r)) || has_key k (JArr docs))
           ["currentPage"; "totalPages"; "totalItems"; "hasNext"; "hasPrev";
            "pagination"]
       = [false; false; false; false; false; false].
Proof.
  cbv zeta. unfold getConnectionRequests, handle. rewrite bind_run.
  unfold Connection.getPendingConnections at 1. cbv beta iota zeta.
  rewrite bind_run. unfold get at 1. cbv beta iota. unfold ret.
  eexists. repeat split; reflexivity.
Qed.

(** The sibling list of the same subsystem, [getFollowers], does attach the
    pagination object, under [data]. *)
Lemma followers_list_has_pagination id q_page q_limit d body :
  fst (getFollowers id q_page q_limit d) = Respond 200 body ->
  exists data pg,
    field "data" body = Some data /\ field "pagination" data = Some pg
    /\ keys pg = ["currentPage"; "totalPages"; "totalFollowers"; "hasNext";
                  "hasPrev"].
Proof.
  unfold getFollowers, handle. cbv zeta. rewrite bind_run.
  unfold User.findById, User.findOne at 1. cbv beta iota.
  destruct (find _ (users d)) as [u|]; [|discriminate].
  destruct (negb (isActive u)); [discriminate|].
  rewrite bind_run. unfold get at 1. cbv beta iota. unfold ret. cbn [fst].
  intros [= <-]. eexists. eexists. repeat split; reflexivity.
Qed.

(** *** Follow *)

(** C10.  [followUser] never writes the notification collection (nor the
    account directory); when it answers 200 the only change is one new
    pending peer request appended to the ledger.  [requestConnection], when
    it answers, has stored one [connection_request] notification for the
    teacher. *)
Theorem follow_emits_no_notification now user id d :
  let r := followUser now user id d in
  notifications (snd r) = notifications d
  /\ users (snd r) = users d
  /\ (responded (fst r) = true ->
      let c := new_connection d now (u_id user) id peer None in
      connections (snd r) = connections d ++ [c]
      /\ status c = pending /\ ctype c = peer
      /\ requester c = u_id user /\ recipient c = id)
  /\ (forall t,
        id <> u_id user ->
        find (fun u => u_id u =? id) (users d) = Some t -> isActive t = true ->
        (forall e, find (Connection.between (u_id user) id) (connections d)
                   = Some e -> is_active e = false) ->
        (forall x, In x (connections d) ->
                   ~ (requester x = u_id user /\ recipient x = id)) ->
        responded (fst r) = true)
  /\ (forall up msg,
        let q := requestConnection up now user id msg d in
        responded (fst q) = true ->
        exists n, notifications (snd q) = notifications d ++ [n]
                  /\ n_type n = "connection_request" /\ n_recipient n = id).
Proof.
  cbv zeta. split; [apply followUser_notifications|].
  split; [apply followUser_users|]. split; [|split].
  2:{ intros t Hne Ht Hact Hguard Hfree. rewrite followUser_run.
      assert (Hid : (id =? u_id user) = false) by (now apply Nat.eqb_neq).
      rewrite Hid, Ht, Hact. cbn [negb].
      assert (Hp : responded (fst (follow_proceed now user id d)) = true).
      { unfold follow_proceed. rewrite create_run. cbv zeta. cbn [too_long].
        assert (Hab : (u_id user =? id) = false)
          by (apply Nat.eqb_neq; congruence).
        rewrite Hab.
        destruct (existsb _ (connections d)) eqn:Hdup; [|reflexivity].
        exfalso. apply existsb_exists in Hdup as (x & Hx & Hso).
        apply (Hfree x Hx).
        unfold Connection.same_ordered in Hso. cbn in Hso.
        apply andb_true_iff in Hso as [?%Nat.eqb_eq ?%Nat.eqb_eq]. auto. }
      destruct (find _ (connections d)) as [e|] eqn:Hf; [|exact Hp].
      pose proof (Hguard e eq_refl) as He. unfold is_active, Status_eqb in He.
      destruct (status e); first [discriminate | exact Hp]. }
  - rewrite followUser_run.
    assert (Hp : responded (fst (follow_proceed now user id d)) = true ->
                 connections (snd (follow_proceed now user id d))
                 = connections d ++ [new_connection d now (u_id user) id peer None]
                 /\ pending = pending /\ peer = peer
                 /\ u_id user = u_id user /\ id = id).
    { unfold follow_proceed. rewrite create_run. cbv zeta. cbn [too_long].
      destruct (u_id user =? id); [discriminate|].
      destruct (existsb _ (connections d)); [discriminate|].
      simpl. auto. }
    destruct (id =? u_id user); [discriminate|].
    destruct (find _ (users d)) as [t|]; [|discriminate].
    destruct (negb (isActive t)); [discriminate|].
    destruct (find _ (connections d)) as [e|]; [|exact Hp].
    destruct (status e); first [discriminate | exact Hp].
  - intros up msg. rewrite requestConnection_run.
    assert (Hp : responded (fst (request_proceed up now user id msg d)) = true ->
                 exists n, notifications (snd (request_proceed up now user id msg d))
                           = notifications d ++ [n]
                           /\ n_type n = "connection_request"
                           /\ n_recipient n = id).
    { unfold request_proceed. rewrite create_run. cbv zeta.
      destruct (too_long _); [discriminate|].
      destruct (u_id user =? id); [discriminate|].
      destruct (existsb _ (connections d)); [discriminate|].
      rewrite createNotification_run. cbv zeta.
      destruct (note_error _ _ _); [discriminate|].
      destruct up; [|discriminate].
      intros _. eexists. split; [reflexivity|]. split; reflexivity. }
    destruct (id =? u_id user); [discriminate|].
    destruct (find _ (users d)); [|discriminate].
    destruct (find _ (connections d)) as [e|]; [|exact Hp].
    destruct (status e); first [discriminate | exact Hp].
Qed.

(** ** The theorems at concrete requests *)

(** Accepting in [store_pending]: an unknown id, Bilal's accept of request
    10, his second accept, and Aisha's accept of her own request. *)
Lemma accept_guard_witness :
  acceptConnection true 101 bilal 11 store_pending
  = (Next "Connection request not found" 404, store_pending)
  /\ fst (acceptConnection true 101 bilal 10 store_pending)
     <> Next "Connection request not found" 404
  /\ responded (fst (acceptConnection true 101 bilal 10 store_pending)) = true
  /\ acceptConnection true 102 bilal 10
       (snd (acceptConnection true 101 bilal 10 store_pending))
     = (Next "Connection request not found" 404,
        snd (acceptConnection true 101 bilal 10 store_pending))
  /\ acceptConnection true 101 aisha 10 store_pending
     = (Next "Connection request not found" 404, store_pending).
Proof.
  pose proof (accept_guard [aisha; bilal] [] 10 [op_request] true 101 bilal 11)
    as (Hnone & _).
  pose proof (accept_guard [aisha; bilal] [] 10 [op_request] true 101 bilal 10)
    as (_ & Hfound & Htwice & _).
  pose proof (accept_guard [aisha; bilal] [] 10 [op_request] true 101 aisha 10)
    as (_ & _ & _ & Hown).
  split; [|split; [|split; [|split]]].
  - apply Hnone. intros c Hin (Hid & _).
    vm_compute in Hin. destruct Hin as [<-|[]]. discriminate.
  - apply (Hfound request10); [vm_compute; auto | reflexivity..].
  - apply (Hfound request10);
      [vm_compute; auto | reflexivity | reflexivity | reflexivity | reflexivity
      | vm_compute; lia].
  - apply Htwice. vm_compute. reflexivity.
  - apply (Hown request10); [vm_compute; auto | reflexivity..].
Defined.

(** Aisha's first request is inserted; her second, while the first is
    pending, is a Conflict and writes nothing. *)
Lemma request_guard_witness :
  connections (snd (requestConnection true 100 aisha 2
                      (Some "teach me tajweed") store0))
  = [request10]
  /\ is_conflict (fst (requestConnection true 101 aisha 2 None store_pending))
  /\ snd (requestConnection true 101 aisha 2 None store_pending) = store_pending.
Proof.
  assert (Hne : 2 <> u_id aisha) by (vm_compute; discriminate).
  pose proof (request_guard true 100 aisha 2 (Some "teach me tajweed") store0
                bilal Hne eq_refl) as (Hiff & _ & _ & _ & Hpass).
  pose proof (request_guard true 101 aisha 2 None store_pending
                bilal Hne eq_refl) as (Hiff' & _ & _ & Hsame & _).
  assert (Hc : is_conflict
                 (fst (requestConnection true 101 aisha 2 None store_pending))).
  { apply Hiff'. exists request10. split; [reflexivity | right; reflexivity]. }
  split; [|split; [exact Hc | exact (Hsame Hc)]].
  assert (Hnc : ~ is_conflict
                  (fst (requestConnection true 100 aisha 2
                          (Some "teach me tajweed") store0))).
  { intros Hcf. apply Hiff in Hcf as (e & He & _). vm_compute in He. discriminate. }
  destruct (Hpass Hnc) as (_ & _ & Hins).
  destruct (Hins eq_refl eq_refl) as (Hcs & _). exact Hcs.
Defined.

(** Request 10 moves from pending to accepted; once rejected, it stays
    rejected through a late accept and a follow. *)
Lemma status_transitions_witness :
  status_move pending accepted
  /\ status (Connection.set_status request10 rejected None 101) = rejected.
Proof.
  split.
  - apply (status_transitions [aisha; bilal] [] 10 [op_request]
             [OpAccept true 101 bilal 10] request10
             (Connection.set_status request10 accepted (Some 101) 101)).
    + vm_compute. auto.
    + vm_compute. auto.
    + reflexivity.
  - apply (status_transitions [aisha; bilal] [] 10
             [op_request; OpReject 101 bilal 10]
             [OpAccept true 102 bilal 10; OpFollow 103 aisha 2]
             (Connection.set_status request10 rejected None 101)
             (Connection.set_status request10 rejected None 101)).
    + vm_compute. auto.
    + vm_compute. auto.
    + reflexivity.
    + right. reflexivity.
Defined.

(** Unfollowing with an empty ledger is NotFound; Bilal unfollows Aisha after
    his accepted follow, the record is gone and he can follow again. *)
Lemma unfollow_effect_witness :
  unfollowUser aisha 2 store0 = (Next "Not following this user" 404, store0)
  /\ fst (unfollowUser bilal 1 (run ops_followed store0))
     = Respond 200 (success_body (Some "Unfollowed successfully") None)
  /\ connections (snd (unfollowUser bilal 1 (run ops_followed store0))) = []
  /\ responded
       (fst (followUser 103 bilal 1
               (snd (unfollowUser bilal 1 (run ops_followed store0))))) = true.
Proof.
  pose proof (unfollow_effect [aisha; bilal] [] 10 [] aisha 2) as (Hnone & _).
  pose proof (unfollow_effect [aisha; bilal] [] 10 ops_followed bilal 1)
    as (_ & Hsome).
  split; [apply Hnone; intros c []|].
  destruct (Hsome follow10) as (Hok & Hmem & _ & Hagain);
    [vm_compute; auto | reflexivity |].
  split; [exact Hok|]. split; [vm_compute; reflexivity|].
  destruct (Hagain 103 aisha) as (Hresp & _).
  - reflexivity.
  - reflexivity.
  - intros x Hx. vm_compute in Hx. contradiction.
  - exact Hresp.
Defined.

(** A supplied [high] is kept; an unknown type is refused; an announcement
    sent through [createSystemNotification] is stored with [medium]. *)
Lemma notification_priority_witness :
  (exists n d',
     Notification.createNotification true 100 (like_notice (Some high)) store0
     = (inr n, d')
     /\ n_priority n = high)
  /\ notifications
       (snd (Notification.createNotification true 100
               (Notification.mkData 2 None "poke" "t" "m" None None None None)
               store0)) = []
  /\ exists docs d',
       Notification.createSystemNotification true 300 [1; 2] announcement
         store0 = (inr docs, d')
       /\ map n_priority docs = [medium; medium].
Proof.
  pose proof (notification_priority true 100 (like_notice (Some high)) store0)
    as (Hprio & Htotal & _ & _).
  pose proof (notification_priority true 100
                (Notification.mkData 2 None "poke" "t" "m" None None None None)
                store0) as (_ & _ & Hrefused & _).
  pose proof (notification_priority true 300 announcement store0)
    as (_ & _ & _ & Hsys).
  split; [|split].
  - destruct (Htotal eq_refl eq_refl) as (n & d' & Hr).
    exists n, d'. split; [exact Hr|].
    destruct (Hprio n d' Hr) as (_ & p & Hp & Hn). exact Hn.
  - apply (Hrefused eq_refl).
  - destruct (Hsys [1; 2]) as (Hdocs & Hex & _).
    destruct (Hex eq_refl eq_refl) as (docs & d' & Hr).
    exists docs, d'. split; [exact Hr|].
    destruct (Hdocs docs d' Hr) as (_ & Hrcp & Hp).
    destruct docs as [|n1 [|n2 [|n3 docs]]]; try discriminate Hrcp.
    cbn [map]. rewrite (Hp n1), (Hp n2) by (simpl; auto). reflexivity.
Defined.

(** Bilal follows Aisha in [store0]: no notification; had he requested a
    connection, one [connection_request] notification would be stored. *)
Lemma follow_emits_no_notification_witness :
  notifications (snd (followUser 100 bilal 1 store0)) = []
  /\ map status (connections (snd (followUser 100 bilal 1 store0))) = [pending]
  /\ exists n,
       notifications (snd (requestConnection true 100 bilal 1 None store0)) = [n]
       /\ n_type n = "connection_request" /\ n_recipient n = 1.
Proof.
  pose proof (follow_emits_no_notification 100 bilal 1 store0)
    as (Hnone & _ & Hone & Hresp & Hreq).
  assert (Hok : responded (fst (followUser 100 bilal 1 store0)) = true).
  { apply (Hresp aisha); [vm_compute; discriminate | reflexivity | reflexivity
                         | intros e He; vm_compute in He; discriminate
                         | intros x []]. }
  split; [exact Hnone|]. split.
  - destruct (Hone Hok) as (Hc & _). rewrite Hc. reflexivity.
  - destruct (Hreq true None eq_refl) as (n & Hn & Ht & Hr).
    exists n. auto.
Defined.

(** ** Further properties of the ledger *)

Lemma set_connections_same d : Connection.set_connections d (connections d) = d.
Proof. destruct d; reflexivity. Qed.

Lemma follow_proceed_not_next now user id d m k :
  fst (follow_proceed now user id d) <> Next m k.
Proof.
  unfold follow_proceed. rewrite create_run. cbv zeta. cbn [too_long].
  destruct (u_id user =? id); [discriminate|].
  destruct (existsb _ (connections d)); discriminate.
Qed.

(** A handler of the connection subsystem that answers through
    [next(new AppError(...))] has written nothing, and the error it passes on
    is a 400 or a 404. *)
Theorem guard_exits_write_nothing o d m k :
  fst (exec o d) = Next m k ->
  snd (exec o d) = d /\ (k = 400 \/ k = 404).
Proof.
  destruct o as [up now user id msg | now user id | up now user cid
                 | now user cid | user id | us ns ids]; simpl.
  - rewrite requestConnection_run.
    destruct (id =? u_id user); [intros [= <- <-]; auto|].
    destruct (find _ (users d)); [|intros [= <- <-]; auto].
    destruct (find _ (connections d)) as [e|];
      [destruct (status e)|]; try (intros [= <- <-]; auto);
      intros H; exfalso; eapply request_proceed_not_next; eauto.
  - rewrite followUser_run.
    destruct (id =? u_id user); [intros [= <- <-]; auto|].
    destruct (find _ (users d)) as [t|]; [|intros [= <- <-]; auto].
    destruct (negb (isActive t)); [intros [= <- <-]; auto|].
    destruct (find _ (connections d)) as [e|];
      [destruct (status e)|]; try (intros [= <- <-]; auto);
      intros H; exfalso; eapply follow_proceed_not_next; eauto.
  - rewrite acceptConnection_run.
    destruct (find _ (connections d)) as [c|]; [|intros [= <- <-]; auto].
    cbv zeta. destruct (requester c =? recipient c); [discriminate|].
    rewrite createNotification_run. cbv zeta.
    destruct (note_error _ _ _); [|destruct up]; discriminate.
  - rewrite rejectConnection_run.
    destruct (find _ (connections d)) as [c|]; [|intros [= <- <-]; auto].
    cbv zeta. destruct (requester c =? recipient c); discriminate.
  - rewrite unfollowUser_run. cbv zeta.
    destruct (find _ (connections d)) as [c|] eqn:Hf; [discriminate|].
    intros [= <- <-]. rewrite (remove_first_none _ _ Hf).
    split; [apply set_connections_same | auto].
  - discriminate.
Qed.

(** A pending request Bilal is not the recipient of: his follow of Aisha is
    answered 400 and the store is as before. *)
Lemma guard_exits_write_nothing_witness :
  snd (exec (OpFollow 102 aisha 2) store_pending) = store_pending
  /\ (400 = 400 \/ 400 = 404).
Proof.
  apply (guard_exits_write_nothing (OpFollow 102 aisha 2) store_pending
           "Connection request already pending" 400).
  reflexivity.
Defined.

(** In every store reachable from an empty ledger no record connects a user
    to themself, the record ids are pairwise distinct and below the id
    counter; a request or a follow aimed at oneself is answered 400. *)
Theorem no_self_connection us ns n0 ops :
  let d := run ops (initial us ns n0) in
  (forall c, In c (connections d) ->
     requester c <> recipient c /\ c_id c < nextId d)
  /\ (forall x y, In x (connections d) -> In y (connections d) ->
        c_id x = c_id y -> x = y)
  /\ (forall up now user msg,
        requestConnection up now user (u_id user) msg d
        = (Next "Cannot connect to yourself" 400, d))
  /\ (forall now user,
        followUser now user (u_id user) d
        = (Next "Cannot follow yourself" 400, d)).
Proof.
  cbv zeta. set (d := run ops (initial us ns n0)).
  assert (HI : Inv d) by (apply Inv_run, Inv_initial).
  split; [|split; [|split]].
  - intros c Hin. split; [apply (inv_irrefl d HI c Hin) | apply (inv_fresh d HI c Hin)].
  - intros x y Hx Hy Hid.
    apply (NoDup_map_eq c_id (connections d)); auto. apply (inv_ids d HI).
  - intros up now user msg. rewrite requestConnection_run.
    now rewrite Nat.eqb_refl.
  - intros now user. rewrite followUser_run. now rewrite Nat.eqb_refl.
Qed.

(** The two records after Bilal's reject and follow: neither is a
    self-connection, and their ids differ. *)
Lemma no_self_connection_witness :
  (1 <> 2 /\ 10 < 13)
  /\ followUser 103 aisha 1 (run ops_reject_then_follow store0)
     = (Next "Cannot follow yourself" 400, run ops_reject_then_follow store0).
Proof.
  pose proof (no_self_connection [aisha; bilal] [] 10 ops_reject_then_follow)
    as (Hrec & _ & _ & Hself).
  split.
  - apply (Hrec (Connection.set_status request10 rejected None 101)).
    vm_compute. auto.
  - apply (Hself 103 aisha).
Defined.

(** *** Records over time *)

Lemma exec_write o d : ledger_write d (snd (exec o d)).
Proof.
  destruct o as [up now user id msg | now user id | up now user cid
                 | now user cid | user id | us ns ids]; simpl.
  - rewrite requestConnection_run.
    assert (Hp : ledger_write d (snd (request_proceed up now user id msg d))).
    { unfold request_proceed. rewrite create_run. cbv zeta.
      destruct (too_long _); [now apply lw_same|].
      destruct (u_id user =? id); [now apply lw_same|].
      destruct (existsb _ (connections d)); [now apply lw_same|].
      match goal with
      | |- context [Notification.createNotification ?u ?n ?x ?dd] =>
          pose proof (createNotification_frame u n x dd) as (Hc & _ & _);
          destruct (Notification.createNotification u n x dd) as [[e|nn] d2]
      end; simpl in Hc |- *; eapply lw_insert; exact Hc. }
    destruct (id =? u_id user); [now apply lw_same|].
    destruct (find _ (users d)); [|now apply lw_same].
    destruct (find _ (connections d)) as [e|]; [destruct (status e)|];
      first [exact Hp | now apply lw_same].
  - rewrite followUser_run.
    assert (Hp : ledger_write d (snd (follow_proceed now user id d))).
    { unfold follow_proceed. rewrite create_run. cbv zeta. cbn [too_long].
      destruct (u_id user =? id); [now apply lw_same|].
      destruct (existsb _ (connections d)); [now apply lw_same|].
      simpl. eapply lw_insert. reflexivity. }
    destruct (id =? u_id user); [now apply lw_same|].
    destruct (find _ (users d)) as [t|]; [|now apply lw_same].
    destruct (negb (isActive t)); [now apply lw_same|].
    destruct (find _ (connections d)) as [e|]; [destruct (status e)|];
      first [exact Hp | now apply lw_same].
  - rewrite acceptConnection_run.
    destruct (find _ (connections d)) as [c|] eqn:Hf; [|now apply lw_same].
    cbv zeta. destruct (requester c =? recipient c); [now apply lw_same|].
    apply find_some in Hf as [Hin Hp]. apply pending_for_iff in Hp as (_ & _ & Hs).
    match goal with
    | |- context [Notification.createNotification ?u ?n ?x ?dd] =>
        pose proof (createNotification_frame u n x dd) as (Hc & _ & _);
        destruct (Notification.createNotification u n x dd) as [[e|nn] d2]
    end; simpl in Hc |- *; apply (lw_accept _ _ c now); auto.
  - rewrite rejectConnection_run.
    destruct (find _ (connections d)) as [c|] eqn:Hf; [|now apply lw_same].
    cbv zeta. destruct (requester c =? recipient c); [now apply lw_same|].
    apply find_some in Hf as [Hin Hp]. apply pending_for_iff in Hp as (_ & _ & Hs).
    apply (lw_reject _ _ c now); auto.
  - rewrite unfollowUser_run. cbv zeta.
    destruct (find _ (connections d));
      now apply (lw_delete _ _ (Connection.accepted_between (u_id user) id)).
  - now apply lw_same.
Qed.

(** What a single write does to the record of a given id: the record is new,
    or it continues a stored one, untouched, accepted now, or rejected. *)
Lemma write_predecessor d d' c' :
  Inv d -> ledger_write d d' -> In c' (connections d') ->
  (nextId d <= c_id c' /\ status c' = pending /\ acceptedAt c' = None)
  \/ exists c, In c (connections d) /\ same_request c c'
       /\ (c' = c
           \/ (status c = pending /\ status c' = accepted
               /\ exists t, acceptedAt c' = Some t)
           \/ (status c = pending /\ status c' = rejected
               /\ acceptedAt c' = acceptedAt c)).
Proof.
  intros HI Hw Hin. pose proof (inv_ids d HI) as Hnd.
  assert (Hrefl : forall c, same_request c c) by (intros c; repeat split).
  destruct Hw as [Hc | now a b t m Hc | c0 now Hin0 Hs Hc | c0 now Hin0 Hs Hc
                  | flt Hc]; rewrite Hc in Hin.
  - right. exists c'. auto.
  - apply in_app_iff in Hin as [Hin|[<-|[]]].
    + right. exists c'. auto.
    + left. simpl. auto.
  - right. rewrite (replace_by_id_map _ _ Hnd) in Hin.
    apply in_map_iff in Hin as (x & <- & Hx).
    pose proof (upd_settle _ c0 accepted (Some now) now x Hnd Hin0 Hx)
      as (E1 & E2 & E3 & E4). cbv zeta in E1, E2, E3, E4.
    exists x. split; [exact Hx|].
    destruct E4 as [[_ E]|[-> E]].
    + rewrite E. auto.
    + unfold upd. cbn [c_id Connection.set_status]. rewrite Nat.eqb_refl.
      split; [repeat split|]. right. left. simpl. eauto.
  - right. rewrite (replace_by_id_map _ _ Hnd) in Hin.
    apply in_map_iff in Hin as (x & <- & Hx).
    pose proof (upd_settle _ c0 rejected (acceptedAt c0) now x Hnd Hin0 Hx)
      as (E1 & E2 & E3 & E4). cbv zeta in E1, E2, E3, E4.
    exists x. split; [exact Hx|].
    destruct E4 as [[_ E]|[-> E]].
    + rewrite E. auto.
    + unfold upd. cbn [c_id Connection.set_status]. rewrite Nat.eqb_refl.
      split; [repeat split|]. right. right. simpl. auto.
  - right. exists c'. apply In_remove_first in Hin. auto.
Qed.

Lemma same_request_trans a b c :
  same_request a b -> same_request b c -> same_request a c.
Proof.
  unfold same_request. intros (A1 & A2 & A3 & A4 & A5 & A6)
    (B1 & B2 & B3 & B4 & B5 & B6). repeat split; congruence.
Qed.

Lemma run_stamped ops : forall d,
  Inv d -> (forall c, In c (connections d) -> stamped c) ->
  forall c, In c (connections (run ops d)) -> stamped c.
Proof.
  induction ops as [|o ops IH] using rev_ind; intros d HI Hst c Hin.
  - apply Hst, Hin.
  - rewrite run_snoc in Hin.
    destruct (write_predecessor (run ops d) _ c (Inv_run ops d HI)
                (exec_write o (run ops d)) Hin)
      as [(_ & Hs & Ha) | (c0 & Hin0 & _ & Hcase)].
    + unfold stamped. now rewrite Hs.
    + pose proof (IH d HI Hst c0 Hin0) as H0. unfold stamped in *.
      destruct Hcase as [-> | [(Hp & Hs & Ht) | (Hp & Hs & Ha)]].
      * exact H0.
      * now rewrite Hs.
      * rewrite Hs, Ha. now rewrite Hp in H0.
Qed.

Lemma run_same_request ops : forall d c c',
  Inv d -> In c (connections d) -> In c' (connections (run ops d)) ->
  c_id c' = c_id c ->
  same_request c c'
  /\ (forall t, acceptedAt c = Some t -> stamped c -> acceptedAt c' = Some t).
Proof.
  induction ops as [|o ops IH] using rev_ind; intros d c c' HI Hin Hin' Hid.
  - simpl in Hin'.
    assert (c' = c)
      by (apply (NoDup_map_eq c_id (connections d)); auto; apply (inv_ids d HI)).
    subst. split; [repeat split | auto].
  - rewrite run_snoc in Hin'.
    destruct (write_predecessor (run ops d) _ c' (Inv_run ops d HI)
                (exec_write o (run ops d)) Hin')
      as [(Hnew & _) | (c1 & Hin1 & Hsame & Hcase)].
    + pose proof (inv_fresh d HI c Hin). pose proof (run_ids_grow ops d). lia.
    + assert (Hid1 : c_id c1 = c_id c) by (destruct Hsame as (E & _); congruence).
      destruct (IH d c c1 HI Hin Hin1 Hid1) as (Hs1 & Ht1).
      split; [eapply same_request_trans; eauto|].
      intros t Ht Hst. specialize (Ht1 t Ht Hst).
      assert (Hmv : status_move (status c) (status c1))
        by (eapply run_status_move; eauto).
      assert (Hacc : status c = accepted).
      { unfold stamped in Hst. destruct (status c); auto; congruence. }
      assert (Hacc1 : status c1 = accepted).
      { destruct Hmv as [H|[H _]]; congruence. }
      destruct Hcase as [-> | [(Hp & _) | (Hp & _)]]; [exact Ht1 | congruence..].
Qed.

(** Over any run of the operations from an empty ledger: a record has
    [acceptedAt] set exactly when it is accepted; and from one store of the
    run to a later one a record (followed by its id) keeps its requester,
    recipient, type, message and creation time, and an [acceptedAt] that is
    set is never changed. *)
Theorem records_over_time us ns n0 ops0 ops :
  let d := run ops0 (initial us ns n0) in
  let d' := run ops d in
  (forall c, In c (connections d) ->
     (status c = accepted <-> exists t, acceptedAt c = Some t))
  /\ (forall c c', In c (connections d) -> In c' (connections d') ->
        c_id c' = c_id c ->
        same_request c c'
        /\ (forall t, acceptedAt c = Some t -> acceptedAt c' = Some t)).
Proof.
  cbv zeta. set (d := run ops0 (initial us ns n0)).
  assert (HI : Inv d) by (apply Inv_run, Inv_initial).
  assert (Hst : forall c, In c (connections d) -> stamped c).
  { apply (run_stamped ops0 (initial us ns n0)); [apply Inv_initial|].
    intros c []. }
  split.
  - intros c Hin. specialize (Hst c Hin). unfold stamped in Hst.
    destruct (status c) eqn:Hs; split; intros H; try discriminate; auto;
      destruct H as [t Ht]; congruence.
  - intros c c' Hin Hin' Hid.
    destruct (run_same_request ops d c c' HI Hin Hin' Hid) as (Hs & Ht).
    split; [exact Hs|]. intros t Hat. apply Ht; auto.
Qed.

(** Request 10, accepted at 101, then left alone by a late reject and an
    unrelated follow. *)
Lemma records_over_time_witness :
  (accepted = accepted <-> exists t, Some 101 = Some t)
  /\ same_request (Connection.set_status request10 accepted (Some 101) 101)
                  (Connection.set_status request10 accepted (Some 101) 101)
  /\ acceptedAt (Connection.set_status request10 accepted (Some 101) 101)
     = Some 101.
Proof.
  pose proof (records_over_time [aisha; bilal] [] 10
                [op_request; OpAccept true 101 bilal 10]
                [OpReject 102 bilal 10; OpFollow 103 bilal 3]) as (Hst & Hkeep).
  split.
  - apply (Hst (Connection.set_status request10 accepted (Some 101) 101)).
    vm_compute. auto.
  - destruct (Hkeep (Connection.set_status request10 accepted (Some 101) 101)
                    (Connection.set_status request10 accepted (Some 101) 101))
      as (Hs & Ht); [vm_compute; auto | vm_compute; auto | reflexivity |].
    split; [exact Hs | apply Ht; reflexivity].
Defined.

(** *** Reject *)

(** [rejectConnection] on a pending request of the acting user answers 200,
    marks the record rejected and leaves its [acceptedAt], the accounts (so
    both counters), the notifications and the id counter as they were;
    afterwards neither accept nor reject finds the request any more:
    rejection is final.  Without a matching request it answers 404. *)
Theorem reject_effect us ns n0 ops now user cid :
  let d := run ops (initial us ns n0) in
  let r := rejectConnection now user cid d in
  ((forall c, In c (connections d) ->
      ~ (c_id c = cid /\ recipient c = u_id user /\ status c = pending)) ->
   r = (Next "Connection request not found" 404, d))
  /\ (forall c, In c (connections d) ->
        c_id c = cid -> recipient c = u_id user -> status c = pending ->
        fst r = Respond 200
                  (success_body (Some "Connection request rejected successfully")
                                None)
        /\ users (snd r) = users d
        /\ notifications (snd r) = notifications d
        /\ nextId (snd r) = nextId d
        /\ In (Connection.set_status c rejected (acceptedAt c) now)
              (connections (snd r))
        /\ length (connections (snd r)) = length (connections d)
        /\ forall up now' user',
             acceptConnection up now' user' cid (snd r)
             = (Next "Connection request not found" 404, snd r)
             /\ rejectConnection now' user' cid (snd r)
                = (Next "Connection request not found" 404, snd r)).
Proof.
  cbv zeta. set (d := run ops (initial us ns n0)).
  assert (HI : Inv d) by (apply Inv_run, Inv_initial).
  pose proof (inv_ids d HI) as Hnd.
  split.
  - intros Hno. rewrite rejectConnection_run.
    now rewrite (find_pending_for_none _ _ _ Hno).
  - intros c Hin H1 H2 H3. rewrite rejectConnection_run.
    destruct (find_pending_for_some _ _ _ c Hin H1 H2 H3) as (c0 & Hf).
    rewrite Hf. cbv zeta. apply find_some in Hf as [Hin0 Hp0].
    apply pending_for_iff in Hp0 as (Hid0 & _ & _).
    assert (c0 = c)
      by (apply (NoDup_map_eq c_id (connections d)); auto; congruence).
    subst c0.
    pose proof (inv_irrefl d HI c Hin) as Hirr.
    destruct (Nat.eqb_spec (requester c) (recipient c)); [contradiction|].
    cbn [fst snd users notifications nextId connections
         Connection.set_connections].
    repeat split.
    + rewrite (replace_by_id_map _ _ Hnd).
      apply in_map_iff. exists c. split; [|exact Hin].
      unfold upd. cbn [c_id Connection.set_status]. now rewrite Nat.eqb_refl.
    + rewrite (replace_by_id_map _ _ Hnd). apply length_map.
    + rewrite acceptConnection_run.
      rewrite find_pending_for_none; [reflexivity|].
      intros x Hx (Hxid & _ & Hxs).
      cbn [connections Connection.set_connections] in Hx.
      assert (rejected <> pending) as Hrp by discriminate.
      destruct (settled_not_pending d c rejected (acceptedAt c) now x HI Hin Hrp Hx)
        as [Hst _]; congruence.
    + rewrite rejectConnection_run.
      rewrite find_pending_for_none; [reflexivity|].
      intros x Hx (Hxid & _ & Hxs).
      cbn [connections Connection.set_connections] in Hx.
      assert (rejected <> pending) as Hrp by discriminate.
      destruct (settled_not_pending d c rejected (acceptedAt c) now x HI Hin Hrp Hx)
        as [Hst _]; congruence.
Qed.

(** Bilal rejects request 10; his accept afterwards is answered 404. *)
Lemma reject_effect_witness :
  rejectConnection 101 bilal 11 store_pending
  = (Next "Connection request not found" 404, store_pending)
  /\ users (snd (rejectConnection 101 bilal 10 store_pending))
     = users store_pending
  /\ fst (acceptConnection true 102 bilal 10
            (snd (rejectConnection 101 bilal 10 store_pending)))
     = Next "Connection request not found" 404.
Proof.
  pose proof (reject_effect [aisha; bilal] [] 10 [op_request] 101 bilal 11)
    as (Hnone & _).
  pose proof (reject_effect [aisha; bilal] [] 10 [op_request] 101 bilal 10)
    as (_ & Hsome).
  split.
  - apply Hnone. intros c Hin (Hid & _).
    vm_compute in Hin. destruct Hin as [<-|[]]. discriminate.
  - destruct (Hsome request10) as (_ & Hu & _ & _ & _ & _ & Hlater);
      [vm_compute; auto | reflexivity..|].
    split; [exact Hu|].
    destruct (Hlater true 102 bilal) as (Ha & _).
    change store_pending with (run [op_request] (initial [aisha; bilal] [] 10)).
    now rewrite Ha.
Defined.

(** *** Connected or not *)

Lemma find_ext {A} (f g : A -> bool) (l : list A) :
  (forall x, f x = g x) -> find f l = find g l.
Proof.
  intros H. induction l as [|x l IH]; simpl; [reflexivity|].
  rewrite H, IH. reflexivity.
Qed.

(** [Connection.areConnected] reads only: it is symmetric in its two users,
    any record it returns is a stored accepted record between the two, and
    it returns one whenever such a record is stored.  Pending, rejected and
    blocked records never count. *)
Theorem areConnected_spec a b d :
  Connection.areConnected a b d = Connection.areConnected b a d
  /\ exists o, Connection.areConnected a b d = (inr o, d)
       /\ (forall c, o = Some c ->
             In c (connections d) /\ status c = accepted
             /\ ((requester c = a /\ recipient c = b)
                 \/ (requester c = b /\ recipient c = a)))
       /\ (forall c, In c (connections d) -> status c = accepted ->
             Connection.between a b c = true -> exists c', o = Some c').
Proof.
  unfold Connection.areConnected, Connection.findOne. split.
  - f_equal. f_equal. apply find_ext. intros x.
    unfold Connection.accepted_between. now rewrite between_sym.
  - eexists. split; [reflexivity|]. split.
    + intros c Hf. apply find_some in Hf as [Hin Hc].
      apply accepted_between_iff in Hc as [Hb Hs].
      apply between_iff in Hb. auto.
    + intros c Hin Hs Hb.
      destruct (find _ (connections d)) as [c'|] eqn:Hf; [eauto|].
      eapply find_none in Hf; eauto.
      assert (Connection.accepted_between a b c = true)
        by (apply accepted_between_iff; auto).
      congruence.
Qed.

Lemma areConnected_spec_witness :
  exists c', fst (Connection.areConnected 1 2 (run ops_followed store0))
             = inr (Some c').
Proof.
  destruct (areConnected_spec 1 2 (run ops_followed store0))
    as (_ & o & Ho & _ & Hsome).
  destruct (Hsome follow10) as (c' & ->);
    [vm_compute; auto | reflexivity | reflexivity |].
  exists c'. now rewrite Ho.
Defined.

(** Accepting a request connects its two parties, whichever of them asks and
    whether or not the notification could be written: [areConnected] then
    returns that record, accepted.  After [unfollowUser], whatever it
    answered, the two users are not connected. *)
Theorem accept_connects_unfollow_disconnects us ns n0 ops :
  let d := run ops (initial us ns n0) in
  (forall up now user cid c,
     In c (connections d) ->
     c_id c = cid -> recipient c = u_id user -> status c = pending ->
     let d' := snd (acceptConnection up now user cid d) in
     let c' := Connection.set_status c accepted (Some now) now in
     Connection.areConnected (requester c) (recipient c) d' = (inr (Some c'), d')
     /\ Connection.areConnected (recipient c) (requester c) d'
        = (inr (Some c'), d'))
  /\ (forall user id,
        let d' := snd (unfollowUser user id d) in
        Connection.areConnected (u_id user) id d' = (inr None, d')
        /\ Connection.areConnected id (u_id user) d' = (inr None, d')).
Proof.
  cbv zeta. set (d := run ops (initial us ns n0)).
  assert (HI : Inv d) by (apply Inv_run, Inv_initial).
  pose proof (inv_ids d HI) as Hnd.
  split.
  - intros up now user cid c Hin H1 H2 H3.
    assert (HI' : Inv (snd (acceptConnection up now user cid d))).
    { apply (Inv_exec (OpAccept up now user cid) d HI). }
    assert (Hin' : In (Connection.set_status c accepted (Some now) now)
                      (connections (snd (acceptConnection up now user cid d)))).
    { rewrite acceptConnection_run.
      destruct (find_pending_for_some _ _ _ c Hin H1 H2 H3) as (c0 & Hf).
      rewrite Hf. cbv zeta. apply find_some in Hf as [Hin0 Hp0].
      apply pending_for_iff in Hp0 as (Hid0 & _ & _).
      assert (c0 = c)
        by (apply (NoDup_map_eq c_id (connections d)); auto; congruence).
      subst c0.
      pose proof (inv_irrefl d HI c Hin) as Hirr.
      destruct (Nat.eqb_spec (requester c) (recipient c)); [contradiction|].
      match goal with
      | |- context [Notification.createNotification ?u ?n ?x ?dd] =>
          pose proof (createNotification_frame u n x dd) as (Hc & _ & _);
          destruct (Notification.createNotification u n x dd) as [[e|nn] d2]
      end; simpl in Hc |- *; rewrite Hc, (replace_by_id_map _ _ Hnd);
        apply in_map_iff; exists c; (split; [|exact Hin]);
        unfold upd; cbn [c_id Connection.set_status]; now rewrite Nat.eqb_refl. }
    unfold Connection.areConnected, Connection.findOne.
    split; f_equal; f_equal; apply find_first_is; auto;
      apply accepted_between_iff; (split; [|reflexivity]);
      apply between_iff; cbn [requester recipient Connection.set_status]; auto.
  - intros user id.
    assert (Hnone : find (Connection.accepted_between (u_id user) id)
                      (connections (snd (unfollowUser user id d))) = None).
    { rewrite unfollowUser_run. cbv zeta.
      destruct (find _ (connections d)) as [c|] eqn:Hf;
        cbn [snd connections Connection.set_connections].
      - destruct (find _ (Connection.remove_first _ _)) as [x|] eqn:Hx;
          [|reflexivity].
        exfalso. apply find_some in Hx as [Hxin Hxa].
        pose proof (In_remove_first _ _ _ Hxin) as Hxd.
        pose proof (find_first_is d _ _ x HI Hxd Hxa) as Hfx.
        assert (x = c) by congruence. subst x.
        eapply remove_first_gone; eauto. now apply NoDup_of_ids.
      - now rewrite (remove_first_none _ _ Hf). }
    unfold Connection.areConnected, Connection.findOne. split.
    + now rewrite Hnone.
    + rewrite (find_ext _ (Connection.accepted_between (u_id user) id));
        [now rewrite Hnone|].
      intros x. unfold Connection.accepted_between. now rewrite between_sym.
Qed.

Lemma accept_connects_unfollow_disconnects_witness :
  fst (Connection.areConnected 1 2
         (snd (acceptConnection false 101 bilal 10 store_pending)))
  = inr (Some (Connection.set_status request10 accepted (Some 101) 101)).
Proof.
  pose proof (accept_connects_unfollow_disconnects [aisha; bilal] [] 10
                [op_request]) as (Hacc & _).
  destruct (Hacc false 101 bilal 10 request10) as (H & _);
    [vm_compute; auto | reflexivity..|].
  change store_pending with (run [op_request] (initial [aisha; bilal] [] 10)).
  cbn [requester recipient request10] in H. now rewrite H.
Defined.

(** *** Follow, in general *)

(** When [followUser] goes through: the target is another, stored and active
    account, the looked-up record of the pair (if any) is neither pending nor
    accepted, and no record from this user to the target is stored. *)
Lemma followUser_responds now user id d t :
  id <> u_id user ->
  find (fun u => u_id u =? id) (users d) = Some t -> isActive t = true ->
  (forall e, find (Connection.between (u_id user) id) (connections d) = Some e ->
             is_active e = false) ->
  (forall x, In x (connections d) ->
             ~ (requester x = u_id user /\ recipient x = id)) ->
  responded (fst (followUser now user id d)) = true
  /\ connections (snd (followUser now user id d))
     = connections d ++ [new_connection d now (u_id user) id peer None].
Proof.
  intros Hne Ht Hact Hguard Hfree. rewrite followUser_run.
  assert (Hid : (id =? u_id user) = false) by (now apply Nat.eqb_neq).
  rewrite Hid, Ht, Hact. cbn [negb].
  assert (Hp : responded (fst (follow_proceed now user id d)) = true
               /\ connections (snd (follow_proceed now user id d))
                  = connections d ++ [new_connection d now (u_id user) id peer None]).
  { unfold follow_proceed. rewrite create_run. cbv zeta. cbn [too_long].
    assert (Hab : (u_id user =? id) = false)
      by (apply Nat.eqb_neq; congruence).
    rewrite Hab.
    destruct (existsb _ (connections d)) eqn:Hdup; [|split; reflexivity].
    exfalso. apply existsb_exists in Hdup as (x & Hx & Hso).
    apply (Hfree x Hx).
    unfold Connection.same_ordered in Hso. cbn in Hso.
    apply andb_true_iff in Hso as [?%Nat.eqb_eq ?%Nat.eqb_eq]. auto. }
  destruct (find _ (connections d)) as [e|] eqn:Hf; [|exact Hp].
  pose proof (Hguard e eq_refl) as He. unfold is_active, Status_eqb in He.
  destruct (status e); first [discriminate | exact Hp].
Qed.

(** *** Block *)

(** The instance method [block()] on a stored record, pending or accepted:
    the record becomes blocked, keeping its [acceptedAt]; accounts and
    notifications are untouched; accept and reject no longer find it and its
    two parties are no longer connected.  It does not block anything else:
    the other party can still send a follow request in the opposite
    direction, which is stored as a second record of the pair. *)
Theorem block_effect us ns n0 ops now c :
  let d := run ops (initial us ns n0) in
  In c (connections d) -> is_active c = true ->
  let r := Connection.block now c d in
  let b := Connection.set_status c blocked (acceptedAt c) now in
  fst r = inr b
  /\ users (snd r) = users d /\ notifications (snd r) = notifications d
  /\ In b (connections (snd r))
  /\ (forall up now' user',
        acceptConnection up now' user' (c_id c) (snd r)
        = (Next "Connection request not found" 404, snd r)
        /\ rejectConnection now' user' (c_id c) (snd r)
           = (Next "Connection request not found" 404, snd r))
  /\ Connection.areConnected (requester c) (recipient c) (snd r)
     = (inr None, snd r)
  /\ (forall now' user' t,
        u_id user' = recipient c ->
        find (fun u => u_id u =? requester c) (users d) = Some t ->
        isActive t = true ->
        (forall x, In x (connections d) ->
                   ~ (requester x = recipient c /\ recipient x = requester c)) ->
        responded (fst (followUser now' user' (requester c) (snd r))) = true
        /\ count (Connection.between (requester c) (recipient c))
                 (snd (followUser now' user' (requester c) (snd r))) = 2).
Proof.
  cbv zeta. set (d := run ops (initial us ns n0)). intros Hin Hact.
  assert (HI : Inv d) by (apply Inv_run, Inv_initial).
  pose proof (inv_ids d HI) as Hnd.
  pose proof (inv_irrefl d HI c Hin) as Hirr.
  unfold Connection.block. rewrite save_run.
  cbn [requester recipient Connection.set_status].
  destruct (Nat.eqb_spec (requester c) (recipient c)); [contradiction|].
  cbn [fst snd users notifications connections Connection.set_connections].
  rewrite (replace_by_id_map _ _ Hnd).
  set (b := Connection.set_status c blocked (acceptedAt c) now).
  set (d1 := Connection.set_connections d (map (upd b) (connections d))).
  assert (Hel : forall x, In x (connections d1) ->
            (x = b) \/ (In x (connections d) /\ x <> c /\ c_id x <> c_id c)).
  { intros x Hx. cbn [d1 connections Connection.set_connections] in Hx.
    apply in_map_iff in Hx as (x0 & <- & Hx0).
    pose proof (upd_settle _ c blocked (acceptedAt c) now x0 Hnd Hin Hx0)
      as (_ & _ & _ & E4). cbv zeta in E4. fold b in E4.
    destruct E4 as [[Hne ->]|[-> _]].
    - right. repeat split; auto. intros Hid. apply Hne.
      apply (NoDup_map_eq c_id (connections d)); auto.
    - left. unfold upd, b. cbn [c_id Connection.set_status].
      now rewrite Nat.eqb_refl. }
  assert (Hinb : In b (connections d1)).
  { cbn [d1 connections Connection.set_connections].
    apply in_map_iff. exists c. split; [|exact Hin].
    unfold upd, b. cbn [c_id Connection.set_status]. now rewrite Nat.eqb_refl. }
  assert (Hinactive : forall x, In x (connections d1) ->
            Connection.between (requester c) (recipient c) x = true ->
            is_active x = false).
  { intros x Hx Hb. destruct (Hel x Hx) as [->|(Hxd & Hne & _)]; [reflexivity|].
    destruct (is_active x) eqn:Hax; [|reflexivity].
    exfalso. apply Hne. symmetry. apply (inv_active d HI); auto. }
  split; [reflexivity|]. split; [reflexivity|]. split; [reflexivity|].
  split; [exact Hinb|]. split; [|split].
  - intros up now' user'.
    assert (Hnone : forall uid, find (pending_for (c_id c) uid) (connections d1)
                                = None).
    { intros uid. apply find_pending_for_none. intros x Hx (Hid & _ & Hs).
      destruct (Hel x Hx) as [->|(_ & _ & Hne)]; [discriminate | contradiction]. }
    rewrite acceptConnection_run, rejectConnection_run, !Hnone. auto.
  - unfold Connection.areConnected, Connection.findOne. f_equal. f_equal.
    destruct (find _ (connections d1)) as [x|] eqn:Hf; [|reflexivity].
    exfalso. apply find_some in Hf as [Hx Ha].
    apply accepted_between_iff in Ha as [Hb Hs].
    pose proof (Hinactive x Hx Hb) as Hi.
    unfold is_active, Status_eqb in Hi. rewrite Hs in Hi. discriminate.
  - intros now' user' t Hu Ht Hact' Hfree.
    destruct (followUser_responds now' user' (requester c) d1 t) as (Hr & Hc).
    + rewrite Hu. auto.
    + exact Ht.
    + exact Hact'.
    + intros e He. apply find_some in He as [Hein Heb].
      apply (Hinactive e Hein). rewrite Hu in Heb. now rewrite between_sym.
    + intros x Hx [Hxr Hxp]. rewrite Hu in Hxr.
      destruct (Hel x Hx) as [->|(Hxd & _)].
      * cbn in Hxr. congruence.
      * apply (Hfree x Hxd). auto.
    + split; [exact Hr|]. unfold count. rewrite Hc.
      rewrite List.filter_app, List.length_app.
      assert (Hnew : length (List.filter
                (Connection.between (requester c) (recipient c))
                [new_connection d1 now' (u_id user') (requester c) peer None]) = 1).
      { cbn [List.filter].
        replace (Connection.between (requester c) (recipient c)
                   (new_connection d1 now' (u_id user') (requester c) peer None))
          with true; [reflexivity|].
        symmetry. apply between_iff. cbn. rewrite Hu. auto. }
      rewrite Hnew.
      assert (Hone : length (List.filter
                               (Connection.between (requester c) (recipient c))
                               (connections d1)) = 1).
      { assert (Hle : length (List.filter
                               (Connection.between (requester c) (recipient c))
                               (connections d1)) <= 1).
        { apply filter_at_most_one.
          - apply NoDup_of_ids.
            cbn [d1 connections Connection.set_connections].
            rewrite map_map. erewrite map_ext_in; [exact Hnd|].
            intros x Hx. simpl.
            now pose proof (upd_settle _ c blocked (acceptedAt c) now x Hnd Hin Hx)
              as (E1 & _).
          - intros x y Hx Hy Hbx Hby.
            apply between_iff in Hbx, Hby.
            destruct (Hel x Hx) as [->|(Hxd & _)];
              destruct (Hel y Hy) as [->|(Hyd & _)]; auto.
            + exfalso. destruct Hby as [[? ?]|[? ?]].
              * assert (y = c) by (apply (inv_ordered d HI); auto; congruence).
                subst y. destruct (Hel c Hy) as [E|(_ & E & _)];
                  [|contradiction].
                rewrite E in Hact. discriminate.
              * apply (Hfree y Hyd). auto.
            + exfalso. destruct Hbx as [[? ?]|[? ?]].
              * assert (x = c) by (apply (inv_ordered d HI); auto; congruence).
                subst x. destruct (Hel c Hx) as [E|(_ & E & _)];
                  [|contradiction].
                rewrite E in Hact. discriminate.
              * apply (Hfree x Hxd). auto.
            + exfalso. destruct Hbx as [[? ?]|[? ?]].
              * assert (x = c) by (apply (inv_ordered d HI); auto; congruence).
                subst x. destruct (Hel c Hx) as [E|(_ & E & _)];
                  [|contradiction].
                rewrite E in Hact. discriminate.
              * apply (Hfree x Hxd). auto. }
        assert (Hge : 1 <= length (List.filter
                               (Connection.between (requester c) (recipient c))
                               (connections d1))).
        { assert (Hbin : In b (List.filter
                               (Connection.between (requester c) (recipient c))
                               (connections d1))).
          { apply filter_In. split; [exact Hinb|]. apply between_iff. cbn. auto. }
          destruct (List.filter _ (connections d1)); [destruct Hbin | simpl; lia]. }
        lia. }
      rewrite Hone. reflexivity.
Qed.

(** Bilal blocks Aisha's pending request 10, then follows her. *)
Lemma block_effect_witness :
  users (snd (Connection.block 101 request10 store_pending)) = users store_pending
  /\ count (Connection.between 1 2)
       (snd (followUser 102 bilal 1
               (snd (Connection.block 101 request10 store_pending)))) = 2.
Proof.
  pose proof (block_effect [aisha; bilal] [] 10 [op_request] 101 request10)
    as H.
  cbv zeta in H.
  destruct H as (_ & Hu & _ & _ & _ & _ & Hfollow);
    [vm_compute; auto | reflexivity |].
  split; [exact Hu|].
  destruct (Hfollow 102 bilal aisha) as (_ & Hc);
    [reflexivity | reflexivity | reflexivity | |exact Hc].
  intros x Hx. vm_compute in Hx. destruct Hx as [<-|[]].
  intros [H _]. discriminate.
Defined.

(** *** Teacher profile *)

Lemma getImaamById_run viewer id d :
  getImaamById viewer id d =
  match find (active_imaam id) (users d) with
  | None => (Next "Imaam not found" 404, d)
  | Some im =>
      let flag :=
        match viewer with
        | Some user =>
            match find (Connection.accepted_between (u_id user) (u_id im))
                       (connections d) with
            | Some _ => true
            | None => false
            end
        | None => false
        end in
      (Respond 200
         (JObj [("success", JBool true);
                ("data", JObj (User.to_object im
                               ++ [("isConnected", JBool flag)]))]), d)
  end.
Proof.
  unfold getImaamById, handle. rewrite bind_run.
  unfold User.findOne at 1. cbv beta iota.
  change (fun u => (u_id u =? id) && Role_eqb (role u) imaam && isActive u)
    with (active_imaam id).
  destruct (find (active_imaam id) (users d)) as [im|]; [|reflexivity].
  rewrite bind_run. destruct viewer as [user|]; [|reflexivity].
  rewrite bind_run. unfold Connection.areConnected, Connection.findOne at 1.
  cbv beta iota.
  destruct (find _ (connections d)); reflexivity.
Qed.

(** [getImaamById] never writes.  It answers 404 unless an active teacher
    with that id is stored, verified or not; otherwise 200 with the profile
    and an [isConnected] flag that is true exactly when there is a viewer and
    an accepted record between viewer and teacher, in either direction.  A
    teacher who is active but not verified is thus shown, while a connection
    request to them is answered 404. *)
Theorem getImaamById_shows_connection viewer id d :
  let r := getImaamById viewer id d in
  snd r = d
  /\ (find (active_imaam id) (users d) = None ->
      fst r = Next "Imaam not found" 404)
  /\ (forall im, find (active_imaam id) (users d) = Some im ->
      exists flag,
        fst r = Respond 200
                  (JObj [("success", JBool true);
                         ("data", JObj (User.to_object im
                                        ++ [("isConnected", JBool flag)]))])
        /\ (flag = true <->
            exists user c, viewer = Some user /\ In c (connections d)
                           /\ status c = accepted
                           /\ Connection.between (u_id user) id c = true)
        /\ ((forall u, In u (users d) -> u_id u = id -> isVerified u = false) ->
            forall up now user msg,
              u_id user <> id ->
              requestConnection up now user id msg d
              = (Next "Imaam not found or not verified" 404, d))).
Proof.
  cbv zeta. rewrite getImaamById_run.
  destruct (find (active_imaam id) (users d)) as [im|] eqn:Hf.
  - apply find_some in Hf as [Him Hact].
    unfold active_imaam in Hact.
    apply andb_true_iff in Hact as [Hact _].
    apply andb_true_iff in Hact as [Hid%Nat.eqb_eq _].
    assert (Hreq : (forall u, In u (users d) -> u_id u = id -> isVerified u = false) ->
              forall up now user msg, u_id user <> id ->
                requestConnection up now user id msg d
                = (Next "Imaam not found or not verified" 404, d)).
    { intros Hunv up now user msg Hne. rewrite requestConnection_run.
      assert (Hn : (id =? u_id user) = false)
        by (apply Nat.eqb_neq; congruence).
      rewrite Hn.
      destruct (find (verified_imaam id) (users d)) as [v|] eqn:Hv;
        [|reflexivity].
      exfalso. apply find_some in Hv as [Hvin Hvv].
      unfold verified_imaam in Hvv.
      apply andb_true_iff in Hvv as [Hvv _].
      apply andb_true_iff in Hvv as [Hvv Hver].
      apply andb_true_iff in Hvv as [Hvid%Nat.eqb_eq _].
      rewrite (Hunv v Hvin Hvid) in Hver. discriminate. }
    cbv zeta. cbn [fst snd]. split; [reflexivity|]. split; [discriminate|].
    intros im' [= <-]. eexists. split; [reflexivity|]. split; [|exact Hreq].
    rewrite Hid. destruct viewer as [user|].
    + destruct (find (Connection.accepted_between (u_id user) id)
                     (connections d)) as [c|] eqn:Hc.
      * split; [|reflexivity]. intros _.
        apply find_some in Hc as [Hcin Hca].
        apply accepted_between_iff in Hca as [Hb Hs]. eauto 8.
      * split; [discriminate|].
        intros (user' & c & [= <-] & Hcin & Hs & Hb). exfalso.
        eapply find_none in Hc; eauto.
        assert (Connection.accepted_between (u_id user) id c = true)
          by (apply accepted_between_iff; auto).
        congruence.
    + split; [discriminate|]. intros (user' & c & [=] & _).
  - cbn [fst snd]. split; [reflexivity|]. split; [reflexivity|]. discriminate.
Qed.

(** Bilal's profile as Aisha sees it once he has accepted her request. *)
Lemma getImaamById_shows_connection_witness :
  fst (getImaamById (Some aisha) 2
         (snd (acceptConnection true 101 bilal 10 store_pending)))
  = Respond 200
      (JObj [("success", JBool true);
             ("data", JObj (User.to_object bilal
                            ++ [("isConnected", JBool true)]))]).
Proof.
  pose proof (getImaamById_shows_connection (Some aisha) 2
                (snd (acceptConnection true 101 bilal 10 store_pending)))
    as (_ & _ & Hfound).
  destruct (Hfound bilal) as (flag & Hr & Hflag & _); [reflexivity|].
  assert (flag = true) as ->.
  { apply Hflag.
    exists aisha, (Connection.set_status request10 accepted (Some 101) 101).
    split; [reflexivity|]. split; [vm_compute; auto|].
    split; reflexivity. }
  exact Hr.
Defined.

(** *** Sorting and paging *)

Lemma insert_desc_is_by c l :
  Connection.insert_desc c l = Connection.insert_desc_by createdAt c l.
Proof.
  induction l as [|x l IH]; simpl; [reflexivity|]. now rewrite IH.
Qed.

Lemma sort_newest_first_is_by l :
  Connection.sort_newest_first l = Connection.sort_desc_by createdAt l.
Proof.
  unfold Connection.sort_newest_first, Connection.sort_desc_by.
  induction l as [|x l IH]; simpl; [reflexivity|].
  now rewrite IH, insert_desc_is_by.
Qed.

Lemma In_firstn {A} n (l : list A) x : In x (firstn n l) -> In x l.
Proof.
  revert l. induction n as [|n IH]; intros [|a l]; simpl; try tauto.
  intros [->|H]; auto.
Qed.

Lemma In_skipn {A} n (l : list A) x : In x (skipn n l) -> In x l.
Proof.
  revert l. induction n as [|n IH]; intros [|a l]; simpl; auto.
Qed.

Section SortBy.
Variable key : ConnectionDoc -> nat.

Lemma insert_desc_by_perm c l :
  Permutation (Connection.insert_desc_by key c l) (c :: l).
Proof.
  induction l as [|x l IH]; simpl; [reflexivity|].
  destruct (key x <=? key c); [reflexivity|].
  rewrite IH. apply perm_swap.
Qed.

Lemma sort_desc_by_perm l : Permutation (Connection.sort_desc_by key l) l.
Proof.
  unfold Connection.sort_desc_by.
  induction l as [|x l IH]; simpl; [reflexivity|].
  rewrite insert_desc_by_perm. now rewrite IH.
Qed.

Lemma insert_desc_by_sorted c l :
  StronglySorted (desc_by key) l ->
  StronglySorted (desc_by key) (Connection.insert_desc_by key c l).
Proof.
  induction l as [|x l IH]; simpl; intros Hs.
  - repeat constructor.
  - apply StronglySorted_inv in Hs as [Hs Hall].
    destruct (Nat.leb_spec (key x) (key c)) as [Hle|Hlt].
    + constructor; [constructor; auto|].
      constructor; [exact Hle|].
      apply List.Forall_forall. intros y Hy.
      eapply List.Forall_forall in Hall; eauto. unfold desc_by in *. lia.
    + constructor; [auto|].
      apply List.Forall_forall. intros y Hy.
      apply (Permutation_in _ (insert_desc_by_perm c l)) in Hy.
      destruct Hy as [<-|Hy].
      * unfold desc_by. lia.
      * eapply List.Forall_forall in Hall; eauto.
Qed.

Lemma sort_desc_by_sorted l :
  StronglySorted (desc_by key) (Connection.sort_desc_by key l).
Proof.
  unfold Connection.sort_desc_by.
  induction l as [|x l IH]; simpl; [constructor|].
  now apply insert_desc_by_sorted.
Qed.

Lemma sorted_skipn n l :
  StronglySorted (desc_by key) l -> StronglySorted (desc_by key) (skipn n l).
Proof.
  revert l. induction n as [|n IH]; intros l Hs; [exact Hs|].
  destruct l as [|x l]; [constructor|]. simpl.
  apply StronglySorted_inv in Hs as [Hs _]. auto.
Qed.

Lemma sorted_firstn n l :
  StronglySorted (desc_by key) l -> StronglySorted (desc_by key) (firstn n l).
Proof.
  revert l. induction n as [|n IH]; intros l Hs; [constructor|].
  destruct l as [|x l]; [constructor|]. simpl.
  apply StronglySorted_inv in Hs as [Hs Hall].
  constructor; [auto|].
  apply List.Forall_forall. intros y Hy.
  eapply List.Forall_forall in Hall; eauto. eapply In_firstn; eauto.
Qed.
End SortBy.

Lemma In_page {A} page limit (l : list A) x :
  In x (page_of page limit l) -> In x l.
Proof.
  unfold page_of. intros H. apply In_firstn in H. eapply In_skipn; eauto.
Qed.

Lemma parse_or_pos q dflt : 1 <= dflt -> 1 <= parse_or q dflt.
Proof. intros H. destruct q as [[|n]|]; simpl; lia. Qed.

(** [page < Math.ceil(total / limit)] says that items remain after the
    page. *)
Lemma ceil_div_lt page limit total :
  1 <= limit ->
  (page <? ceil_div total limit) = (page * limit <? total).
Proof.
  intros Hl. unfold ceil_div.
  destruct (Nat.ltb_spec (page * limit) total) as [H|H].
  - apply Nat.ltb_lt.
    apply (Nat.lt_le_trans _ (S page)); [lia|].
    apply Nat.div_le_lower_bound; [lia|]. nia.
  - apply Nat.ltb_ge.
    assert ((total + limit - 1) / limit < S page); [|lia].
    apply Nat.Div0.div_lt_upper_bound. nia.
Qed.

Lemma ceil_div_covers limit total :
  1 <= limit -> total <= ceil_div total limit * limit.
Proof.
  intros Hl. unfold ceil_div.
  pose proof (Nat.div_mod (total + limit - 1) limit ltac:(lia)) as Hdm.
  pose proof (Nat.mod_upper_bound (total + limit - 1) limit ltac:(lia)).
  nia.
Qed.

Lemma page_covers {A} limit (l : list A) x :
  1 <= limit -> In x l -> exists p, 1 <= p /\ In x (page_of p limit l).
Proof.
  intros Hl Hin. apply In_nth_error in Hin as [i Hi].
  exists (S (i / limit)). split; [lia|].
  apply (nth_error_In _ (i mod limit)). unfold page_of.
  rewrite nth_error_firstn.
  pose proof (Nat.mod_upper_bound i limit ltac:(lia)) as Hm.
  destruct (Nat.ltb_spec (i mod limit) limit); [|lia].
  rewrite nth_error_skipn.
  replace ((S (i / limit) - 1) * limit + i mod limit) with i; [exact Hi|].
  pose proof (Nat.div_mod i limit ltac:(lia)). nia.
Qed.

Lemma page_unique {A} limit (l : list A) x p q :
  List.NoDup l -> 1 <= limit -> 1 <= p -> 1 <= q ->
  In x (page_of p limit l) -> In x (page_of q limit l) -> p = q.
Proof.
  intros Hnd Hl Hp Hq Hxp Hxq.
  assert (Hidx : forall p, In x (page_of p limit l) ->
            exists j, j < limit /\ nth_error l ((p - 1) * limit + j) = Some x).
  { intros p0 H. apply In_nth_error in H as [j Hj]. unfold page_of in Hj.
    rewrite nth_error_firstn in Hj.
    destruct (Nat.ltb_spec j limit); [|discriminate].
    rewrite nth_error_skipn in Hj. eauto. }
  destruct (Hidx p Hxp) as (j & Hj & Ej).
  destruct (Hidx q Hxq) as (k & Hk & Ek).
  assert (E : (p - 1) * limit + j = (q - 1) * limit + k).
  { apply (proj1 (NoDup_nth_error l) Hnd); [|congruence].
    apply nth_error_Some. congruence. }
  assert (p - 1 = q - 1); [|lia].
  assert (Hdiv : forall a b, b < limit -> (a * limit + b) / limit = a).
  { intros a b Hb. rewrite Nat.div_add_l by lia.
    rewrite Nat.div_small by lia. lia. }
  rewrite <- (Hdiv (p - 1) j Hj), <- (Hdiv (q - 1) k Hk). now rewrite E.
Qed.

Lemma getPendingConnections_run uid page limit d :
  Connection.getPendingConnections uid page limit d
  = (inr (page_of page limit
            (Connection.sort_desc_by createdAt
               (List.filter (fun c => (recipient c =? uid)
                                      && Status_eqb (status c) pending)
                            (connections d)))), d).
Proof.
  unfold Connection.getPendingConnections, page_of.
  now rewrite sort_newest_first_is_by.
Qed.

(** *** The pending requests of a teacher *)

(** The page [getConnectionRequests] answers with: it never writes, the
    answer is 200, and the requests listed are stored, addressed to the
    acting user and pending; they are at most [limit] (10 when the query
    gives none, or 0) and come newest first. *)
Theorem pending_page_contents user q_page q_limit d :
  let page := parse_or q_page 1 in
  let limit := parse_or q_limit 10 in
  exists l,
    Connection.getPendingConnections (u_id user) page limit d = (inr l, d)
    /\ getConnectionRequests user q_page q_limit d
       = (Respond 200
            (JObj [("success", JBool true);
                   ("data",
                    JArr (map (Connection.to_json
                                 (Some ["fullName"; "profilePicture"; "role";
                                        "islamicProfile"; "bio"]) None d) l))]),
          d)
    /\ length l <= limit
    /\ StronglySorted (desc_by createdAt) l
    /\ forall c, In c l ->
         In c (connections d) /\ recipient c = u_id user /\ status c = pending.
Proof.
  cbv zeta. eexists. split; [apply getPendingConnections_run|].
  split; [|split; [|split]].
  - unfold getConnectionRequests, handle. rewrite bind_run.
    rewrite getPendingConnections_run. cbv beta iota zeta.
    rewrite bind_run. reflexivity.
  - unfold page_of. apply firstn_le_length.
  - unfold page_of. apply sorted_firstn, sorted_skipn, sort_desc_by_sorted.
  - intros c Hin. apply In_page in Hin.
    apply (Permutation_in _ (sort_desc_by_perm createdAt _)) in Hin.
    apply filter_In in Hin as [Hin Hp].
    apply andb_true_iff in Hp as [Hr%Nat.eqb_eq Hs].
    unfold Status_eqb in Hs. apply bool_decide_eq_true in Hs. auto.
Qed.

Lemma pending_page_contents_witness :
  exists l,
    Connection.getPendingConnections 2 1 10 store_pending
    = (inr l, store_pending)
    /\ (forall c, In c l -> recipient c = 2 /\ status c = pending).
Proof.
  destruct (pending_page_contents bilal None None store_pending)
    as (l & Hl & _ & _ & _ & Hall).
  exists l. split; [exact Hl|].
  intros c Hin. destruct (Hall c Hin) as (_ & Hr & Hs). auto.
Defined.

(** Paging loses and repeats nothing: in a reachable store every pending
    request addressed to a user appears on exactly one page of the list,
    whatever the page size. *)
Theorem pending_pages_partition us ns n0 ops uid q_limit c :
  let d := run ops (initial us ns n0) in
  let limit := parse_or q_limit 10 in
  let listed p := exists l, Connection.getPendingConnections uid p limit d
                            = (inr l, d) /\ In c l in
  In c (connections d) -> recipient c = uid -> status c = pending ->
  (exists p, 1 <= p /\ listed p)
  /\ (forall p q, 1 <= p -> 1 <= q -> listed p -> listed q -> p = q).
Proof.
  cbv zeta. set (d := run ops (initial us ns n0)). intros Hin Hr Hs.
  assert (HI : Inv d) by (apply Inv_run, Inv_initial).
  pose proof (parse_or_pos q_limit 10 ltac:(lia)) as Hl.
  set (sorted := Connection.sort_desc_by createdAt
                   (List.filter (fun c => (recipient c =? uid)
                                          && Status_eqb (status c) pending)
                                (connections d))).
  assert (Hc : In c sorted).
  { apply (Permutation_in _ (Permutation_sym (sort_desc_by_perm createdAt _))).
    apply filter_In. split; [exact Hin|].
    rewrite Hr, Hs, Nat.eqb_refl. reflexivity. }
  assert (Hnd : List.NoDup sorted).
  { apply (Permutation_NoDup (Permutation_sym (sort_desc_by_perm createdAt _))).
    apply List.NoDup_filter, NoDup_of_ids, (inv_ids d HI). }
  split.
  - destruct (page_covers (parse_or q_limit 10) sorted c Hl Hc) as (p & Hp & Hx).
    exists p. split; [exact Hp|]. eexists.
    split; [apply getPendingConnections_run | exact Hx].
  - intros p q Hp Hq (l1 & E1 & H1) (l2 & E2 & H2).
    rewrite getPendingConnections_run in E1, E2.
    injection E1 as <-. injection E2 as <-.
    exact (page_unique (parse_or q_limit 10) sorted c p q Hnd Hl Hp Hq H1 H2).
Qed.

Lemma pending_pages_partition_witness :
  exists p, 1 <= p
    /\ exists l, Connection.getPendingConnections 2 p 10 store_pending
                 = (inr l, store_pending) /\ In request10 l.
Proof.
  pose proof (pending_pages_partition [aisha; bilal] [] 10 [op_request] 2 None
                request10) as H.
  cbv zeta in H.
  destruct H as (Hex & _); [vm_compute; auto | reflexivity | reflexivity |].
  exact Hex.
Defined.

(** *** Followers and following *)

Lemma getFollowers_run id q_page q_limit d :
  getFollowers id q_page q_limit d =
  let page := parse_or q_page 1 in
  let limit := parse_or q_limit 10 in
  let matching := List.filter (follower_record id) (connections d) in
  let total := length matching in
  match find (fun u => u_id u =? id) (users d) with
  | None => (Next "User not found" 404, d)
  | Some u =>
      if negb (isActive u) then (Next "User not found" 404, d)
      else
        (Respond 200
           (JObj [("success", JBool true);
                  ("data",
                   JObj [("followers",
                          JArr (map (fun conn =>
                                       User.populate
                                         ["fullName"; "profilePicture"; "role";
                                          "islamicProfile"] (requester conn) d)
                                    (page_of page limit
                                       (Connection.sort_newest_first matching))));
                         ("pagination",
                          JObj [("currentPage", JNum (Z.of_nat page));
                                ("totalPages",
                                 JNum (Z.of_nat (ceil_div total limit)));
                                ("totalFollowers", JNum (Z.of_nat total));
                                ("hasNext", JBool (page <? ceil_div total limit));
                                ("hasPrev", JBool (1 <? page))])])]), d)
  end.
Proof.
  unfold getFollowers, handle. cbv zeta. rewrite bind_run.
  unfold User.findById, User.findOne at 1. cbv beta iota.
  destruct (find _ (users d)) as [u|]; [|reflexivity].
  destruct (negb (isActive u)); reflexivity.
Qed.

Lemma getFollowing_run id q_page q_limit d :
  getFollowing id q_page q_limit d =
  let page := parse_or q_page 1 in
  let limit := parse_or q_limit 10 in
  let matching := List.filter (following_record id) (connections d) in
  let total := length matching in
  match find (fun u => u_id u =? id) (users d) with
  | None => (Next "User not found" 404, d)
  | Some u =>
      if negb (isActive u) then (Next "User not found" 404, d)
      else
        (Respond 200
           (JObj [("success", JBool true);
                  ("data",
                   JObj [("following",
                          JArr (map (fun conn =>
                                       User.populate
                                         ["fullName"; "profilePicture"; "role";
                                          "islamicProfile"] (recipient conn) d)
                                    (page_of page limit
                                       (Connection.sort_newest_first matching))));
                         ("pagination",
                          JObj [("currentPage", JNum (Z.of_nat page));
                                ("totalPages",
                                 JNum (Z.of_nat (ceil_div total limit)));
                                ("totalFollowing", JNum (Z.of_nat total));
                                ("hasNext", JBool (page <? ceil_div total limit));
                                ("hasPrev", JBool (1 <? page))])])]), d)
  end.
Proof.
  unfold getFollowing, handle. cbv zeta. rewrite bind_run.
  unfold User.findById, User.findOne at 1. cbv beta iota.
  destruct (find _ (users d)) as [u|]; [|reflexivity].
  destruct (negb (isActive u)); reflexivity.
Qed.

Lemma page_length {A} page limit (l : list A) :
  length (page_of page limit l) = min limit (length l - (page - 1) * limit).
Proof. unfold page_of. now rewrite length_firstn, length_skipn. Qed.

Lemma sort_newest_first_length l :
  length (Connection.sort_newest_first l) = length l.
Proof.
  rewrite sort_newest_first_is_by.
  apply Permutation_length, sort_desc_by_perm.
Qed.

(** The followers page of a stored, active account: the handler never
    writes; the page lists [min limit (total - skip)] followers, where
    [total] counts the accepted records addressed to the account;
    [totalFollowers] is that count, [hasNext] is true exactly when accepted
    followers remain after this page, [hasPrev] exactly from page 2 on, and
    [totalPages] pages of [limit] entries are just enough for [total]. *)
Theorem followers_page id q_page q_limit d u :
  find (fun u => u_id u =? id) (users d) = Some u -> isActive u = true ->
  let page := parse_or q_page 1 in
  let limit := parse_or q_limit 10 in
  let total := count (follower_record id) d in
  let r := getFollowers id q_page q_limit d in
  snd r = d /\ responded (fst r) = true
  /\ length (data_list "followers" (fst r))
     = min limit (total - (page - 1) * limit)
  /\ pagination_field "currentPage" (fst r) = Some (JNum (Z.of_nat page))
  /\ pagination_field "totalFollowers" (fst r) = Some (JNum (Z.of_nat total))
  /\ pagination_field "hasNext" (fst r) = Some (JBool (page * limit <? total))
  /\ pagination_field "hasPrev" (fst r) = Some (JBool (1 <? page))
  /\ exists pages,
       pagination_field "totalPages" (fst r) = Some (JNum (Z.of_nat pages))
       /\ total <= pages * limit /\ pages * limit < total + limit.
Proof.
  intros Hf Hact. cbv zeta. rewrite getFollowers_run. cbv zeta.
  rewrite Hf, Hact. cbn [negb fst snd].
  pose proof (parse_or_pos q_limit 10 ltac:(lia)) as Hl.
  split; [reflexivity|]. split; [reflexivity|]. split.
  - cbn. rewrite length_map, page_length, sort_newest_first_length. reflexivity.
  - split; [reflexivity|]. split; [reflexivity|]. split.
    + transitivity
        (Some (JBool (parse_or q_page 1
                      <? ceil_div (count (follower_record id) d)
                                  (parse_or q_limit 10))));
        [reflexivity | now rewrite ceil_div_lt].
    + split; [reflexivity|].
      exists (ceil_div (count (follower_record id) d) (parse_or q_limit 10)).
      split; [reflexivity|]. split; [now apply ceil_div_covers|].
      unfold ceil_div.
      pose proof (Nat.Div0.mul_div_le
                    (count (follower_record id) d + parse_or q_limit 10 - 1)
                    (parse_or q_limit 10)). nia.
Qed.

(** Aisha's followers once she has accepted Bilal's follow. *)
Lemma followers_page_witness :
  length (data_list "followers"
            (fst (getFollowers 1 None None (run ops_followed store0)))) = 1
  /\ pagination_field "hasNext"
       (fst (getFollowers 1 None None (run ops_followed store0)))
     = Some (JBool false).
Proof.
  pose proof (followers_page 1 None None (run ops_followed store0) aisha
                eq_refl eq_refl) as H.
  cbv zeta in H. destruct H as (_ & _ & Hlen & _ & _ & Hnext & _).
  split; [exact Hlen | exact Hnext].
Defined.

Lemma map_upd_other c' l :
  (forall x, In x l -> c_id x <> c_id c') -> map (upd c') l = l.
Proof.
  induction l as [|x l IH]; simpl; intros H; [reflexivity|].
  unfold upd at 1.
  destruct (Nat.eqb_spec (c_id x) (c_id c')) as [E|_].
  - exfalso. apply (H x); auto.
  - f_equal. apply IH. intros y Hy. apply H. auto.
Qed.

(** Counting after one document was written back. *)
Lemma count_upd (p : ConnectionDoc -> bool) c c' l :
  List.NoDup (map c_id l) -> In c l -> c_id c' = c_id c ->
  length (List.filter p (map (upd c') l)) + (if p c then 1 else 0)
  = length (List.filter p l) + (if p c' then 1 else 0).
Proof.
  induction l as [|x l IH]; simpl; intros Hnd Hin Hid; [contradiction|].
  apply List.NoDup_cons_iff in Hnd as [Hna Hnd].
  unfold upd at 1.
  destruct (Nat.eqb_spec (c_id x) (c_id c')) as [E|Hne].
  - assert (x = c).
    { destruct Hin as [->|Hin]; [reflexivity|].
      exfalso. apply Hna. apply in_map_iff. exists c. split; [congruence|auto]. }
    subst x. rewrite map_upd_other.
    + destruct (p c), (p c'); simpl; lia.
    + intros y Hy Hyid. apply Hna. apply in_map_iff. exists y.
      split; [congruence | exact Hy].
  - destruct Hin as [->|Hin]; [congruence|].
    specialize (IH Hnd Hin Hid).
    destruct (p x); simpl; lia.
Qed.

(** Accepting a request makes the requester a follower of the recipient,
    not the other way round: the recipient's [totalFollowers] and the
    requester's [totalFollowing] go up by one, the requester's
    [totalFollowers] and the recipient's [totalFollowing] stay.  This holds
    whether or not the notification could be written. *)
Theorem accept_adds_follower us ns n0 ops up now user cid c ua ub qp ql :
  let d := run ops (initial us ns n0) in
  In c (connections d) ->
  c_id c = cid -> recipient c = u_id user -> status c = pending ->
  find (fun u => u_id u =? requester c) (users d) = Some ua -> isActive ua = true ->
  find (fun u => u_id u =? recipient c) (users d) = Some ub -> isActive ub = true ->
  let d' := snd (acceptConnection up now user cid d) in
  let total key e := pagination_field key (fst e) in
  let num n := Some (JNum (Z.of_nat n)) in
  total "totalFollowers" (getFollowers (recipient c) qp ql d')
  = num (S (count (follower_record (recipient c)) d))
  /\ total "totalFollowing" (getFollowing (requester c) qp ql d')
     = num (S (count (following_record (requester c)) d))
  /\ total "totalFollowers" (getFollowers (requester c) qp ql d')
     = num (count (follower_record (requester c)) d)
  /\ total "totalFollowing" (getFollowing (recipient c) qp ql d')
     = num (count (following_record (recipient c)) d).
Proof.
  cbv zeta. set (d := run ops (initial us ns n0)).
  intros Hin H1 H2 H3 Hua Hacta Hub Hactb.
  assert (HI : Inv d) by (apply Inv_run, Inv_initial).
  pose proof (inv_ids d HI) as Hnd.
  pose proof (inv_irrefl d HI c Hin) as Hirr.
  set (d' := snd (acceptConnection up now user cid d)).
  assert (Hu : users d' = users d) by apply acceptConnection_users.
  assert (Hc : connections d'
          = map (upd (Connection.set_status c accepted (Some now) now))
                (connections d)).
  { unfold d'. rewrite acceptConnection_run.
    destruct (find_pending_for_some _ _ _ c Hin H1 H2 H3) as (c0 & Hf).
    rewrite Hf. cbv zeta. apply find_some in Hf as [Hin0 Hp0].
    apply pending_for_iff in Hp0 as (Hid0 & _ & _).
    assert (c0 = c)
      by (apply (NoDup_map_eq c_id (connections d)); auto; congruence).
    subst c0.
    destruct (Nat.eqb_spec (requester c) (recipient c)); [contradiction|].
    match goal with
    | |- context [Notification.createNotification ?u ?n ?x ?dd] =>
        pose proof (createNotification_frame u n x dd) as (Hcc & _ & _);
        destruct (Notification.createNotification u n x dd) as [[e|nn] d2]
    end; simpl in Hcc |- *; rewrite Hcc; now apply replace_by_id_map. }
  assert (Hcount : forall p,
            count p d' + (if p c then 1 else 0)
            = count p d
              + (if p (Connection.set_status c accepted (Some now) now)
                 then 1 else 0)).
  { intros p. unfold count. rewrite Hc. now apply count_upd. }
  assert (Hpend : forall id, follower_record id c = false
                             /\ following_record id c = false).
  { intros id. unfold follower_record, following_record, Status_eqb.
    rewrite H3. split; apply andb_false_r. }
  assert (Hne1 : (recipient c =? requester c) = false)
    by (apply Nat.eqb_neq; congruence).
  assert (Hne2 : (requester c =? recipient c) = false)
    by (now apply Nat.eqb_neq).
  assert (F1 : count (follower_record (recipient c)) d'
               = S (count (follower_record (recipient c)) d)).
  { pose proof (Hcount (follower_record (recipient c))) as E.
    rewrite (proj1 (Hpend _)) in E.
    replace (follower_record (recipient c)
               (Connection.set_status c accepted (Some now) now))
      with true in E
      by (unfold follower_record; simpl; now rewrite Nat.eqb_refl).
    lia. }
  assert (F2 : count (following_record (requester c)) d'
               = S (count (following_record (requester c)) d)).
  { pose proof (Hcount (following_record (requester c))) as E.
    rewrite (proj2 (Hpend _)) in E.
    replace (following_record (requester c)
               (Connection.set_status c accepted (Some now) now))
      with true in E
      by (unfold following_record; simpl; now rewrite Nat.eqb_refl).
    lia. }
  assert (F3 : count (follower_record (requester c)) d'
               = count (follower_record (requester c)) d).
  { pose proof (Hcount (follower_record (requester c))) as E.
    rewrite (proj1 (Hpend _)) in E.
    replace (follower_record (requester c)
               (Connection.set_status c accepted (Some now) now))
      with false in E
      by (unfold follower_record; simpl; now rewrite Hne1).
    lia. }
  assert (F4 : count (following_record (recipient c)) d'
               = count (following_record (recipient c)) d).
  { pose proof (Hcount (following_record (recipient c))) as E.
    rewrite (proj2 (Hpend _)) in E.
    replace (following_record (recipient c)
               (Connection.set_status c accepted (Some now) now))
      with false in E
      by (unfold following_record; simpl; now rewrite Hne2).
    lia. }
  unfold count in F1, F2, F3, F4.
  rewrite !getFollowers_run, !getFollowing_run. cbv zeta.
  rewrite !Hu, Hua, Hub, Hacta, Hactb. cbn [negb fst].
  rewrite F1, F2, F3, F4.
  repeat split.
Qed.

Lemma accept_adds_follower_witness :
  pagination_field "totalFollowers"
    (fst (getFollowers 2 None None
            (snd (acceptConnection true 101 bilal 10 store_pending))))
  = Some (JNum 1)
  /\ pagination_field "totalFollowers"
       (fst (getFollowers 1 None None
               (snd (acceptConnection true 101 bilal 10 store_pending))))
     = Some (JNum 0).
Proof.
  pose proof (accept_adds_follower [aisha; bilal] [] 10 [op_request] true 101
                bilal 10 request10 aisha bilal None None) as H.
  cbv zeta in H.
  destruct H as (Hf & _ & Hr & _);
    [vm_compute; auto | reflexivity..|].
  split; [exact Hf | exact Hr].
Defined.

(** *** Deactivated accounts *)

Lemma find_update_first id f l :
  (forall u, u_id (f u) = u_id u) ->
  find (fun u => u_id u =? id) (User.update_first id f l)
  = option_map f (find (fun u => u_id u =? id) l).
Proof.
  intros Hf. induction l as [|u r IH]; simpl; [reflexivity|].
  destruct (Nat.eqb_spec (u_id u) id) as [E|Hne]; simpl.
  - rewrite Hf. apply Nat.eqb_eq in E. now rewrite E.
  - apply Nat.eqb_neq in Hne. now rewrite Hne.
Qed.

Lemma In_update_first id f l x :
  (forall u, u_id (f u) = u_id u) ->
  List.NoDup (map u_id l) ->
  In x (User.update_first id f l) -> u_id x = id ->
  exists t, In t l /\ x = f t.
Proof.
  intros Hf. induction l as [|u r IH]; simpl; intros Hnd Hin Hid; [contradiction|].
  apply List.NoDup_cons_iff in Hnd as [Hna Hnd].
  destruct (Nat.eqb_spec (u_id u) id) as [E|Hne].
  - destruct Hin as [<-|Hin]; [eauto|].
    exfalso. apply Hna. apply in_map_iff. exists x. split; [congruence|auto].
  - destruct Hin as [<-|Hin]; [contradiction|].
    destruct (IH Hnd Hin Hid) as (t & Ht & ->). eauto.
Qed.

(** Deleting one's profile is a soft delete that is not carried over to the
    ledger: the handler answers 200 and writes no connection and no
    notification; afterwards the account is refused as deactivated by
    [getUserById], as not found by [getFollowers], [getFollowing] and
    [followUser], and as no verified imaam by [requestConnection] and
    [getImaamById]; every follower count is what it was, and whoever held
    an accepted record with the account can still unfollow it. *)
Theorem soft_delete_keeps_ledger d user t :
  List.NoDup (map u_id (users d)) ->
  find (fun u => u_id u =? u_id user) (users d) = Some t ->
  let id := u_id user in
  let d' := snd (deleteProfile user d) in
  fst (deleteProfile user d)
  = Respond 200 (success_body (Some "Account deleted successfully") None)
  /\ connections d' = connections d /\ notifications d' = notifications d
  /\ getUserById id d' = (Next "User account is deactivated" 404, d')
  /\ (forall qp ql,
        getFollowers id qp ql d' = (Next "User not found" 404, d')
        /\ getFollowing id qp ql d' = (Next "User not found" 404, d'))
  /\ (forall now other, u_id other <> id ->
        followUser now other id d' = (Next "User not found" 404, d'))
  /\ (forall up now other msg, u_id other <> id ->
        requestConnection up now other id msg d'
        = (Next "Imaam not found or not verified" 404, d'))
  /\ (forall viewer,
        getImaamById viewer id d' = (Next "Imaam not found" 404, d'))
  /\ (forall other c, In c (connections d) ->
        Connection.accepted_between (u_id other) id c = true ->
        fst (unfollowUser other id d')
        = Respond 200 (success_body (Some "Unfollowed successfully") None)).
Proof.
  intros Hnd Hfind. cbv zeta.
  assert (Hid : forall u, u_id (User.set_active u false) = u_id u)
    by reflexivity.
  assert (Hd' : snd (deleteProfile user d)
                = User.set_users d
                    (User.update_first (u_id user)
                       (fun u => User.set_active u false) (users d)))
    by reflexivity.
  set (d' := snd (deleteProfile user d)) in *.
  assert (Hf' : find (fun u => u_id u =? u_id user) (users d')
                = Some (User.set_active t false)).
  { rewrite Hd'. simpl.
    rewrite (find_update_first (u_id user)
               (fun u => User.set_active u false) (users d) Hid).
    now rewrite Hfind. }
  assert (Hnone : forall p,
            (forall u, p u = true -> u_id u = u_id user /\ isActive u = true) ->
            find p (users d') = None).
  { intros p Hp. destruct (find p (users d')) as [x|] eqn:Hx; [|reflexivity].
    apply find_some in Hx as [Hin Hpx]. apply Hp in Hpx as [Hxid Hxact].
    rewrite Hd' in Hin. simpl in Hin.
    destruct (In_update_first _ _ _ _ Hid Hnd Hin Hxid) as (t0 & _ & ->).
    discriminate Hxact. }
  split; [reflexivity|]. split; [now rewrite Hd'|]. split; [now rewrite Hd'|].
  split.
  { unfold getUserById, handle. rewrite bind_run.
    unfold User.findById, User.findOne at 1. cbv beta iota.
    now rewrite Hf'. }
  split.
  { intros qp ql. rewrite getFollowers_run, getFollowing_run. cbv zeta.
    now rewrite Hf'. }
  split.
  { intros now other Hne. rewrite followUser_run.
    destruct (Nat.eqb_spec (u_id user) (u_id other)) as [E|_]; [congruence|].
    now rewrite Hf'. }
  split.
  { intros up now other msg Hne. rewrite requestConnection_run.
    destruct (Nat.eqb_spec (u_id user) (u_id other)) as [E|_]; [congruence|].
    rewrite Hnone; [reflexivity|].
    intros u Hu. unfold verified_imaam in Hu.
    apply andb_prop in Hu as [Hu Ha]. apply andb_prop in Hu as [Hu _].
    apply andb_prop in Hu as [Hu _]. apply Nat.eqb_eq in Hu. auto. }
  split.
  { intros viewer. rewrite getImaamById_run.
    rewrite Hnone; [reflexivity|].
    intros u Hu. unfold active_imaam in Hu.
    apply andb_prop in Hu as [Hu Ha]. apply andb_prop in Hu as [Hu _].
    apply Nat.eqb_eq in Hu. auto. }
  intros other c Hin Hc. rewrite unfollowUser_run. cbv zeta.
  replace (connections d') with (connections d) by now rewrite Hd'.
  destruct (find _ (connections d)) as [c'|] eqn:Hf; [reflexivity|].
  eapply find_none in Hf; eauto. congruence.
Qed.

(** Aisha deletes her profile while Bilal follows her. *)
Lemma soft_delete_keeps_ledger_witness :
  getUserById 1 (snd (deleteProfile aisha (run ops_followed store0)))
  = (Next "User account is deactivated" 404,
     snd (deleteProfile aisha (run ops_followed store0)))
  /\ fst (unfollowUser bilal 1
            (snd (deleteProfile aisha (run ops_followed store0))))
     = Respond 200 (success_body (Some "Unfollowed successfully") None).
Proof.
  pose proof (soft_delete_keeps_ledger (run ops_followed store0) aisha aisha)
    as H.
  cbv zeta in H.
  destruct H as (_ & _ & _ & Hget & _ & _ & _ & _ & Hun).
  - vm_compute. repeat constructor; simpl; intuition discriminate.
  - reflexivity.
  - split; [exact Hget|].
    apply (Hun bilal follow10); [vm_compute; auto | reflexivity].
Defined.

(** *** The connections of one account *)

Lemma filter_orb_disjoint {A} (p q : A -> bool) (l : list A) :
  (forall x, In x l -> p x = true -> q x = false) ->
  length (List.filter (fun x => p x || q x) l)
  = length (List.filter p l) + length (List.filter q l).
Proof.
  induction l as [|a l IH]; simpl; intros H; [reflexivity|].
  assert (IH' := IH (fun x Hx => H x (or_intror Hx))).
  pose proof (H a (or_introl eq_refl)) as Ha.
  destruct (p a); simpl.
  - rewrite Ha by reflexivity. simpl. lia.
  - destruct (q a); simpl; lia.
Qed.

(** On any state the operations can reach, and for a page size that is at
    least 1 and at least the number of accepted records of the account, the
    first page of [getUserConnections(userId)] holds exactly the stored
    records counted as followers together with those counted as following:
    as many entries as [totalFollowers + totalFollowing], ordered by
    [lastInteraction], latest first; the call writes nothing. *)
Theorem user_connections_are_follow_records us ns n0 ops userId limit :
  let d := run ops (initial us ns n0) in
  let n := count (follower_record userId) d
           + count (following_record userId) d in
  1 <= limit -> n <= limit ->
  exists r,
    Connection.getUserConnections userId accepted 1 limit d = (inr r, d)
    /\ length r = n
    /\ StronglySorted (desc_by lastInteraction) r
    /\ forall c, In c r <->
         In c (connections d)
         /\ (follower_record userId c = true
             \/ following_record userId c = true).
Proof.
  cbv zeta. set (d := run ops (initial us ns n0)). intros Hl Hn.
  assert (HI : Inv d) by (apply Inv_run, Inv_initial).
  set (found := List.filter (Connection.involves userId accepted)
                            (connections d)).
  assert (Hlen : length found
                 = count (follower_record userId) d
                   + count (following_record userId) d).
  { unfold found, count, Connection.involves.
    rewrite (filter_orb_disjoint
               (fun c => (requester c =? userId)
                         && Status_eqb (status c) accepted)
               (fun c => (recipient c =? userId)
                         && Status_eqb (status c) accepted)).
    - unfold follower_record, following_record. lia.
    - intros c Hin Hp. apply andb_prop in Hp as [Hp _].
      apply Nat.eqb_eq in Hp.
      pose proof (inv_irrefl d HI c Hin) as Hirr.
      destruct (Nat.eqb_spec (recipient c) userId); [congruence|reflexivity]. }
  assert (Hperm : Permutation (Connection.sort_desc_by lastInteraction found)
                              found) by apply sort_desc_by_perm.
  exists (Connection.sort_desc_by lastInteraction found).
  split.
  { unfold Connection.getUserConnections. cbv zeta. fold found.
    unfold Connection.take_limit.
    destruct (Nat.eqb_spec limit 0) as [E|_]; [lia|].
    change ((1 - 1) * limit) with 0. rewrite skipn_O.
    rewrite firstn_all2; [reflexivity|].
    rewrite (Permutation_length Hperm). lia. }
  split; [now rewrite (Permutation_length Hperm)|].
  split; [apply sort_desc_by_sorted|].
  intros c. split.
  - intros Hin. apply (Permutation_in _ Hperm) in Hin.
    apply filter_In in Hin as [Hin Hc]. split; [exact Hin|].
    unfold Connection.involves in Hc. apply orb_prop in Hc as [Hc|Hc]; auto.
  - intros [Hin Hc]. apply (Permutation_in _ (Permutation_sym Hperm)).
    apply filter_In. split; [exact Hin|].
    unfold Connection.involves. apply orb_true_iff.
    destruct Hc as [Hc|Hc]; auto.
Qed.

Lemma user_connections_are_follow_records_witness :
  exists r,
    Connection.getUserConnections 1 accepted 1 20 (run ops_followed store0)
    = (inr r, run ops_followed store0)
    /\ length r = 1.
Proof.
  destruct (user_connections_are_follow_records [aisha; bilal] [] 10
              ops_followed 1 20) as (r & Hr & Hlen & _);
    [lia | vm_compute; lia |].
  exists r. split; [exact Hr | exact Hlen].
Defined.

(** *** Reading and announcing notifications *)

Lemma filter_map_length {A B} (p : B -> bool) (f : A -> B) (l : list A) :
  length (List.filter p (map f l)) = length (List.filter (fun x => p (f x)) l).
Proof.
  induction l as [|a l IH]; simpl; [reflexivity|].
  destruct (p (f a)); simpl; now rewrite IH.
Qed.

Lemma filter_none {A} (p : A -> bool) (l : list A) :
  (forall x, In x l -> p x = false) -> List.filter p l = [].
Proof.
  induction l as [|a l IH]; simpl; intros H; [reflexivity|].
  rewrite (H a (or_introl eq_refl)). apply IH. intros x Hx. apply H. now right.
Qed.

Lemma marked_not_unread now userId n :
  Notification.unread_of userId
    (if Notification.unread_of userId n then Notification.set_read n now else n)
  = false.
Proof.
  destruct (Notification.unread_of userId n) eqn:E; [|exact E].
  unfold Notification.unread_of. simpl. apply andb_false_r.
Qed.

(** [markAllAsRead(userId)] resolves to an update result whose
    [matchedCount] and [modifiedCount] are the number of notifications that
    were unread for the account, and leaves none unread: the unread count is
    0 and the unread-only listing is empty on every page from 1 on.  It adds
    and removes nothing, touches no notification of another account and none
    that was read already (its [readAt] stays), writes no user and no
    connection, and a second call matches and modifies nothing. *)
Theorem markAllAsRead_effect now userId d :
  let r := Notification.markAllAsRead now userId d in
  let d' := snd r in
  fst r = inr (Notification.mkUpdateResult true (unread userId d) None 0
                                          (unread userId d))
  /\ Notification.getUnreadCount userId d' = (inr 0, d')
  /\ (forall other, other <> userId -> unread other d' = unread other d)
  /\ map n_id (notifications d') = map n_id (notifications d)
  /\ (forall n, In n (notifications d) ->
        Notification.unread_of userId n = false -> In n (notifications d'))
  /\ (forall n, In n (notifications d') -> n_recipient n = userId ->
        n_isRead n = true)
  /\ (forall page limit, 1 <= page ->
        Notification.getUserNotifications userId page limit true d'
        = (inr [], d'))
  /\ users d' = users d /\ connections d' = connections d
  /\ (forall later,
        Notification.markAllAsRead later userId d'
        = (inr (Notification.mkUpdateResult true 0 None 0 0), d')).
Proof.
  cbv zeta.
  set (f := fun n => if Notification.unread_of userId n
                     then Notification.set_read n now else n).
  assert (Hd' : snd (Notification.markAllAsRead now userId d)
                = Notification.set_notifications d (map f (notifications d)))
    by reflexivity.
  set (d' := snd (Notification.markAllAsRead now userId d)) in *.
  assert (Hns : notifications d' = map f (notifications d))
    by now rewrite Hd'.
  assert (Hnone : List.filter (Notification.unread_of userId) (notifications d')
                  = []).
  { rewrite Hns. apply filter_none. intros x Hx.
    apply in_map_iff in Hx as (n & <- & _). apply marked_not_unread. }
  split; [reflexivity|]. split.
  { unfold Notification.getUnreadCount. now rewrite Hnone. }
  split.
  { intros other Hne. unfold unread. rewrite Hns, filter_map_length.
    f_equal. apply List.filter_ext. intros n. unfold f.
    destruct (Notification.unread_of userId n) eqn:E; [|reflexivity].
    apply andb_prop in E as [E _]. apply Nat.eqb_eq in E.
    unfold Notification.unread_of. simpl.
    destruct (Nat.eqb_spec (n_recipient n) other); [congruence|reflexivity]. }
  split.
  { rewrite Hns, map_map. apply map_ext. intros n. unfold f.
    now destruct (Notification.unread_of userId n). }
  split.
  { intros n Hin Hn. rewrite Hns. apply in_map_iff. exists n.
    split; [|exact Hin]. unfold f. now rewrite Hn. }
  split.
  { intros n Hin Hr. rewrite Hns in Hin.
    apply in_map_iff in Hin as (n0 & <- & _).
    pose proof (marked_not_unread now userId n0) as Hm. fold (f n0) in Hm, Hr |- *.
    unfold Notification.unread_of in Hm. rewrite Hr, Nat.eqb_refl in Hm.
    simpl in Hm. now destruct (n_isRead (f n0)). }
  split.
  { intros page limit _. unfold Notification.getUserNotifications. cbv zeta.
    change (Notification.listed userId true)
      with (Notification.unread_of userId).
    rewrite Hnone. cbn [Notification.sort_newest_first fold_right].
    rewrite skipn_nil. unfold Connection.take_limit.
    destruct (limit =? 0); [reflexivity | now rewrite firstn_nil]. }
  split; [now rewrite Hd'|]. split; [now rewrite Hd'|].
  intros later. unfold Notification.markAllAsRead. cbv zeta.
  rewrite Hnone. cbn [length].
  f_equal. destruct d' as [us cs ns nid] eqn:Ed.
  unfold Notification.set_notifications. cbn [users connections notifications nextId].
  f_equal. cbn [notifications] in Hnone.
  clear -Hnone. induction ns as [|n ns IH]; simpl in *; [reflexivity|].
  destruct (Notification.unread_of userId n) eqn:E; [discriminate|].
  f_equal. now apply IH.
Qed.

(** Bilal reads the one notification the request sent him. *)
Lemma markAllAsRead_effect_witness :
  fst (Notification.markAllAsRead 200 2 store_pending)
  = inr (Notification.mkUpdateResult true 1 None 0 1)
  /\ Notification.getUnreadCount 2
       (snd (Notification.markAllAsRead 200 2 store_pending))
     = (inr 0, snd (Notification.markAllAsRead 200 2 store_pending)).
Proof.
  destruct (markAllAsRead_effect 200 2 store_pending) as (H1 & H2 & _).
  split; [exact H1 | exact H2].
Defined.

Lemma system_list_ids now data id rs :
  map n_id (system_list now data id rs) = seq id (length rs).
Proof.
  revert id. induction rs as [|r rs IH]; intros id; simpl; [reflexivity|].
  now rewrite IH.
Qed.

Lemma system_list_unread now data id rs u :
  length (List.filter (Notification.unread_of u) (system_list now data id rs))
  = count_occ Nat.eq_dec rs u.
Proof.
  revert id. induction rs as [|r rs IH]; intros id; simpl; [reflexivity|].
  unfold Notification.unread_of at 1. cbn [n_recipient n_isRead negb].
  rewrite andb_true_r.
  destruct (Nat.eqb_spec r u) as [E|Hne], (Nat.eq_dec r u) as [E'|Hne'];
    try congruence; simpl; now rewrite IH.
Qed.

(** [createSystemNotification(recipients, data)] with valid data and a
    store that takes the write adds one unread notification per entry of
    [recipients], in that order and with consecutive fresh ids, so the
    unread count of every account rises by the number of times it is
    listed.  The save hook does not run on this path: each document keeps
    the priority given, or medium when none is given, also for a type for
    which [createNotification] would store the priority of the hook's
    table. *)
Theorem system_notification_effect now rs data d :
  note_error (Notification.type data) (Notification.title data)
             (Notification.message data) = None ->
  rs <> [] ->
  let r := Notification.createSystemNotification true now rs data d in
  let d' := snd r in
  exists docs,
    fst r = inr docs
    /\ notifications d' = notifications d ++ docs
    /\ map n_recipient docs = rs
    /\ map n_id docs = seq (nextId d) (length rs)
    /\ nextId d' = length rs + nextId d
    /\ (forall u, unread u d' = unread u d + count_occ Nat.eq_dec rs u)
    /\ (forall n, In n docs ->
          n_priority n = default medium (Notification.priority data)
          /\ n_isRead n = false /\ n_sender n = None
          /\ n_type n = Notification.type data)
    /\ (forall p, Notification.priority data = None ->
          Notification.lookup_priority (Notification.type data) = Some p ->
          exists n1,
            fst (Notification.createNotification true now data d) = inr n1
            /\ n_priority n1 = p)
    /\ users d' = users d /\ connections d' = connections d.
Proof.
  intros Hv Hrs. cbv zeta. rewrite createSystemNotification_run. cbv zeta.
  destruct rs as [|r0 rs0] eqn:Ers; [congruence|]. rewrite Hv. rewrite <- Ers.
  exists (system_list now data (nextId d) rs).
  cbn [fst snd]. split; [reflexivity|]. split; [reflexivity|].
  split; [apply system_list_recipients|].
  split; [apply system_list_ids|]. split; [reflexivity|].
  split.
  { intros u. unfold unread. cbn [notifications Notification.set_notifications].
    now rewrite List.filter_app, List.length_app, system_list_unread. }
  split.
  { intros n Hin. clear -Hin. revert Hin. generalize (nextId d).
    induction rs as [|r rs IH]; intros id Hin; [contradiction|].
    destruct Hin as [<-|Hin]; [auto|]. eapply IH; eauto. }
  split; [|split; reflexivity].
  intros p Hp Hl. rewrite createNotification_run. cbv zeta. rewrite Hv.
  eexists. split; [reflexivity|].
  unfold hooked, new_notification. rewrite Hp.
  cbn [n_priority default from_option]. unfold id.
  rewrite bool_decide_eq_true_2 by reflexivity.
  cbn [n_type Notification.set_priority n_priority]. now rewrite Hl.
Qed.

(** An announcement to Aisha, Bilal and Aisha again. *)
Lemma system_notification_effect_witness :
  unread 1 (snd (Notification.createSystemNotification true 300 [1; 2; 1]
                   announcement store0)) = 2
  /\ exists docs,
       fst (Notification.createSystemNotification true 300 [1; 2; 1]
              announcement store0) = inr docs
       /\ map n_priority docs = [medium; medium; medium].
Proof.
  destruct (system_notification_effect 300 [1; 2; 1] announcement store0
              eq_refl ltac:(discriminate))
    as (docs & Hr & _ & _ & _ & _ & Hun & _).
  split; [exact (Hun 1)|].
  exists docs. split; [exact Hr|].
  vm_compute in Hr. injection Hr as <-. reflexivity.
Defined.

Lemma StronglySorted_skipn {A} (R : A -> A -> Prop) n l :
  StronglySorted R l -> StronglySorted R (skipn n l).
Proof.
  revert l. induction n as [|n IH]; intros l Hs; [exact Hs|].
  destruct l as [|x l]; [constructor|]. simpl.
  apply IH. now inversion Hs.
Qed.

Lemma StronglySorted_firstn {A} (R : A -> A -> Prop) n l :
  StronglySorted R l -> StronglySorted R (firstn n l).
Proof.
  revert l. induction n as [|n IH]; intros l Hs; [constructor|].
  destruct l as [|x l]; [constructor|]. simpl.
  inversion Hs as [|? ? Hl Hx]; subst. constructor; [now apply IH|].
  apply List.Forall_forall. intros y Hy. apply In_firstn in Hy.
  revert y Hy. now apply List.Forall_forall.
Qed.

Lemma notification_insert_desc_perm n l :
  Permutation (Notification.insert_desc n l) (n :: l).
Proof.
  induction l as [|x l IH]; simpl; [reflexivity|].
  destruct (n_createdAt x <=? n_createdAt n); [reflexivity|].
  rewrite IH. apply perm_swap.
Qed.

Lemma notification_sort_perm l :
  Permutation (Notification.sort_newest_first l) l.
Proof.
  unfold Notification.sort_newest_first.
  induction l as [|x l IH]; simpl; [reflexivity|].
  rewrite notification_insert_desc_perm. now rewrite IH.
Qed.

Lemma notification_insert_desc_sorted n l :
  StronglySorted newer_first l ->
  StronglySorted newer_first (Notification.insert_desc n l).
Proof.
  induction l as [|x l IH]; simpl; intros Hs.
  - constructor; [constructor | constructor].
  - inversion Hs as [|? ? Hl Hx]; subst.
    destruct (Nat.leb_spec (n_createdAt x) (n_createdAt n)) as [Hle|Hgt].
    + constructor; [exact Hs|]. constructor; [exact Hle|].
      apply List.Forall_forall. intros y Hy.
      assert (newer_first x y)
        by (revert y Hy; now apply List.Forall_forall).
      unfold newer_first in *. lia.
    + constructor; [now apply IH|].
      apply List.Forall_forall. intros y Hy.
      apply (Permutation_in _ (notification_insert_desc_perm n l)) in Hy.
      destruct Hy as [<-|Hy].
      * unfold newer_first. lia.
      * revert y Hy. now apply List.Forall_forall.
Qed.

Lemma notification_sort_sorted l :
  StronglySorted newer_first (Notification.sort_newest_first l).
Proof.
  unfold Notification.sort_newest_first.
  induction l as [|x l IH]; simpl; [constructor|].
  now apply notification_insert_desc_sorted.
Qed.

(** A page of [getUserNotifications], for a page number and a page size of
    at least 1: the call writes nothing; the page has at most [limit]
    entries, all stored notifications addressed to the account (unread ones
    only when [unreadOnly] is set), newest first; and every stored
    notification that matches is on some page. *)
Theorem user_notifications_page userId page limit unreadOnly d :
  1 <= page -> 1 <= limit ->
  exists l,
    Notification.getUserNotifications userId page limit unreadOnly d
    = (inr l, d)
    /\ length l <= limit
    /\ StronglySorted newer_first l
    /\ (forall n, In n l ->
          In n (notifications d) /\ n_recipient n = userId
          /\ (unreadOnly = true -> n_isRead n = false))
    /\ (forall n, In n (notifications d) -> n_recipient n = userId ->
          (unreadOnly = true -> n_isRead n = false) ->
          exists p l', 1 <= p
            /\ Notification.getUserNotifications userId p limit unreadOnly d
               = (inr l', d)
            /\ In n l').
Proof.
  intros Hp Hl.
  set (found := List.filter (Notification.listed userId unreadOnly)
                            (notifications d)).
  assert (Hrun : forall p,
            Notification.getUserNotifications userId p limit unreadOnly d
            = (inr (page_of p limit (Notification.sort_newest_first found)), d)).
  { intros p. unfold Notification.getUserNotifications, Connection.take_limit.
    cbv zeta. fold found.
    destruct (Nat.eqb_spec limit 0); [lia | reflexivity]. }
  exists (page_of page limit (Notification.sort_newest_first found)).
  split; [apply Hrun|]. split.
  { rewrite page_length. lia. }
  split.
  { unfold page_of. apply StronglySorted_firstn, StronglySorted_skipn,
      notification_sort_sorted. }
  split.
  - intros n Hin. apply In_page in Hin.
    apply (Permutation_in _ (notification_sort_perm found)) in Hin.
    apply filter_In in Hin as [Hin Hn]. split; [exact Hin|].
    unfold Notification.listed in Hn. apply andb_prop in Hn as [Hr Hu].
    apply Nat.eqb_eq in Hr. split; [exact Hr|].
    intros ->. now destruct (n_isRead n).
  - intros n Hin Hr Hu.
    assert (Hf : In n (Notification.sort_newest_first found)).
    { apply (Permutation_in _ (Permutation_sym (notification_sort_perm found))).
      apply filter_In. split; [exact Hin|].
      unfold Notification.listed. rewrite Hr, Nat.eqb_refl. simpl.
      destruct unreadOnly; [|reflexivity]. now rewrite Hu. }
    destruct (page_covers limit _ n Hl Hf) as (p & Hp1 & Hpn).
    exists p, (page_of p limit (Notification.sort_newest_first found)).
    auto.
Qed.

Lemma user_notifications_page_witness :
  exists l,
    Notification.getUserNotifications 2 1 20 false store_pending
    = (inr l, store_pending)
    /\ length l <= 20.
Proof.
  destruct (user_notifications_page 2 1 20 false store_pending)
    as (l & Hl & Hlen & _); [lia | lia |].
  exists l. split; [exact Hl | exact Hlen].
Defined.

(** *** Likes *)

Lemma find_append {A} (p : A -> bool) (l l' : list A) :
  find p (l ++ l')
  = match find p l with Some x => Some x | None => find p l' end.
Proof.
  induction l as [|a l IH]; simpl; [reflexivity|].
  now destruct (p a).
Qed.

Lemma liked_by_find u ls :
  existsb (Post.liked_by u) ls
  = match find (Post.liked_by u) ls with Some _ => true | None => false end.
Proof.
  induction ls as [|l ls IH]; simpl; [reflexivity|].
  destruct (Post.liked_by u l); simpl; auto.
Qed.

Lemma filter_not_liked u ls :
  existsb (Post.liked_by u)
          (List.filter (fun l => negb (Post.liked_by u l)) ls) = false.
Proof.
  induction ls as [|l ls IH]; simpl; [reflexivity|].
  destruct (Post.liked_by u l) eqn:E; simpl; [exact IH|].
  now rewrite E.
Qed.

Lemma filter_not_liked_id u ls :
  existsb (Post.liked_by u) ls = false ->
  List.filter (fun l => negb (Post.liked_by u l)) ls = ls.
Proof.
  induction ls as [|l ls IH]; simpl; [reflexivity|].
  intros H. apply orb_false_elim in H as [H1 H2].
  rewrite H1. simpl. now rewrite IH.
Qed.

Lemma filter_other_liked u v ls :
  v <> u ->
  List.filter (Post.liked_by v)
              (List.filter (fun l => negb (Post.liked_by u l)) ls)
  = List.filter (Post.liked_by v) ls.
Proof.
  intros Hne. induction ls as [|l ls IH]; simpl; [reflexivity|].
  destruct (Post.liked_by u l) eqn:Eu; simpl.
  - assert (Ev : Post.liked_by v l = false).
    { unfold Post.liked_by in *. apply Nat.eqb_eq in Eu.
      apply Nat.eqb_neq. congruence. }
    now rewrite Ev.
  - destruct (Post.liked_by v l); [now rewrite IH | exact IH].
Qed.

Lemma NoDup_map_filter {A B} (f : A -> B) (p : A -> bool) (l : list A) :
  List.NoDup (map f l) -> List.NoDup (map f (List.filter p l)).
Proof.
  induction l as [|a l IH]; simpl; intros H; [constructor|].
  apply List.NoDup_cons_iff in H as [Hna Hnd].
  destruct (p a); simpl; [|now apply IH].
  constructor; [|now apply IH].
  intros Hin. apply Hna. apply in_map_iff in Hin as (x & Hx & Hin).
  apply filter_In in Hin as [Hin _]. apply in_map_iff. eauto.
Qed.

Lemma find_saved (q : Post.PostDoc) ps :
  find (fun x => Post.p_id x =? Post.p_id q) ps <> None ->
  find (fun x => Post.p_id x =? Post.p_id q)
       (map (fun x => if Post.p_id x =? Post.p_id q then q else x) ps)
  = Some q.
Proof.
  induction ps as [|x ps IH]; simpl; [congruence|].
  destruct (Nat.eqb_spec (Post.p_id x) (Post.p_id q)) as [E|Hne]; simpl.
  - now rewrite Nat.eqb_refl.
  - apply Nat.eqb_neq in Hne. rewrite Hne. exact IH.
Qed.

(** What the handlers need of [addLike]. *)
Lemma addLike_saved now u p s :
  let p' := fst (Post.addLike now u p s) in
  let s' := snd (Post.addLike now u p s) in
  Post.isLikedBy u p' = negb (Post.isLikedBy u p)
  /\ Post.p_id p' = Post.p_id p /\ Post.author p' = Post.author p
  /\ Post.db s' = Post.db s
  /\ (Post.findById (Post.p_id p) s <> None ->
      Post.findById (Post.p_id p) s' = Some p').
Proof.
  cbv zeta. unfold Post.addLike, Post.save, Post.pre_save, Post.set_likes,
    Post.isLikedBy, Post.findById, Post.set_posts.
  cbn [fst snd Post.likes Post.p_id Post.author Post.db Post.posts].
  pose proof (liked_by_find u (Post.likes p)) as Hex.
  assert (Hsaved : forall q, Post.p_id q = Post.p_id p ->
            find (fun x => Post.p_id x =? Post.p_id p) (Post.posts s) <> None ->
            find (fun x => Post.p_id x =? Post.p_id p)
                 (map (fun x => if Post.p_id x =? Post.p_id p then q else x)
                      (Post.posts s)) = Some q).
  { intros q Hq Hfound. rewrite <- Hq in *. now apply find_saved. }
  destruct (find (Post.liked_by u) (Post.likes p)) as [l0|] eqn:Hf;
    rewrite Hex; cbn [negb].
  - split; [apply filter_not_liked|]. repeat (split; [reflexivity|]).
    now apply Hsaved.
  - split.
    { rewrite existsb_app, Hex. simpl. unfold Post.liked_by. simpl.
      now rewrite Nat.eqb_refl. }
    repeat (split; [reflexivity|]). now apply Hsaved.
Qed.

(** [addLike] is a toggle that keeps the counter right: afterwards
    [likesCount] is the length of [likes]; the caller likes the post exactly
    when they did not before; the likes of everyone else are as they were;
    a list with at most one like per account stays so; liking and then
    calling again gives back the list of likes one started from.  The save
    writes the post under its id and nothing else. *)
Theorem addLike_toggle now u p s :
  let p' := fst (Post.addLike now u p s) in
  let s' := snd (Post.addLike now u p s) in
  Post.likesCount p' = length (Post.likes p')
  /\ Post.isLikedBy u p' = negb (Post.isLikedBy u p)
  /\ (forall v, v <> u ->
        List.filter (Post.liked_by v) (Post.likes p')
        = List.filter (Post.liked_by v) (Post.likes p))
  /\ (List.NoDup (map Post.user (Post.likes p)) ->
      List.NoDup (map Post.user (Post.likes p')))
  /\ (Post.isLikedBy u p = false ->
      forall later s2,
        Post.likes (fst (Post.addLike later u p' s2)) = Post.likes p)
  /\ Post.p_id p' = Post.p_id p /\ Post.author p' = Post.author p
  /\ Post.content p' = Post.content p /\ Post.status p' = Post.status p
  /\ Post.db s' = Post.db s
  /\ map Post.p_id (Post.posts s') = map Post.p_id (Post.posts s)
  /\ (Post.findById (Post.p_id p) s <> None ->
      Post.findById (Post.p_id p) s' = Some p').
Proof.
  cbv zeta. unfold Post.addLike, Post.save, Post.pre_save, Post.set_likes,
    Post.isLikedBy. cbn [fst snd Post.likes Post.likesCount Post.p_id
                         Post.author Post.content Post.status Post.db
                         Post.posts Post.set_posts].
  pose proof (liked_by_find u (Post.likes p)) as Hex.
  destruct (find (Post.liked_by u) (Post.likes p)) as [l0|] eqn:Hf.
  - rewrite Hex. cbn [negb].
    split; [reflexivity|]. split; [apply filter_not_liked|].
    split; [intros v Hv; now apply filter_other_liked|].
    split; [apply NoDup_map_filter|]. split; [discriminate|].
    repeat (split; [reflexivity|]). split.
    + rewrite map_map. apply map_ext. intros x.
      destruct (Nat.eqb_spec (Post.p_id x) (Post.p_id p)); simpl; congruence.
    + intros Hfound. unfold Post.findById, Post.set_posts in *.
      cbn [Post.posts].
      match goal with
      | |- find _ (map _ _) = Some ?q => apply (find_saved q); exact Hfound
      end.
  - rewrite Hex. cbn [negb].
    split; [reflexivity|]. split.
    { rewrite existsb_app, Hex. simpl. unfold Post.liked_by. simpl.
      now rewrite Nat.eqb_refl. }
    split.
    { intros v Hv. rewrite List.filter_app. simpl. unfold Post.liked_by at 2.
      simpl. destruct (Nat.eqb_spec u v); [congruence|]. apply app_nil_r. }
    split.
    { intros Hnd. rewrite map_app. simpl.
      apply List.NoDup_app;
        [exact Hnd | repeat constructor; simpl; tauto |].
      intros x Hx [<-|[]]. apply in_map_iff in Hx as (l & Hl & Hin).
      eapply find_none in Hf; eauto. unfold Post.liked_by in Hf.
      rewrite Hl, Nat.eqb_refl in Hf. discriminate. }
    split.
    { intros _ later s2. rewrite find_append, Hf. simpl.
      unfold Post.liked_by at 1. simpl. rewrite Nat.eqb_refl.
      rewrite List.filter_app. simpl. unfold Post.liked_by at 2. simpl.
      rewrite Nat.eqb_refl. simpl. rewrite app_nil_r.
      now apply filter_not_liked_id. }
    repeat (split; [reflexivity|]). split.
    + rewrite map_map. apply map_ext. intros x.
      destruct (Nat.eqb_spec (Post.p_id x) (Post.p_id p)); simpl; congruence.
    + intros Hfound. unfold Post.findById, Post.set_posts in *.
      cbn [Post.posts].
      match goal with
      | |- find _ (map _ _) = Some ?q => apply (find_saved q); exact Hfound
      end.
Qed.

(** Bilal likes Aisha's post, then calls again. *)
Lemma addLike_toggle_witness :
  Post.isLikedBy 2 (fst (Post.addLike 50 2 post7 site0)) = true
  /\ Post.likes (fst (Post.addLike 60 2 (fst (Post.addLike 50 2 post7 site0))
                        site0)) = [].
Proof.
  destruct (addLike_toggle 50 2 post7 site0)
    as (_ & Hl & _ & _ & Hback & _).
  split; [exact Hl | exact (Hback eq_refl 60 site0)].
Defined.

Lemma findById_id id s post :
  Post.findById id s = Some post -> Post.p_id post = id.
Proof.
  unfold Post.findById. intros H. apply find_some in H as [_ H].
  now apply Nat.eqb_eq.
Qed.

(** [likePost] on a published post of the collection.  The post is saved
    with the caller's like toggled, whatever happens afterwards.  On one's
    own post nothing else is written.  On another's post, with a valid
    notification and a store that takes it, the author gets one
    [post_like] notification of priority low, and the answer is 200 with
    [isLiked] telling whether the caller likes the post now: when the
    caller had liked it already, the call removes the like, answers
    [isLiked: false] and still notifies the author.  When the notification
    is not written the handler does not answer, and the like stays. *)
Theorem likePost_effect up now user id s post :
  Post.findById id s = Some post -> Post.status post = Post.published ->
  let r := likePost up now user id s in
  let p' := fst (Post.addLike now (u_id user) post s) in
  let d := Post.db s in
  let d' := Post.db (snd r) in
  let was := Post.isLikedBy (u_id user) post in
  Post.posts (snd r) = Post.posts (snd (Post.addLike now (u_id user) post s))
  /\ Post.findById id (snd r) = Some p'
  /\ Post.isLikedBy (u_id user) p' = negb was
  /\ users d' = users d /\ connections d' = connections d
  /\ (Post.author post = u_id user ->
      responded (fst r) = true /\ d' = d
      /\ liked_flag (fst r) = Some (JBool (negb was)))
  /\ (Post.author post <> u_id user ->
      note_error "post_like" "Post Liked" (fullName user ++ " liked your post")
      = None ->
      up = true ->
      responded (fst r) = true
      /\ liked_flag (fst r) = Some (JBool (negb was))
      /\ exists n,
           notifications d' = notifications d ++ [n]
           /\ n_recipient n = Post.author post
           /\ n_sender n = Some (u_id user)
           /\ n_type n = "post_like" /\ n_priority n = low
           /\ n_relatedEntity n = Some id /\ n_isRead n = false)
  /\ (Post.author post <> u_id user -> up = false ->
      responded (fst r) = false /\ notifications d' = notifications d).
Proof.
  intros Hfind Hst. cbv zeta.
  pose proof (findById_id _ _ _ Hfind) as Hid.
  destruct (addLike_saved now (u_id user) post s)
    as (Hlk & Hpid & Hauth & Hdb & Hfound).
  cbv zeta in Hlk, Hpid, Hauth, Hdb, Hfound.
  rewrite Hid in Hfound.
  specialize (Hfound ltac:(congruence)).
  unfold likePost. rewrite Hfind, Hst.
  rewrite bool_decide_eq_true_2 by reflexivity. cbn [negb].
  destruct (Post.addLike now (u_id user) post s) as [p' s1] eqn:Hadd.
  cbn [fst snd] in *.
  rewrite Hauth.
  destruct (Nat.eqb_spec (Post.author post) (u_id user)) as [Eown|Hother];
    cbn [negb].
  - cbn [fst snd]. split; [reflexivity|]. split; [exact Hfound|].
    split; [exact Hlk|]. rewrite Hdb. split; [reflexivity|].
    split; [reflexivity|]. split.
    + intros _. split; [reflexivity|]. split; [reflexivity|].
      unfold like_response, liked_flag. cbn. now rewrite <- Hlk.
    + split; [intros; contradiction | intros; contradiction].
  - rewrite createNotification_run. cbv zeta.
    cbn [like_data Notification.type Notification.title Notification.message].
    destruct (note_error _ _ _) as [e|] eqn:Hne.
    + cbn [fst snd Post.set_db Post.posts Post.db].
      split; [reflexivity|]. split; [exact Hfound|]. split; [exact Hlk|].
      rewrite Hdb. split; [reflexivity|]. split; [reflexivity|].
      split; [intros; contradiction|]. split; [intros; discriminate|].
      intros _ _. split; reflexivity.
    + destruct up.
      * cbn [fst snd Post.set_db Post.posts Post.db].
        split; [reflexivity|]. split; [exact Hfound|]. split; [exact Hlk|].
        rewrite Hdb. split; [reflexivity|]. split; [reflexivity|].
        split; [intros; contradiction|]. split; [|intros; discriminate].
        intros _ _ _. split; [reflexivity|]. split.
        { unfold like_response, liked_flag. cbn. now rewrite <- Hlk. }
        eexists. split; [reflexivity|].
        unfold hooked, new_notification, like_data.
        cbn [Notification.priority default from_option n_priority].
        unfold Datatypes.id. rewrite bool_decide_eq_true_2 by reflexivity.
        cbn. rewrite Hauth, Hpid, Hid. repeat split; reflexivity.
      * cbn [fst snd Post.set_db Post.posts Post.db].
        split; [reflexivity|]. split; [exact Hfound|]. split; [exact Hlk|].
        rewrite Hdb. split; [reflexivity|]. split; [reflexivity|].
        split; [intros; contradiction|]. split; [intros; discriminate|].
        intros _ _. split; reflexivity.
Qed.

(** Bilal likes Aisha's post twice. *)
Lemma likePost_effect_witness :
  liked_flag (fst (likePost true 60 bilal 7
                     (snd (likePost true 50 bilal 7 site0))))
  = Some (JBool false)
  /\ length (notifications
               (Post.db (snd (likePost true 60 bilal 7
                                (snd (likePost true 50 bilal 7 site0)))))) = 2.
Proof.
  pose proof (likePost_effect true 60 bilal 7
                (snd (likePost true 50 bilal 7 site0))
                (fst (Post.addLike 50 2 post7 site0)) eq_refl eq_refl) as H.
  cbv zeta in H.
  destruct H as (_ & _ & _ & _ & _ & _ & Hnote & _).
  destruct Hnote as (_ & Hflag & n & Hn & _);
    [discriminate | reflexivity | reflexivity |].
  split; [exact Hflag|]. rewrite Hn, List.length_app. reflexivity.
Defined.

(** [unlikePost] performs the same toggle as [likePost] and sends no
    notification: both leave the same post collection; on a published post
    it answers 200 with [isLiked] telling whether the caller likes the post
    now, so calling it on a post one has not liked adds the like.  Both
    handlers answer 404 and write nothing when the post is missing or not
    published. *)
Theorem unlikePost_is_the_same_toggle up now user id s :
  let r := unlikePost now user id s in
  Post.posts (snd r) = Post.posts (snd (likePost up now user id s))
  /\ Post.db (snd r) = Post.db s
  /\ (forall post, Post.findById id s = Some post ->
        Post.status post = Post.published ->
        responded (fst r) = true
        /\ liked_flag (fst r)
           = Some (JBool (negb (Post.isLikedBy (u_id user) post)))
        /\ field "message" (body_of (fst r))
           = Some (JStr "Post unliked successfully"))
  /\ ((Post.findById id s = None
       \/ exists post, Post.findById id s = Some post
                       /\ Post.status post <> Post.published) ->
      r = (Next "Post not found" 404, s)
      /\ likePost up now user id s = (Next "Post not found" 404, s)).
Proof.
  cbv zeta. unfold unlikePost, likePost.
  destruct (Post.findById id s) as [post|] eqn:Hfind.
  - destruct (addLike_saved now (u_id user) post s)
      as (Hlk & _ & _ & Hdb & _).
    cbv zeta in Hlk, Hdb.
    destruct (bool_decide (Post.status post = Post.published)) eqn:Hst;
      cbn [negb].
    + destruct (Post.addLike now (u_id user) post s) as [p' s1] eqn:Hadd.
      cbn [fst snd] in *. split.
      { destruct (negb (Post.author p' =? u_id user)); [|reflexivity].
        destruct (Notification.createNotification _ _ _ _) as [[e|n] d'];
          reflexivity. }
      split; [exact Hdb|]. split.
      { intros post0 Heq _. injection Heq as <-.
        split; [reflexivity|]. split; [|reflexivity].
        unfold like_response, liked_flag. cbn. now rewrite <- Hlk. }
      intros [H|(post0 & Heq & Hns)]; [discriminate|].
      injection Heq as <-. apply bool_decide_eq_true_1 in Hst. contradiction.
    + cbn [fst snd]. split; [reflexivity|]. split; [reflexivity|]. split.
      { intros post0 Heq Hpub. injection Heq as <-.
        rewrite bool_decide_eq_true_2 in Hst by exact Hpub. discriminate. }
      intros _. split; reflexivity.
  - cbn [fst snd]. split; [reflexivity|]. split; [reflexivity|]. split.
    + intros post Heq. discriminate.
    + intros _. split; reflexivity.
Qed.

(** Bilal calls unlike on a post he has not liked. *)
Lemma unlikePost_is_the_same_toggle_witness :
  liked_flag (fst (unlikePost 50 bilal 7 site0)) = Some (JBool true).
Proof.
  destruct (unlikePost_is_the_same_toggle true 50 bilal 7 site0)
    as (_ & _ & H & _).
  destruct (H post7 eq_refl eq_refl) as (_ & Hflag & _).
  exact Hflag.
Defined.

(** *** The feed *)

Lemma insert_feed_perm c l : Permutation (Post.insert_feed c l) (c :: l).
Proof.
  induction l as [|x l IH]; simpl; [reflexivity|].
  destruct (Post.feed_before c x); [reflexivity|].
  rewrite IH. apply perm_swap.
Qed.

Lemma sort_feed_perm l : Permutation (Post.sort_feed l) l.
Proof.
  unfold Post.sort_feed.
  induction l as [|x l IH]; simpl; [reflexivity|].
  rewrite insert_feed_perm. now rewrite IH.
Qed.

Lemma getFeedPosts_page u page limit s :
  1 <= limit ->
  Post.getFeedPosts u page limit s
  = page_of page limit
      (Post.sort_feed (List.filter Post.in_feed (Post.posts s))).
Proof.
  intros Hl. unfold Post.getFeedPosts, Connection.take_limit. cbv zeta.
  destruct (Nat.eqb_spec limit 0); [lia | reflexivity].
Qed.

Lemma ceil_div_page shown limit :
  1 <= limit -> shown <= limit ->
  ceil_div shown limit = if shown =? 0 then 0 else 1.
Proof.
  intros Hl Hs. unfold ceil_div.
  destruct (Nat.eqb_spec shown 0) as [->|Hne].
  - apply Nat.div_small. lia.
  - symmetry. apply (Nat.div_unique _ _ 1 (shown - 1)); lia.
Qed.

(** The feed page.  [getFeed] writes nothing and lists
    [min limit (total - skip)] posts, all published and public, where
    [total] is the number of such posts; the list is the same for every
    caller.  Its pagination object is computed from the page alone:
    [totalPages] is 0 for an empty page and 1 otherwise, and [hasNext] is
    true exactly when the page is full, so on a full last page [hasNext]
    is true although the next page is empty. *)
Theorem getFeed_pagination user q_page q_limit s :
  let page := parse_or q_page 1 in
  let limit := parse_or q_limit 10 in
  let total := feed_total s in
  let r := getFeed user q_page q_limit s in
  let shown := length (data_list "posts" (fst r)) in
  snd r = s /\ responded (fst r) = true
  /\ shown = min limit (total - (page - 1) * limit)
  /\ (forall p, In p (Post.getFeedPosts (u_id user) page limit s) ->
        In p (Post.posts s) /\ Post.status p = Post.published
        /\ Post.visibility p = Post.vis_public)
  /\ (forall other,
        posts_field "_id" (fst (getFeed other q_page q_limit s))
        = posts_field "_id" (fst r))
  /\ pagination_field "totalPages" (fst r)
     = Some (JNum (if shown =? 0 then 0 else 1))
  /\ pagination_field "hasNext" (fst r) = Some (JBool (page * limit <=? total))
  /\ pagination_field "hasPrev" (fst r) = Some (JBool (1 <? page))
  /\ (total = page * limit ->
      pagination_field "hasNext" (fst r) = Some (JBool true)
      /\ data_list "posts" (fst (getFeed user (Some (S page)) q_limit s)) = []).
Proof.
  cbv zeta.
  pose proof (parse_or_pos q_limit 10 ltac:(lia)) as Hl.
  pose proof (parse_or_pos q_page 1 ltac:(lia)) as Hp.
  set (page := parse_or q_page 1) in *.
  set (limit := parse_or q_limit 10) in *.
  set (sorted := Post.sort_feed (List.filter Post.in_feed (Post.posts s))).
  assert (Hlen : length sorted = feed_total s)
    by (apply Permutation_length, sort_feed_perm).
  assert (Hshown : forall u,
            length (data_list "posts" (fst (getFeed u q_page q_limit s)))
            = min limit (feed_total s - (page - 1) * limit)).
  { intros u. unfold getFeed. cbv zeta. fold page limit.
    rewrite getFeedPosts_page by exact Hl. fold sorted.
    cbn. now rewrite length_map, page_length, Hlen. }
  assert (Hposts : forall u,
            length (Post.getFeedPosts u page limit s)
            = min limit (feed_total s - (page - 1) * limit)).
  { intros u. rewrite getFeedPosts_page by exact Hl. fold sorted.
    now rewrite page_length, Hlen. }
  assert (Hnext : pagination_field "hasNext" (fst (getFeed user q_page q_limit s))
                  = Some (JBool (page * limit <=? feed_total s))).
  { transitivity
      (Some (JBool (length (Post.getFeedPosts (u_id user) page limit s)
                    =? limit))); [reflexivity|].
    rewrite Hposts. do 2 f_equal.
    destruct (Nat.leb_spec (page * limit) (feed_total s)) as [H|H].
    - apply Nat.eqb_eq. nia.
    - apply Nat.eqb_neq. nia. }
  split; [reflexivity|]. split; [reflexivity|]. split; [apply Hshown|].
  split.
  { intros p Hin. rewrite getFeedPosts_page in Hin by exact Hl.
    apply In_page in Hin. apply (Permutation_in _ (sort_feed_perm _)) in Hin.
    apply filter_In in Hin as [Hin Hf]. split; [exact Hin|].
    unfold Post.in_feed in Hf. apply andb_prop in Hf as [H1 H2].
    split; [now apply bool_decide_eq_true_1 in H1
           | now apply bool_decide_eq_true_1 in H2]. }
  split.
  { intros other. unfold posts_field, getFeed. cbv zeta. fold page limit.
    rewrite !getFeedPosts_page by exact Hl. fold sorted.
    cbn. rewrite !map_map. reflexivity. }
  split.
  { rewrite Hshown.
    transitivity
      (Some (JNum (Z.of_nat
                     (ceil_div (length (Post.getFeedPosts (u_id user) page
                                          limit s)) limit))));
      [reflexivity|].
    rewrite Hposts, ceil_div_page by lia.
    now destruct (_ =? 0). }
  split; [exact Hnext|]. split; [reflexivity|].
  intros Htot. split.
  { rewrite Hnext. do 2 f_equal. apply Nat.leb_le. lia. }
  unfold getFeed. cbv zeta. fold limit.
  change (parse_or (Some (S page)) 1) with (S page).
  rewrite getFeedPosts_page by exact Hl. fold sorted.
  unfold page_of. rewrite skipn_all2; [now rewrite firstn_nil|].
  rewrite Hlen. simpl. lia.
Qed.

(** A feed of one post read with a page size of 1. *)
Lemma getFeed_pagination_witness :
  pagination_field "hasNext" (fst (getFeed bilal None (Some 1) site0))
  = Some (JBool true)
  /\ data_list "posts" (fst (getFeed bilal (Some 2) (Some 1) site0)) = [].
Proof.
  destruct (getFeed_pagination bilal None (Some 1) site0)
    as (_ & _ & _ & _ & _ & _ & _ & _ & H).
  exact (H eq_refl).
Defined.
